(** * site-geav-api: the audit-logging pipeline and the request router

    A shallow embedding of [internal/logger/logger.go],
    [internal/logger/db_logger.go] (which also carries the CloudWatch sink)
    and of the [router] of [cmd/users/main.go].

    Everything outside the repository is kept apart from the code that is
    verified:
    - the wall clock, standard output, the [*sql.DB] handle and the
      CloudWatch client are components of a [World] that every call threads
      through; whether a statement or a remote call fails is decided by an
      oracle stored in the world, so the theorems hold for every pattern of
      failures;
    - [encoding/json] is a pair of functions of a class [JSON], of which the
      theorems assume nothing. *)

From stdpp Require Import base option list strings gmap pretty.
From Stdlib Require Import ZArith Lia Ascii.

Local Open Scope string_scope.
Local Open Scope list_scope.

(** ** A fragment of Go *)

Module Go.

(** What an [interface{}] holds in this program: metadata values, context
    keys and context values.  [VInt] is Go's [int], [VInt64] an [int64];
    [VChan] stands for the values [encoding/json] has no encoding for. *)
Inductive value : Type :=
| VNil
| VBool (b : bool)
| VInt (n : Z)
| VInt64 (n : Z)
| VString (s : string)
| VChan (id : nat).

#[global] Instance value_eq_dec : EqDecision value.
Proof. solve_decision. Defined.

(** [s, ok := v.(string)] *)
Definition assert_string (v : value) : string * bool :=
  match v with
  | VString s => (s, true)
  | _ => ("", false)
  end.

(** [n, ok := v.(int)] *)
Definition assert_int (v : value) : Z * bool :=
  match v with
  | VInt n => (n, true)
  | _ => (0%Z, false)
  end.

(** A non-nil [error]; [Error] is its [Error()] method. *)
Record error_value : Type := errorString { Error : string }.

(** The [error] interface: [None] is [nil]. *)
Definition error : Type := option error_value.

(** A [map[string]interface{}]: [None] is the nil map. *)
Definition map : Type := option (gmap string value).

(** [m[k]]: a key that is not in the map reads as the zero value, the nil
    interface. *)
Definition index (m : gmap string value) (k : string) : value :=
  default VNil (m !! k).

(** The result of a call that may panic. *)
Inductive outcome (A : Type) : Type :=
| Returns (a : A)
| Panics (msg : string).
Arguments Returns {A} a.
Arguments Panics {A} msg.

End Go.

(** ** package context *)

Module context.

(** A non-nil [context.Context]: [context.Background()] or a value context
    stacked on a parent by [context.WithValue]. *)
Inductive node : Type :=
| Background
| valueCtx (parent : node) (key val : Go.value).

(** The interface type; [None] is the nil interface. *)
Definition Context : Type := option node.

(** [c.Value(key)]: the innermost binding of [key], the nil interface when
    there is none. *)
Fixpoint Value (c : node) (key : Go.value) : Go.value :=
  match c with
  | Background => Go.VNil
  | valueCtx parent k v => if decide (k = key) then v else Value parent key
  end.

(** [context.WithValue(parent, key, val)] panics on a nil parent. *)
Definition WithValue (parent : Context) (key val : Go.value) : Go.outcome Context :=
  match parent with
  | None => Go.Panics "cannot create context from nil parent"
  | Some p => Go.Returns (Some (valueCtx p key val))
  end.

End context.

(** ** package logger: logger.go *)

(** [time.Time], as an instant in nanoseconds. *)
Definition Time : Type := Z.

Definition LogLevel : Type := string.

Definition DEBUG : LogLevel := "DEBUG".
Definition INFO : LogLevel := "INFO".
Definition WARN : LogLevel := "WARN".
Definition ERROR : LogLevel := "ERROR".
Definition FATAL : LogLevel := "FATAL".

Record LogEntry : Type := mkLogEntry {
  Timestamp : Time;
  Level : LogLevel;
  Message : string;
  ServiceName : string;
  RequestID : string;
  UserID : Z;
  Action : string;
  Resource : string;
  ResourceID : string;
  Metadata : Go.map;
  Error : Go.error
}.

(** Assignments to single fields of an entry. *)
Definition set_Metadata (m : Go.map) (e : LogEntry) : LogEntry :=
  mkLogEntry (Timestamp e) (Level e) (Message e) (ServiceName e) (RequestID e)
    (UserID e) (Action e) (Resource e) (ResourceID e) m (Error e).
Definition set_Action (s : string) (e : LogEntry) : LogEntry :=
  mkLogEntry (Timestamp e) (Level e) (Message e) (ServiceName e) (RequestID e)
    (UserID e) s (Resource e) (ResourceID e) (Metadata e) (Error e).
Definition set_Resource (s : string) (e : LogEntry) : LogEntry :=
  mkLogEntry (Timestamp e) (Level e) (Message e) (ServiceName e) (RequestID e)
    (UserID e) (Action e) s (ResourceID e) (Metadata e) (Error e).
Definition set_ResourceID (s : string) (e : LogEntry) : LogEntry :=
  mkLogEntry (Timestamp e) (Level e) (Message e) (ServiceName e) (RequestID e)
    (UserID e) (Action e) (Resource e) s (Metadata e) (Error e).

(** [GetRequestIDFromContext] *)
Definition GetRequestIDFromContext (ctx : context.Context) : string :=
  match ctx with
  | None => ""
  | Some c =>
      let '(requestID, ok) := Go.assert_string (context.Value c (Go.VString "requestID")) in
      if ok then requestID else ""
  end.

(** [GetUserIDFromContext] *)
Definition GetUserIDFromContext (ctx : context.Context) : Z :=
  match ctx with
  | None => 0%Z
  | Some c =>
      let '(userID, ok) := Go.assert_int (context.Value c (Go.VString "userID")) in
      if ok then userID else 0%Z
  end.

(** The [Logger] interface, over the state [Σ] its implementations act on.
    A method returns nothing: it is a transformer of the state. *)
Module Logger.

Record t (Σ : Type) : Type := mk {
  Debug : context.Context -> string -> list Go.map -> Σ -> Σ;
  Info : context.Context -> string -> list Go.map -> Σ -> Σ;
  Warn : context.Context -> string -> list Go.map -> Σ -> Σ;
  Error : context.Context -> string -> Go.error -> list Go.map -> Σ -> Σ;
  Fatal : context.Context -> string -> Go.error -> list Go.map -> Σ -> Σ
}.
Arguments mk {Σ}.
Arguments Debug {Σ}.
Arguments Info {Σ}.
Arguments Warn {Σ}.
Arguments Error {Σ}.
Arguments Fatal {Σ}.

(** One call of a method of the interface, with its arguments. *)
Inductive call : Type :=
| CallDebug (ctx : context.Context) (message : string) (metadata : list Go.map)
| CallInfo (ctx : context.Context) (message : string) (metadata : list Go.map)
| CallWarn (ctx : context.Context) (message : string) (metadata : list Go.map)
| CallError (ctx : context.Context) (message : string) (err : Go.error) (metadata : list Go.map)
| CallFatal (ctx : context.Context) (message : string) (err : Go.error) (metadata : list Go.map).

(** Dynamic dispatch of a call on an interface value. *)
Definition invoke {Σ : Type} (l : t Σ) (c : call) : Σ -> Σ :=
  match c with
  | CallDebug ctx message metadata => Debug l ctx message metadata
  | CallInfo ctx message metadata => Info l ctx message metadata
  | CallWarn ctx message metadata => Warn l ctx message metadata
  | CallError ctx message err metadata => Error l ctx message err metadata
  | CallFatal ctx message err metadata => Fatal l ctx message err metadata
  end.

(** The arguments of a call. *)
Definition ctx_of (c : call) : context.Context :=
  match c with
  | CallDebug ctx _ _ | CallInfo ctx _ _ | CallWarn ctx _ _
  | CallError ctx _ _ _ | CallFatal ctx _ _ _ => ctx
  end.

Definition metadata_of (c : call) : list Go.map :=
  match c with
  | CallDebug _ _ metadata | CallInfo _ _ metadata | CallWarn _ _ metadata
  | CallError _ _ _ metadata | CallFatal _ _ _ metadata => metadata
  end.

(** The error argument; the methods that take none pass [nil] on. *)
Definition err_of (c : call) : Go.error :=
  match c with
  | CallDebug _ _ _ | CallInfo _ _ _ | CallWarn _ _ _ => None
  | CallError _ _ err _ | CallFatal _ _ err _ => err
  end.

(** The same call with other variadic arguments. *)
Definition with_metadata (metadata : list Go.map) (c : call) : call :=
  match c with
  | CallDebug ctx message _ => CallDebug ctx message metadata
  | CallInfo ctx message _ => CallInfo ctx message metadata
  | CallWarn ctx message _ => CallWarn ctx message metadata
  | CallError ctx message err _ => CallError ctx message err metadata
  | CallFatal ctx message err _ => CallFatal ctx message err metadata
  end.

End Logger.

(** [for _, x := range xs { body(x) }] *)
Fixpoint for_range {A Σ : Type} (xs : list A) (body : A -> Σ -> Σ) (σ : Σ) : Σ :=
  match xs with
  | [] => σ
  | x :: rest => for_range rest body (body x σ)
  end.

Record CompositeLogger (Σ : Type) : Type := mkCompositeLogger {
  loggers : list (Logger.t Σ)
}.
Arguments mkCompositeLogger {Σ}.
Arguments loggers {Σ}.

Definition NewCompositeLogger {Σ : Type} (loggers : list (Logger.t Σ)) : CompositeLogger Σ :=
  mkCompositeLogger loggers.

Definition CompositeLogger_Debug {Σ : Type} (l : CompositeLogger Σ)
    (ctx : context.Context) (message : string) (metadata : list Go.map) : Σ -> Σ :=
  for_range (loggers l) (fun logger => Logger.Debug logger ctx message metadata).

Definition CompositeLogger_Info {Σ : Type} (l : CompositeLogger Σ)
    (ctx : context.Context) (message : string) (metadata : list Go.map) : Σ -> Σ :=
  for_range (loggers l) (fun logger => Logger.Info logger ctx message metadata).

Definition CompositeLogger_Warn {Σ : Type} (l : CompositeLogger Σ)
    (ctx : context.Context) (message : string) (metadata : list Go.map) : Σ -> Σ :=
  for_range (loggers l) (fun logger => Logger.Warn logger ctx message metadata).

Definition CompositeLogger_Error {Σ : Type} (l : CompositeLogger Σ)
    (ctx : context.Context) (message : string) (err : Go.error) (metadata : list Go.map) : Σ -> Σ :=
  for_range (loggers l) (fun logger => Logger.Error logger ctx message err metadata).

Definition CompositeLogger_Fatal {Σ : Type} (l : CompositeLogger Σ)
    (ctx : context.Context) (message : string) (err : Go.error) (metadata : list Go.map) : Σ -> Σ :=
  for_range (loggers l) (fun logger => Logger.Fatal logger ctx message err metadata).

(** [*CompositeLogger] implements [Logger]. *)
Definition CompositeLogger_Logger {Σ : Type} (l : CompositeLogger Σ) : Logger.t Σ :=
  Logger.mk (CompositeLogger_Debug l) (CompositeLogger_Info l) (CompositeLogger_Warn l)
    (CompositeLogger_Error l) (CompositeLogger_Fatal l).

(** ** The world outside the repository *)

(** An argument of [ExecContext], by its Go type.  [ArgNil] is the untyped
    [nil], the one argument [database/sql] stores as SQL NULL whatever the
    driver; [ArgBytes None] is a nil [[]byte]. *)
Inductive sql_arg : Type :=
| ArgNil
| ArgTime (t : Time)
| ArgString (s : string)
| ArgInt (n : Z)
| ArgBytes (b : option string).

#[global] Instance sql_arg_eq_dec : EqDecision sql_arg.
Proof. solve_decision. Defined.

(** The eleven arguments of the INSERT of [logToDB], by column. *)
Record insert_args : Type := mkInsertArgs {
  col_timestamp : sql_arg;
  col_level : sql_arg;
  col_message : sql_arg;
  col_service_name : sql_arg;
  col_request_id : sql_arg;
  col_user_id : sql_arg;
  col_action : sql_arg;
  col_resource : sql_arg;
  col_resource_id : sql_arg;
  col_metadata : sql_arg;
  col_error_message : sql_arg
}.

(** The two statements the logger sends, by the table name spliced into
    their text: [CREATE TABLE IF NOT EXISTS %s (...)] and
    [INSERT INTO %s (...) VALUES ($1, ..., $11)]. *)
Inductive statement : Type :=
| CreateTableIfNotExists (table : string)
| InsertInto (table : string) (args : insert_args).

Module Dimension.
Record t : Type := mk { Name : string; Value : string }.
End Dimension.

Module MetricDatum.
(** [Value] is the count the datum carries ([1.0] in the source). *)
Record t : Type := mk {
  MetricName : string;
  Dimensions : list Dimension.t;
  Timestamp : Time;
  Value : Z;
  Unit : string
}.
End MetricDatum.

Module cloudwatch.
Record PutMetricDataInput : Type := mkInput {
  Namespace : string;
  MetricData : list MetricDatum.t
}.
End cloudwatch.

(** The state the two sinks act on.  [clock n] is what the [n]-th call of
    [time.Now()] returns; [db_fault n] and [cw_fault n] are the errors
    returned by the [n]-th statement and the [n]-th remote call ([None]:
    success).  [stdout] has one element per write, [db_execs] the
    statements sent through the [*sql.DB] handle and [cw_puts] the inputs
    sent through the CloudWatch client, oldest first. *)
Record World : Type := mkWorld {
  clock : nat -> Time;
  now_calls : nat;
  stdout : list string;
  db_fault : nat -> Go.error;
  db_execs : list statement;
  cw_fault : nat -> Go.error;
  cw_puts : list cloudwatch.PutMetricDataInput
}.

(** Computations on the world. *)
Definition M (A : Type) : Type := World -> A * World.

Definition ret {A : Type} (a : A) : M A := fun w => (a, w).

Definition bind {A B : Type} (m : M A) (k : A -> M B) : M B :=
  fun w => let '(a, w') := m w in k a w'.

Notation "x <- m ;; k" := (bind m (fun x => k))
  (at level 100, m at next level, right associativity).

Definition exec {A : Type} (m : M A) (w : World) : World := snd (m w).

(** [time.Now()] *)
Definition time_Now : M Time := fun w =>
  (clock w (now_calls w),
   mkWorld (clock w) (S (now_calls w)) (stdout w) (db_fault w) (db_execs w)
     (cw_fault w) (cw_puts w)).

(** The line feed that ends every line the logger writes. *)
Definition LF : string := String "010"%char "".

(** [fmt.Printf] and [fmt.Println], by the text they write. *)
Definition fmt_Print (text : string) : M unit := fun w =>
  (tt,
   mkWorld (clock w) (now_calls w) (stdout w ++ [text]) (db_fault w) (db_execs w)
     (cw_fault w) (cw_puts w)).

(** [db.ExecContext(ctx, query, args...)] when it returns, its result
    dropped but the error; [runtime.ExecContext] has its panic on the nil
    context. *)
Definition db_ExecContext (ctx : context.Context) (st : statement) : M Go.error := fun w =>
  (db_fault w (length (db_execs w)),
   mkWorld (clock w) (now_calls w) (stdout w) (db_fault w) (db_execs w ++ [st])
     (cw_fault w) (cw_puts w)).

(** [client.PutMetricData(ctx, input)] when it returns, its output dropped
    but the error; [runtime.PutMetricData] has its panic on the nil
    context. *)
Definition client_PutMetricData (ctx : context.Context)
    (input : cloudwatch.PutMetricDataInput) : M Go.error := fun w =>
  (cw_fault w (length (cw_puts w)),
   mkWorld (clock w) (now_calls w) (stdout w) (db_fault w) (db_execs w)
     (cw_fault w) (cw_puts w ++ [input])).

(** [encoding/json]: [json.Marshal] on a metadata map and on an entry; the
    bytes on success, the error otherwise. *)
Class JSON : Type := {
  Marshal_map : gmap string Go.value -> string + Go.error_value;
  Marshal_entry : LogEntry -> string + Go.error_value
}.

(** ** package logger: db_logger.go *)

Section Sinks.

Context `{json : JSON}.

(** *** The database sink *)

(** The [db] field is the one handle of the world. *)
Record DBLogger : Type := mkDBLogger {
  db_serviceName : string;
  tableName : string
}.

Definition NewDBLogger (serviceName tableName : string) : DBLogger :=
  mkDBLogger serviceName tableName.

Definition ensureLogTable (l : DBLogger) (ctx : context.Context) : M Go.error :=
  db_ExecContext ctx (CreateTableIfNotExists (tableName l)).

Definition DBLogger_createLogEntry (l : DBLogger) (ctx : context.Context)
    (level : LogLevel) (message : string) (err : Go.error)
    (metadata : list Go.map) : M LogEntry :=
  now <- time_Now ;;
  let entry :=
    mkLogEntry now level message (db_serviceName l) (GetRequestIDFromContext ctx)
      (GetUserIDFromContext ctx) "" "" "" None err in
  (* Merge metadata *)
  let entry :=
    match metadata with
    | metadata_0 :: _ => set_Metadata metadata_0 entry
    | [] => entry
    end in
  (* Extract action, resource, and resourceID from metadata if available *)
  let entry :=
    match Metadata entry with
    | Some m =>
        let entry :=
          let '(action, ok) := Go.assert_string (Go.index m "action") in
          if ok then set_Action action entry else entry in
        let entry :=
          let '(resource, ok) := Go.assert_string (Go.index m "resource") in
          if ok then set_Resource resource entry else entry in
        let entry :=
          let '(resourceID, ok) := Go.assert_string (Go.index m "resource_id") in
          if ok then set_ResourceID resourceID entry else entry in
        entry
    | None => entry
    end in
  ret entry.

(** The block "Convert metadata to JSON" of [logToDB]: [metadataJSON] stays
    the nil slice when the entry has no metadata. *)
Definition marshal_metadata (entry : LogEntry) : option string + Go.error_value :=
  match Metadata entry with
  | Some m =>
      match Marshal_map m with
      | inl bytes => inl (Some bytes)
      | inr e => inr e
      end
  | None => inl None
  end.

(** The arguments [logToDB] passes to the INSERT, in the order of its
    columns. *)
Definition insertArgs (entry : LogEntry) (metadataJSON : option string)
    (errorMessage : string) : insert_args :=
  mkInsertArgs
    (ArgTime (Timestamp entry))
    (ArgString (Level entry))
    (ArgString (Message entry))
    (ArgString (ServiceName entry))
    (ArgString (RequestID entry))
    (ArgInt (UserID entry))
    (ArgString (Action entry))
    (ArgString (Resource entry))
    (ArgString (ResourceID entry))
    (ArgBytes metadataJSON)
    (ArgString errorMessage).

Definition logToDB (l : DBLogger) (ctx : context.Context) (entry : LogEntry) : M unit :=
  (* Ensure log table exists *)
  err <- ensureLogTable l ctx ;;
  match err with
  | Some e => fmt_Print ("Error ensuring log table: " +:+ Go.Error e +:+ LF)
  | None =>
      (* Convert metadata to JSON *)
      match marshal_metadata entry with
      | inr e => fmt_Print ("Error marshaling metadata: " +:+ Go.Error e +:+ LF)
      | inl metadataJSON =>
          (* Get error message if error is not nil *)
          let errorMessage :=
            match Error entry with
            | Some e => Go.Error e
            | None => ""
            end in
          (* Insert log entry into database *)
          err <- db_ExecContext ctx
                   (InsertInto (tableName l) (insertArgs entry metadataJSON errorMessage)) ;;
          match err with
          | Some e => fmt_Print ("Error inserting log entry: " +:+ Go.Error e +:+ LF)
          | None => ret tt
          end
      end
  end.

Definition DBLogger_Debug (l : DBLogger) (ctx : context.Context) (message : string)
    (metadata : list Go.map) : M unit :=
  entry <- DBLogger_createLogEntry l ctx DEBUG message None metadata ;;
  logToDB l ctx entry.

Definition DBLogger_Info (l : DBLogger) (ctx : context.Context) (message : string)
    (metadata : list Go.map) : M unit :=
  entry <- DBLogger_createLogEntry l ctx INFO message None metadata ;;
  logToDB l ctx entry.

Definition DBLogger_Warn (l : DBLogger) (ctx : context.Context) (message : string)
    (metadata : list Go.map) : M unit :=
  entry <- DBLogger_createLogEntry l ctx WARN message None metadata ;;
  logToDB l ctx entry.

Definition DBLogger_Error (l : DBLogger) (ctx : context.Context) (message : string)
    (err : Go.error) (metadata : list Go.map) : M unit :=
  entry <- DBLogger_createLogEntry l ctx ERROR message err metadata ;;
  logToDB l ctx entry.

Definition DBLogger_Fatal (l : DBLogger) (ctx : context.Context) (message : string)
    (err : Go.error) (metadata : list Go.map) : M unit :=
  entry <- DBLogger_createLogEntry l ctx FATAL message err metadata ;;
  logToDB l ctx entry.

(** [*DBLogger] implements [Logger]. *)
Definition DBLogger_Logger (l : DBLogger) : Logger.t World :=
  Logger.mk
    (fun ctx message metadata => exec (DBLogger_Debug l ctx message metadata))
    (fun ctx message metadata => exec (DBLogger_Info l ctx message metadata))
    (fun ctx message metadata => exec (DBLogger_Warn l ctx message metadata))
    (fun ctx message err metadata => exec (DBLogger_Error l ctx message err metadata))
    (fun ctx message err metadata => exec (DBLogger_Fatal l ctx message err metadata)).

(** *** The CloudWatch sink *)

(** The [client] field is the one client of the world. *)
Record CloudWatchLogger : Type := mkCloudWatchLogger {
  cw_serviceName : string;
  namespace : string
}.

Definition NewCloudWatchLogger (serviceName namespace : string) : CloudWatchLogger :=
  mkCloudWatchLogger serviceName namespace.

Definition CloudWatchLogger_createLogEntry (l : CloudWatchLogger) (ctx : context.Context)
    (level : LogLevel) (message : string) (err : Go.error)
    (metadata : list Go.map) : M LogEntry :=
  now <- time_Now ;;
  let entry :=
    mkLogEntry now level message (cw_serviceName l) (GetRequestIDFromContext ctx)
      (GetUserIDFromContext ctx) "" "" "" None err in
  (* Merge metadata *)
  let entry :=
    match metadata with
    | metadata_0 :: _ => set_Metadata metadata_0 entry
    | [] => entry
    end in
  (* Extract action, resource, and resourceID from metadata if available *)
  let entry :=
    match Metadata entry with
    | Some m =>
        let entry :=
          let '(action, ok) := Go.assert_string (Go.index m "action") in
          if ok then set_Action action entry else entry in
        let entry :=
          let '(resource, ok) := Go.assert_string (Go.index m "resource") in
          if ok then set_Resource resource entry else entry in
        let entry :=
          let '(resourceID, ok) := Go.assert_string (Go.index m "resource_id") in
          if ok then set_ResourceID resourceID entry else entry in
        entry
    | None => entry
    end in
  ret entry.

(** The metric name of [putMetricData]:
    [fmt.Sprintf("%s_%s", entry.Level, entry.Resource)], replaced by the
    level when it is the empty string. *)
Definition metricName (entry : LogEntry) : string :=
  let metricName := Level entry +:+ "_" +:+ Resource entry in
  if decide (metricName = "") then Level entry else metricName.

Definition dimensions (l : CloudWatchLogger) (entry : LogEntry) : list Dimension.t :=
  let dimensions := [Dimension.mk "ServiceName" (cw_serviceName l)] in
  let dimensions :=
    if decide (Resource entry ≠ "")
    then dimensions ++ [Dimension.mk "Resource" (Resource entry)]
    else dimensions in
  let dimensions :=
    if decide (Action entry ≠ "")
    then dimensions ++ [Dimension.mk "Action" (Action entry)]
    else dimensions in
  dimensions.

Definition putMetricData (l : CloudWatchLogger) (ctx : context.Context)
    (entry : LogEntry) : M Go.error :=
  client_PutMetricData ctx
    (cloudwatch.mkInput (namespace l)
       [MetricDatum.mk (metricName entry) (dimensions l entry) (Timestamp entry) 1%Z "Count"]).

Definition logToCloudWatch (l : CloudWatchLogger) (ctx : context.Context)
    (entry : LogEntry) : M unit :=
  (* Convert entry to JSON *)
  match Marshal_entry entry with
  | inr e => fmt_Print ("Error marshaling log entry: " +:+ Go.Error e +:+ LF)
  | inl jsonData =>
      (* Log to CloudWatch *)
      err <- putMetricData l ctx entry ;;
      _ <- match err with
           | Some e => fmt_Print ("Error sending metric to CloudWatch: " +:+ Go.Error e +:+ LF)
           | None => ret tt
           end ;;
      (* Print to console for local development *)
      fmt_Print (jsonData +:+ LF)
  end.

Definition CloudWatchLogger_Debug (l : CloudWatchLogger) (ctx : context.Context)
    (message : string) (metadata : list Go.map) : M unit :=
  entry <- CloudWatchLogger_createLogEntry l ctx DEBUG message None metadata ;;
  logToCloudWatch l ctx entry.

Definition CloudWatchLogger_Info (l : CloudWatchLogger) (ctx : context.Context)
    (message : string) (metadata : list Go.map) : M unit :=
  entry <- CloudWatchLogger_createLogEntry l ctx INFO message None metadata ;;
  logToCloudWatch l ctx entry.

Definition CloudWatchLogger_Warn (l : CloudWatchLogger) (ctx : context.Context)
    (message : string) (metadata : list Go.map) : M unit :=
  entry <- CloudWatchLogger_createLogEntry l ctx WARN message None metadata ;;
  logToCloudWatch l ctx entry.

Definition CloudWatchLogger_Error (l : CloudWatchLogger) (ctx : context.Context)
    (message : string) (err : Go.error) (metadata : list Go.map) : M unit :=
  entry <- CloudWatchLogger_createLogEntry l ctx ERROR message err metadata ;;
  logToCloudWatch l ctx entry.

Definition CloudWatchLogger_Fatal (l : CloudWatchLogger) (ctx : context.Context)
    (message : string) (err : Go.error) (metadata : list Go.map) : M unit :=
  entry <- CloudWatchLogger_createLogEntry l ctx FATAL message err metadata ;;
  logToCloudWatch l ctx entry.

(** [*CloudWatchLogger] implements [Logger]. *)
Definition CloudWatchLogger_Logger (l : CloudWatchLogger) : Logger.t World :=
  Logger.mk
    (fun ctx message metadata => exec (CloudWatchLogger_Debug l ctx message metadata))
    (fun ctx message metadata => exec (CloudWatchLogger_Info l ctx message metadata))
    (fun ctx message metadata => exec (CloudWatchLogger_Warn l ctx message metadata))
    (fun ctx message err metadata => exec (CloudWatchLogger_Error l ctx message err metadata))
    (fun ctx message err metadata => exec (CloudWatchLogger_Fatal l ctx message err metadata)).

(** *** The five methods at once *)

(** The entry a call builds: the first statement of the method called. *)
Definition DBLogger_entry (l : DBLogger) (c : Logger.call) : M LogEntry :=
  match c with
  | Logger.CallDebug ctx message metadata =>
      DBLogger_createLogEntry l ctx DEBUG message None metadata
  | Logger.CallInfo ctx message metadata =>
      DBLogger_createLogEntry l ctx INFO message None metadata
  | Logger.CallWarn ctx message metadata =>
      DBLogger_createLogEntry l ctx WARN message None metadata
  | Logger.CallError ctx message err metadata =>
      DBLogger_createLogEntry l ctx ERROR message err metadata
  | Logger.CallFatal ctx message err metadata =>
      DBLogger_createLogEntry l ctx FATAL message err metadata
  end.

Definition CloudWatchLogger_entry (l : CloudWatchLogger) (c : Logger.call) : M LogEntry :=
  match c with
  | Logger.CallDebug ctx message metadata =>
      CloudWatchLogger_createLogEntry l ctx DEBUG message None metadata
  | Logger.CallInfo ctx message metadata =>
      CloudWatchLogger_createLogEntry l ctx INFO message None metadata
  | Logger.CallWarn ctx message metadata =>
      CloudWatchLogger_createLogEntry l ctx WARN message None metadata
  | Logger.CallError ctx message err metadata =>
      CloudWatchLogger_createLogEntry l ctx ERROR message err metadata
  | Logger.CallFatal ctx message err metadata =>
      CloudWatchLogger_createLogEntry l ctx FATAL message err metadata
  end.

(** The two concrete sinks of the repository. *)
Inductive sink : Type :=
| CloudWatch (l : CloudWatchLogger)
| Database (l : DBLogger).

Definition sink_Logger (s : sink) : Logger.t World :=
  match s with
  | CloudWatch l => CloudWatchLogger_Logger l
  | Database l => DBLogger_Logger l
  end.

Definition sink_entry (s : sink) (c : Logger.call) : M LogEntry :=
  match s with
  | CloudWatch l => CloudWatchLogger_entry l c
  | Database l => DBLogger_entry l c
  end.

(** The write that follows the construction of the entry. *)
Definition sink_write (s : sink) (ctx : context.Context) (entry : LogEntry) : M unit :=
  match s with
  | CloudWatch l => logToCloudWatch l ctx entry
  | Database l => logToDB l ctx entry
  end.

Definition sink_serviceName (s : sink) : string :=
  match s with
  | CloudWatch l => cw_serviceName l
  | Database l => db_serviceName l
  end.

(** The logger [init] of cmd/users/main.go wires. *)
Definition log : Logger.t World :=
  CompositeLogger_Logger
    (NewCompositeLogger
       [CloudWatchLogger_Logger (NewCloudWatchLogger "site-geav-api" "SiteGeav/API");
        DBLogger_Logger (NewDBLogger "site-geav-api" "api_logs")]).

End Sinks.

(** ** Sinks under observation *)

(** [probe i l] is the sink [l] with a record kept of the calls it receives:
    each call is passed on to [l] as it is, and noted with the index [i]. *)
Definition probe {Σ : Type} (i : nat) (l : Logger.t Σ) : Logger.t (Σ * list (nat * Logger.call)) :=
  let observe (c : Logger.call) (st : Σ * list (nat * Logger.call)) :=
    (Logger.invoke l c st.1, st.2 ++ [(i, c)]) in
  Logger.mk
    (fun ctx message metadata => observe (Logger.CallDebug ctx message metadata))
    (fun ctx message metadata => observe (Logger.CallInfo ctx message metadata))
    (fun ctx message metadata => observe (Logger.CallWarn ctx message metadata))
    (fun ctx message err metadata => observe (Logger.CallError ctx message err metadata))
    (fun ctx message err metadata => observe (Logger.CallFatal ctx message err metadata)).

(** ** cmd/users/main.go: the router *)

Module events.

(** The fields of [events.APIGatewayProxyRequest] the router reads, and
    [RequestContext.Authorizer], where API Gateway puts the claims of the
    caller. *)
Record APIGatewayProxyRequest : Type := mkRequest {
  Resource : string;
  HTTPMethod : string;
  Headers : gmap string string;
  Authorizer : gmap string Go.value
}.

Record APIGatewayProxyResponse : Type := mkResponse {
  StatusCode : Z;
  ResponseHeaders : gmap string string;
  Body : string
}.

End events.

Module main.

(** The handler methods the router calls. *)
Inductive handler : Type :=
| ListUsers | GetUser | CreateUser | UpdateUser | DeleteUser
| ListCancoes | GetCancao | CreateCancao | UpdateCancao | DeleteCancao
| AddTagToCancao | AddRamoToCancao | RemoveTagFromCancao | RemoveRamoFromCancao
| ListLugares | GetLugar | GetRatingsForLugar | CreateLugar | UpdateLugar | DeleteLugar
| AddImageToLugar | AddTagToLugar | AddRamoToLugar | AddRatingToLugar
| UpdateRatingForLugar | DeleteImageFromLugar | RemoveTagFromLugar
| RemoveRamoFromLugar | DeleteRatingFromLugar.

(** What a call of [router] ends in: a call of a handler, with the context
    and the request passed to it, or a response of its own. *)
Inductive dispatch : Type :=
| Handle (h : handler) (ctx : context.Context) (request : events.APIGatewayProxyRequest)
| Respond (response : events.APIGatewayProxyResponse).

Definition DQ : string := String "034"%char "".

(** The [switch] on the HTTP method and the resource. *)
Definition route (request : events.APIGatewayProxyRequest) : option handler :=
  let resource := events.Resource request in
  if String.eqb (events.HTTPMethod request) "GET" then
    if String.eqb resource "/users" then Some ListUsers
    else if String.eqb resource "/users/{id}" then Some GetUser
    else if String.eqb resource "/cancoes" then Some ListCancoes
    else if String.eqb resource "/cancoes/{id}" then Some GetCancao
    else if String.eqb resource "/lugares" then Some ListLugares
    else if String.eqb resource "/lugares/{id}" then Some GetLugar
    else if String.eqb resource "/lugares/{id}/ratings" then Some GetRatingsForLugar
    else None
  else if String.eqb (events.HTTPMethod request) "POST" then
    if String.eqb resource "/users" then Some CreateUser
    else if String.eqb resource "/cancoes" then Some CreateCancao
    else if String.eqb resource "/cancoes/{id}/tags" then Some AddTagToCancao
    else if String.eqb resource "/cancoes/{id}/ramos" then Some AddRamoToCancao
    else if String.eqb resource "/lugares" then Some CreateLugar
    else if String.eqb resource "/lugares/{id}/images" then Some AddImageToLugar
    else if String.eqb resource "/lugares/{id}/tags" then Some AddTagToLugar
    else if String.eqb resource "/lugares/{id}/ramos" then Some AddRamoToLugar
    else if String.eqb resource "/lugares/{id}/ratings" then Some AddRatingToLugar
    else None
  else if String.eqb (events.HTTPMethod request) "PUT" then
    if String.eqb resource "/users/{id}" then Some UpdateUser
    else if String.eqb resource "/cancoes/{id}" then Some UpdateCancao
    else if String.eqb resource "/lugares/{id}" then Some UpdateLugar
    else if String.eqb resource "/lugares/{id}/ratings/{ratingId}" then Some UpdateRatingForLugar
    else None
  else if String.eqb (events.HTTPMethod request) "DELETE" then
    if String.eqb resource "/users/{id}" then Some DeleteUser
    else if String.eqb resource "/cancoes/{id}" then Some DeleteCancao
    else if String.eqb resource "/cancoes/{id}/tags/{tagId}" then Some RemoveTagFromCancao
    else if String.eqb resource "/cancoes/{id}/ramos/{ramoId}" then Some RemoveRamoFromCancao
    else if String.eqb resource "/lugares/{id}" then Some DeleteLugar
    else if String.eqb resource "/lugares/{id}/images/{imageId}" then Some DeleteImageFromLugar
    else if String.eqb resource "/lugares/{id}/tags/{tagId}" then Some RemoveTagFromLugar
    else if String.eqb resource "/lugares/{id}/ramos/{ramoId}" then Some RemoveRamoFromLugar
    else if String.eqb resource "/lugares/{id}/ratings/{ratingId}" then Some DeleteRatingFromLugar
    else None
  else None.

(** The 404 of the last statement of [router]. *)
Definition notFound : events.APIGatewayProxyResponse :=
  events.mkResponse 404 {[ "Content-Type" := "application/json" ]}
    ("{" +:+ DQ +:+ "error" +:+ DQ +:+ ":" +:+ DQ +:+ "Not Found" +:+ DQ +:+ "}").

Definition router (ctx : context.Context) (request : events.APIGatewayProxyRequest)
    : Go.outcome dispatch :=
  (* Add request ID to context *)
  let with_request_id :=
    match events.Headers request !! "x-request-id" with
    | Some requestID =>
        context.WithValue ctx (Go.VString "requestID") (Go.VString requestID)
    | None => Go.Returns ctx
    end in
  match with_request_id with
  | Go.Panics msg => Go.Panics msg
  | Go.Returns ctx =>
      (* Route request based on HTTP method and path *)
      match route request with
      | Some h => Go.Returns (Handle h ctx request)
      | None => Go.Returns (Respond notFound)
      end
  end.

End main.

(** ** Worlds and an encoder for the examples *)

Definition has_chan (m : gmap string Go.value) : bool :=
  map_fold (fun _ v found => match v with Go.VChan _ => true | _ => found end) false m.

(** An encoder that refuses channels, as [encoding/json] does, and renders
    everything else as an opaque text. *)
Definition json_demo : JSON := {|
  Marshal_map m :=
    if has_chan m then inr (Go.errorString "json: unsupported type: chan int")
    else inl "{...}";
  Marshal_entry entry :=
    match Metadata entry with
    | Some m =>
        if has_chan m then inr (Go.errorString "json: unsupported type: chan int")
        else inl "{...}"
    | None => inl "{...}"
    end
|}.

(** A world at its start: nothing written, nothing sent. *)
Definition start (clock : nat -> Time) (db_fault cw_fault : nat -> Go.error) : World :=
  mkWorld clock 0 [] db_fault [] cw_fault [].

(** Neither the database nor CloudWatch ever fails. *)
Definition never : nat -> Go.error := fun _ => None.



(** A clock that advances by one between two readings. *)
Definition ticking : nat -> Time := Z.of_nat.

(** The sinks of cmd/users/main.go. *)
Definition cloudWatchLogger : CloudWatchLogger :=
  NewCloudWatchLogger "site-geav-api" "SiteGeav/API".
Definition dbLogger : DBLogger := NewDBLogger "site-geav-api" "api_logs".

(** The call of the scenario of the specification:
    [Error(ctx, "boom", errDBTimeout, {"action": "CreateUser",
    "resource": "users", "resource_id": "42"})]. *)
Definition boom_metadata : gmap string Go.value :=
  {[ "action" := Go.VString "CreateUser";
     "resource" := Go.VString "users";
     "resource_id" := Go.VString "42" ]}.

Definition boom : Logger.call :=
  Logger.CallError (Some context.Background) "boom"
    (Some (Go.errorString "context deadline exceeded")) [Some boom_metadata].


(** [GET /users] with one header, the request id, under the name [header],
    and an authorizer that names the caller. *)
Definition request_with (header : string) : events.APIGatewayProxyRequest :=
  events.mkRequest "/users" "GET" {[ header := "req-1" ]}
    {[ "principalId" := Go.VString "7"; "userID" := Go.VInt 7 ]}.

(** A call with no metadata. *)
Definition plain : Logger.call :=
  Logger.CallInfo (Some context.Background) "User retrieved successfully" [].

(** * The sinks with the panics of the library calls *)

(** [ExecContext] and [PutMetricData] read the context they are given.  On
    the nil context [ExecContext], on a handle that is open, calls
    [ctx.Done()], a nil dereference, and the client of the SDK builds a
    context on it with [context.WithValue], which panics on a nil parent.
    No function of the repository calls [recover]: a panic ends the method
    of the sink and every caller of it.  The definitions of [Sinks] take the
    two calls as returning; those of [runtime] are the same functions with
    the two panics. *)
Module runtime.

(** Computations on the world that may panic. *)
Definition P (A : Type) : Type := World -> Go.outcome (A * World).

Definition ret {A : Type} (a : A) : P A := fun w => Go.Returns (a, w).

Definition bind {A B : Type} (m : P A) (k : A -> P B) : P B :=
  fun w =>
    match m w with
    | Go.Returns (a, w') => k a w'
    | Go.Panics msg => Go.Panics msg
    end.

Notation "x <-- m ;; k" := (bind m (fun x => k))
  (at level 100, m at next level, right associativity).

(** A computation that does not panic. *)
Definition lift {A : Type} (m : M A) : P A := fun w => Go.Returns (m w).

Definition nil_dereference : string :=
  "runtime error: invalid memory address or nil pointer dereference".

(** [db.ExecContext(ctx, query, args...)] on an open handle. *)
Definition ExecContext (ctx : context.Context) (st : statement) : P Go.error :=
  match ctx with
  | None => fun _ => Go.Panics nil_dereference
  | Some _ => lift (db_ExecContext ctx st)
  end.

(** [client.PutMetricData(ctx, input)] *)
Definition PutMetricData (ctx : context.Context) (input : cloudwatch.PutMetricDataInput)
    : P Go.error :=
  match ctx with
  | None => fun _ => Go.Panics "cannot create context from nil parent"
  | Some _ => lift (client_PutMetricData ctx input)
  end.

(** The state of the caller of a method: a world, or a panic under way, in
    which nothing more runs. *)
Definition Run : Type := Go.outcome World.

(** The call of a method that returns nothing. *)
Definition call (m : P unit) (r : Run) : Run :=
  match r with
  | Go.Returns w =>
      match m w with
      | Go.Returns (_, w') => Go.Returns w'
      | Go.Panics msg => Go.Panics msg
      end
  | Go.Panics msg => Go.Panics msg
  end.

Section Sinks.

Context `{json : JSON}.

(** *** The database sink *)

Definition ensureLogTable (l : DBLogger) (ctx : context.Context) : P Go.error :=
  ExecContext ctx (CreateTableIfNotExists (tableName l)).

Definition logToDB (l : DBLogger) (ctx : context.Context) (entry : LogEntry) : P unit :=
  (* Ensure log table exists *)
  err <-- ensureLogTable l ctx ;;
  match err with
  | Some e => lift (fmt_Print ("Error ensuring log table: " +:+ Go.Error e +:+ LF))
  | None =>
      (* Convert metadata to JSON *)
      match marshal_metadata entry with
      | inr e => lift (fmt_Print ("Error marshaling metadata: " +:+ Go.Error e +:+ LF))
      | inl metadataJSON =>
          (* Get error message if error is not nil *)
          let errorMessage :=
            match Error entry with
            | Some e => Go.Error e
            | None => ""
            end in
          (* Insert log entry into database *)
          err <-- ExecContext ctx
                    (InsertInto (tableName l) (insertArgs entry metadataJSON errorMessage)) ;;
          match err with
          | Some e => lift (fmt_Print ("Error inserting log entry: " +:+ Go.Error e +:+ LF))
          | None => ret tt
          end
      end
  end.

Definition DBLogger_Debug (l : DBLogger) (ctx : context.Context) (message : string)
    (metadata : list Go.map) : P unit :=
  entry <-- lift (DBLogger_createLogEntry l ctx DEBUG message None metadata) ;;
  logToDB l ctx entry.

Definition DBLogger_Info (l : DBLogger) (ctx : context.Context) (message : string)
    (metadata : list Go.map) : P unit :=
  entry <-- lift (DBLogger_createLogEntry l ctx INFO message None metadata) ;;
  logToDB l ctx entry.

Definition DBLogger_Warn (l : DBLogger) (ctx : context.Context) (message : string)
    (metadata : list Go.map) : P unit :=
  entry <-- lift (DBLogger_createLogEntry l ctx WARN message None metadata) ;;
  logToDB l ctx entry.

Definition DBLogger_Error (l : DBLogger) (ctx : context.Context) (message : string)
    (err : Go.error) (metadata : list Go.map) : P unit :=
  entry <-- lift (DBLogger_createLogEntry l ctx ERROR message err metadata) ;;
  logToDB l ctx entry.

Definition DBLogger_Fatal (l : DBLogger) (ctx : context.Context) (message : string)
    (err : Go.error) (metadata : list Go.map) : P unit :=
  entry <-- lift (DBLogger_createLogEntry l ctx FATAL message err metadata) ;;
  logToDB l ctx entry.

(** [*DBLogger] implements [Logger]. *)
Definition DBLogger_Logger (l : DBLogger) : Logger.t Run :=
  Logger.mk
    (fun ctx message metadata => call (DBLogger_Debug l ctx message metadata))
    (fun ctx message metadata => call (DBLogger_Info l ctx message metadata))
    (fun ctx message metadata => call (DBLogger_Warn l ctx message metadata))
    (fun ctx message err metadata => call (DBLogger_Error l ctx message err metadata))
    (fun ctx message err metadata => call (DBLogger_Fatal l ctx message err metadata)).

(** *** The CloudWatch sink *)

Definition putMetricData (l : CloudWatchLogger) (ctx : context.Context)
    (entry : LogEntry) : P Go.error :=
  PutMetricData ctx
    (cloudwatch.mkInput (namespace l)
       [MetricDatum.mk (metricName entry) (dimensions l entry) (Timestamp entry) 1%Z "Count"]).

Definition logToCloudWatch (l : CloudWatchLogger) (ctx : context.Context)
    (entry : LogEntry) : P unit :=
  (* Convert entry to JSON *)
  match Marshal_entry entry with
  | inr e => lift (fmt_Print ("Error marshaling log entry: " +:+ Go.Error e +:+ LF))
  | inl jsonData =>
      (* Log to CloudWatch *)
      err <-- putMetricData l ctx entry ;;
      _ <-- match err with
            | Some e =>
                lift (fmt_Print ("Error sending metric to CloudWatch: " +:+ Go.Error e +:+ LF))
            | None => ret tt
            end ;;
      (* Print to console for local development *)
      lift (fmt_Print (jsonData +:+ LF))
  end.

Definition CloudWatchLogger_Debug (l : CloudWatchLogger) (ctx : context.Context)
    (message : string) (metadata : list Go.map) : P unit :=
  entry <-- lift (CloudWatchLogger_createLogEntry l ctx DEBUG message None metadata) ;;
  logToCloudWatch l ctx entry.

Definition CloudWatchLogger_Info (l : CloudWatchLogger) (ctx : context.Context)
    (message : string) (metadata : list Go.map) : P unit :=
  entry <-- lift (CloudWatchLogger_createLogEntry l ctx INFO message None metadata) ;;
  logToCloudWatch l ctx entry.

Definition CloudWatchLogger_Warn (l : CloudWatchLogger) (ctx : context.Context)
    (message : string) (metadata : list Go.map) : P unit :=
  entry <-- lift (CloudWatchLogger_createLogEntry l ctx WARN message None metadata) ;;
  logToCloudWatch l ctx entry.

Definition CloudWatchLogger_Error (l : CloudWatchLogger) (ctx : context.Context)
    (message : string) (err : Go.error) (metadata : list Go.map) : P unit :=
  entry <-- lift (CloudWatchLogger_createLogEntry l ctx ERROR message err metadata) ;;
  logToCloudWatch l ctx entry.

Definition CloudWatchLogger_Fatal (l : CloudWatchLogger) (ctx : context.Context)
    (message : string) (err : Go.error) (metadata : list Go.map) : P unit :=
  entry <-- lift (CloudWatchLogger_createLogEntry l ctx FATAL message err metadata) ;;
  logToCloudWatch l ctx entry.

(** [*CloudWatchLogger] implements [Logger]. *)
Definition CloudWatchLogger_Logger (l : CloudWatchLogger) : Logger.t Run :=
  Logger.mk
    (fun ctx message metadata => call (CloudWatchLogger_Debug l ctx message metadata))
    (fun ctx message metadata => call (CloudWatchLogger_Info l ctx message metadata))
    (fun ctx message metadata => call (CloudWatchLogger_Warn l ctx message metadata))
    (fun ctx message err metadata => call (CloudWatchLogger_Error l ctx message err metadata))
    (fun ctx message err metadata => call (CloudWatchLogger_Fatal l ctx message err metadata)).

Definition sink_Logger (s : sink) : Logger.t Run :=
  match s with
  | CloudWatch l => CloudWatchLogger_Logger l
  | Database l => DBLogger_Logger l
  end.

(** The logger [init] of cmd/users/main.go wires.  The loop of the
    composite logger runs on the state of its caller: after a panic of a
    sink it calls no other. *)
Definition log : Logger.t Run :=
  CompositeLogger_Logger
    (NewCompositeLogger
       [CloudWatchLogger_Logger (NewCloudWatchLogger "site-geav-api" "SiteGeav/API");
        DBLogger_Logger (NewDBLogger "site-geav-api" "api_logs")]).

End Sinks.

End runtime.


(** * The rest of the service: models, configuration, repository, handlers *)

(** ** State passing over any state *)

(** The handlers and the repositories act on the state of the process,
    whatever it is: [ST Σ A] is a computation on a state [Σ] with a result
    in [A]. *)
Definition ST (Σ A : Type) : Type := Σ -> A * Σ.

Definition unit_ST {Σ A : Type} (a : A) : ST Σ A := fun σ => (a, σ).

Definition bind_ST {Σ A B : Type} (m : ST Σ A) (k : A -> ST Σ B) : ST Σ B :=
  fun σ => let '(a, σ') := m σ in k a σ'.

Notation "'let*' x := m 'in' k" := (bind_ST m (fun x => k))
  (at level 10, x pattern, m at level 200, k at level 200).

(** A call of a method that returns nothing, such as those of a logger. *)
Definition effect {Σ : Type} (f : Σ -> Σ) : ST Σ unit := fun σ => (tt, f σ).

(** ** package strconv and fmt *)

Module strconv.

(** The two errors of a [*strconv.NumError]. *)
Inductive numError : Type := ErrSyntax | ErrRange.

Definition digit (c : ascii) : option Z :=
  let n := Z.of_nat (nat_of_ascii c) in
  if (48 <=? n)%Z && (n <=? 57)%Z then Some (n - 48)%Z else None.

Definition maxUint64 : Z := 18446744073709551615.

(** The loop of [ParseUint] in base 10: a character that is no digit is a
    syntax error, a value past [maxUint64] a range error, whichever comes
    first from the left. *)
Fixpoint parseDigits (s : string) (n : Z) : Z + numError :=
  match s with
  | EmptyString => inl n
  | String c rest =>
      match digit c with
      | None => inr ErrSyntax
      | Some d =>
          let n1 := (n * 10 + d)%Z in
          if (maxUint64 <? n1)%Z then inr ErrRange else parseDigits rest n1
      end
  end.

(** [strconv.Atoi] on a 64-bit [int]: an optional sign, then one digit at
    least and digits only, and a value between [-2^63] and [2^63 - 1]. *)
Definition Atoi (s : string) : Z + numError :=
  match s with
  | EmptyString => inr ErrSyntax
  | String c rest =>
      let neg := bool_decide (c = "-"%char) in
      let digits := if bool_decide (c = "+"%char) || neg then rest else s in
      match digits with
      | EmptyString => inr ErrSyntax
      | _ =>
          match parseDigits digits 0 with
          | inr e => inr e
          | inl un =>
              if neg then
                if (9223372036854775808 <? un)%Z then inr ErrRange else inl (- un)%Z
              else
                if (9223372036854775808 <=? un)%Z then inr ErrRange else inl un
          end
      end
  end.

Definition numError_text (e : numError) : string :=
  match e with
  | ErrSyntax => "invalid syntax"
  | ErrRange => "value out of range"
  end.

End strconv.

(** [fmt.Sprintf("%d", n)] *)
Definition Sprintf_d (n : Z) : string := pretty n.

(** ** package models: user.go, and the ratings of lugar.go *)

Module models.

Record User : Type := mkUser {
  ID : Z;
  Username : string;
  Password : string;
  Role : string;
  CreatedAt : Time;
  UpdatedAt : Time
}.

Definition UserRole : Type := string.
Definition RoleRead : UserRole := "read".
Definition RoleWrite : UserRole := "write".

(** [NewUser]: the identifier stays at its zero value. *)
Definition NewUser (username password : string) (role : UserRole) : M User :=
  now <- time_Now ;;
  ret (mkUser 0 username password role now now).

Definition IsValidRole (role : string) : bool :=
  String.eqb role RoleRead || String.eqb role RoleWrite.

Definition HasWriteAccess (u : User) : bool := String.eqb (Role u) RoleWrite.

(** Assignments to single fields of a user. *)
Definition set_ID (n : Z) (u : User) : User :=
  mkUser n (Username u) (Password u) (Role u) (CreatedAt u) (UpdatedAt u).
Definition set_Username (s : string) (u : User) : User :=
  mkUser (ID u) s (Password u) (Role u) (CreatedAt u) (UpdatedAt u).
Definition set_Password (s : string) (u : User) : User :=
  mkUser (ID u) (Username u) s (Role u) (CreatedAt u) (UpdatedAt u).
Definition set_Role (s : string) (u : User) : User :=
  mkUser (ID u) (Username u) (Password u) s (CreatedAt u) (UpdatedAt u).
Definition set_CreatedAt (t : Time) (u : User) : User :=
  mkUser (ID u) (Username u) (Password u) (Role u) t (UpdatedAt u).
Definition set_UpdatedAt (t : Time) (u : User) : User :=
  mkUser (ID u) (Username u) (Password u) (Role u) (CreatedAt u) t.

(** The fields of [User] that have a name in JSON, as [json.Unmarshal]
    finds them in a document (the zero value for a key that is not there).
    [Password] is tagged [json:"-"]: it is no part of any document. *)
Record UserJSON : Type := mkUserJSON {
  json_id : Z;
  json_username : string;
  json_role : string;
  json_created_at : Time;
  json_updated_at : Time
}.

(** [var user models.User] after a successful [json.Unmarshal(data, &user)]:
    the fields with a JSON name are those of the document, [Password] is
    still the zero value. *)
Definition decoded (j : UserJSON) : User :=
  mkUser (json_id j) (json_username j) "" (json_role j)
    (json_created_at j) (json_updated_at j).

End models.

Module LugarRating.

Record t : Type := mk {
  ID : Z;
  LugarID : Z;
  UserID : Z;
  Rating : Z;
  Date : Time
}.

Definition set_ID (n : Z) (r : t) : t := mk n (LugarID r) (UserID r) (Rating r) (Date r).
Definition set_LugarID (n : Z) (r : t) : t := mk (ID r) n (UserID r) (Rating r) (Date r).
Definition set_Date (d : Time) (r : t) : t := mk (ID r) (LugarID r) (UserID r) (Rating r) d.

(** [models.NewLugarRating] *)
Definition NewLugarRating (lugarID userID rating : Z) : M t :=
  now <- time_Now ;;
  ret (mk 0 lugarID userID rating now).

End LugarRating.

(** ** package repository: db.go *)

Module repository.

(** [os.Getenv] on the environment of the process: the empty string for a
    variable that is not set. *)
Definition os_Getenv (env : gmap string string) (key : string) : string :=
  default "" (env !! key).

Record DBConfig : Type := mkDBConfig {
  Host : string;
  Port : string;
  User : string;
  Password : string;
  DBName : string;
  SSLMode : string
}.

Definition getEnv (env : gmap string string) (key defaultValue : string) : string :=
  let value := os_Getenv env key in
  if decide (value = "") then defaultValue else value.

Definition NewDBConfigFromEnv (env : gmap string string) : DBConfig :=
  mkDBConfig
    (getEnv env "DB_HOST" "localhost")
    (getEnv env "DB_PORT" "5432")
    (getEnv env "DB_USER" "postgres")
    (getEnv env "DB_PASSWORD" "pgadmin")
    (getEnv env "DB_NAME" "geav")
    (getEnv env "DB_SSL_MODE" "disable").

Definition ConnectionString (c : DBConfig) : string :=
  "host=" +:+ Host c +:+ " port=" +:+ Port c +:+ " user=" +:+ User c +:+
  " password=" +:+ Password c +:+ " dbname=" +:+ DBName c +:+ " sslmode=" +:+ SSLMode c.

(** [fmt.Errorf(prefix + ": %w", err)], by its text. *)
Definition wrap (prefix : string) (err : Go.error_value) : Go.error_value :=
  Go.errorString (prefix +:+ ": " +:+ Go.Error err).

Section Connect.

(** [database/sql]: handles, [sql.Open] by driver name and data source
    name, and [db.Ping]. *)
Context {DB : Type}.
Variable sql_Open : string -> string -> DB + Go.error_value.
Variable Ping : DB -> Go.error.

Definition NewDB (config : DBConfig) : option DB * Go.error :=
  match sql_Open "postgres" (ConnectionString config) with
  | inr err => (None, Some (wrap "error opening database connection" err))
  | inl db =>
      (* Test the connection *)
      match Ping db with
      | Some err => (None, Some (wrap "error connecting to the database" err))
      | None => (Some db, None)
      end
  end.

(** [InitDB], on the environment and the lines written by [log.Printf]. *)
Definition InitDB (env : gmap string string) : ST (list string) (option DB * Go.error) :=
  let config := NewDBConfigFromEnv env in
  let '(db, err) := NewDB config in
  match err with
  | Some e =>
      let* _ := effect (fun lines => lines ++ ["Failed to connect to database: " +:+ Go.Error e]) in
      unit_ST (None, err)
  | None => unit_ST (db, None)
  end.

End Connect.

(** *** interfaces.go: the users *)

(** [UserRepository].  A [*models.User] that is returned is [None] when it
    is nil; one that is passed is passed by value, and [Create] and [Update]
    give back what it points to when they return. *)
Record UserRepository (Σ : Type) : Type := mkUserRepository {
  GetByID : context.Context -> Z -> ST Σ (option models.User * Go.error);
  GetByUsername : context.Context -> string -> ST Σ (option models.User * Go.error);
  List : context.Context -> ST Σ (list models.User * Go.error);
  Create : context.Context -> models.User -> ST Σ (models.User * Z * Go.error);
  Update : context.Context -> models.User -> ST Σ (models.User * Go.error);
  Delete : context.Context -> Z -> ST Σ Go.error
}.
Arguments mkUserRepository {Σ}.
Arguments GetByID {Σ}.
Arguments GetByUsername {Σ}.
Arguments List {Σ}.
Arguments Create {Σ}.
Arguments Update {Σ}.
Arguments Delete {Σ}.

(** *** user_repository.go *)

(** What [Scan] on a [*sql.Row] fails with: [sql.ErrNoRows], or anything
    else. *)
Inductive scanError : Type :=
| ErrNoRows
| ScanFailed (e : Go.error_value).

Definition scanError_value (e : scanError) : Go.error_value :=
  match e with
  | ErrNoRows => Go.errorString "sql: no rows in result set"
  | ScanFailed e => e
  end.

(** The statements of the repository, by their arguments:
    [SELECT id, username, password, role, created_at, updated_at FROM users
    WHERE id = $1], the same [WHERE username = $1], the same [ORDER BY id],
    [INSERT INTO users (...) VALUES ($1, ..., $5) RETURNING id],
    [UPDATE users SET username = $1, password = $2, role = $3,
    updated_at = $4 WHERE id = $5] and [DELETE FROM users WHERE id = $1]. *)
Inductive userStatement : Type :=
| SelectByID (id : Z)
| SelectByUsername (username : string)
| SelectAll
| InsertReturningID (username password role : string) (created_at updated_at : Time)
| UpdateByID (username password role : string) (updated_at : Time) (id : Z)
| DeleteByID (id : Z).

(** A [*sql.Rows] of users: what [Scan] gives for each row [Next] reaches,
    and [rows.Err()]. *)
Record userRows : Type := mkUserRows {
  scanned : list (models.User + Go.error_value);
  rows_Err : Go.error
}.

(** The [*sql.DB] handle, as the repository uses it: a row of a user
    scanned, an identifier scanned, the rows of a query, and a statement
    executed with the [RowsAffected()] of its result. *)
Record sqlDB (Σ : Type) : Type := mkSqlDB {
  QueryRow_user : context.Context -> userStatement -> ST Σ (models.User + scanError);
  QueryRow_id : context.Context -> userStatement -> ST Σ (Z + scanError);
  Query_users : context.Context -> userStatement -> ST Σ (userRows + Go.error_value);
  Exec : context.Context -> userStatement -> ST Σ ((Z + Go.error_value) + Go.error_value)
}.
Arguments mkSqlDB {Σ}.
Arguments QueryRow_user {Σ}.
Arguments QueryRow_id {Σ}.
Arguments Query_users {Σ}.
Arguments Exec {Σ}.

Section Postgres.

Context {Σ : Type}.

Record PostgresUserRepository : Type := mkPostgresUserRepository {
  db : sqlDB Σ
}.

Definition NewPostgresUserRepository (db : sqlDB Σ) : PostgresUserRepository :=
  mkPostgresUserRepository db.

Definition Postgres_GetByID (r : PostgresUserRepository) (ctx : context.Context) (id : Z)
    : ST Σ (option models.User * Go.error) :=
  let* scan := QueryRow_user (db r) ctx (SelectByID id) in
  match scan with
  | inr ErrNoRows =>
      unit_ST (None, Some (Go.errorString ("user with ID " +:+ Sprintf_d id +:+ " not found")))
  | inr err =>
      unit_ST (None, Some (wrap "error getting user by ID" (scanError_value err)))
  | inl user => unit_ST (Some user, None)
  end.

Definition Postgres_GetByUsername (r : PostgresUserRepository) (ctx : context.Context)
    (username : string) : ST Σ (option models.User * Go.error) :=
  let* scan := QueryRow_user (db r) ctx (SelectByUsername username) in
  match scan with
  | inr ErrNoRows =>
      unit_ST (None, Some (Go.errorString ("user with username " +:+ username +:+ " not found")))
  | inr err =>
      unit_ST (None, Some (wrap "error getting user by username" (scanError_value err)))
  | inl user => unit_ST (Some user, None)
  end.

(** The loop [for rows.Next()] of [List]: the users scanned so far, or the
    error of the first [Scan] that fails. *)
Fixpoint scanUsers (rows : list (models.User + Go.error_value)) (users : list models.User)
    : list models.User + Go.error_value :=
  match rows with
  | [] => inl users
  | inl user :: rest => scanUsers rest (users ++ [user])
  | inr err :: _ => inr (wrap "error scanning user row" err)
  end.

Definition Postgres_List (r : PostgresUserRepository) (ctx : context.Context)
    : ST Σ (list models.User * Go.error) :=
  let* queried := Query_users (db r) ctx SelectAll in
  match queried with
  | inr err => unit_ST ([], Some (wrap "error listing users" err))
  | inl rows =>
      match scanUsers (scanned rows) [] with
      | inr err => unit_ST ([], Some err)
      | inl users =>
          match rows_Err rows with
          | Some err => unit_ST ([], Some (wrap "error iterating user rows" err))
          | None => unit_ST (users, None)
          end
      end
  end.

Definition Postgres_Create (r : PostgresUserRepository) (ctx : context.Context)
    (user : models.User) : ST Σ (models.User * Z * Go.error) :=
  let* scan :=
    QueryRow_id (db r) ctx
      (InsertReturningID (models.Username user) (models.Password user) (models.Role user)
         (models.CreatedAt user) (models.UpdatedAt user)) in
  match scan with
  | inr err => unit_ST (user, 0%Z, Some (wrap "error creating user" (scanError_value err)))
  | inl id => unit_ST (user, id, None)
  end.

(** The end of [Update] and of [Delete], from the result of the statement. *)
Definition affected (result : (Z + Go.error_value) + Go.error_value)
    (failed : string) (id : Z) : Go.error :=
  match result with
  | inr err => Some (wrap failed err)
  | inl (inr err) => Some (wrap "error getting rows affected" err)
  | inl (inl rowsAffected) =>
      if decide (rowsAffected = 0%Z)
      then Some (Go.errorString ("user with ID " +:+ Sprintf_d id +:+ " not found"))
      else None
  end.

Definition Postgres_Update (r : PostgresUserRepository) (ctx : context.Context)
    (user : models.User) : ST Σ (models.User * Go.error) :=
  let* result :=
    Exec (db r) ctx
      (UpdateByID (models.Username user) (models.Password user) (models.Role user)
         (models.UpdatedAt user) (models.ID user)) in
  unit_ST (user, affected result "error updating user" (models.ID user)).

Definition Postgres_Delete (r : PostgresUserRepository) (ctx : context.Context) (id : Z)
    : ST Σ Go.error :=
  let* result := Exec (db r) ctx (DeleteByID id) in
  unit_ST (affected result "error deleting user" id).

(** [*PostgresUserRepository] implements [UserRepository]. *)
Definition PostgresUserRepository_UserRepository (r : PostgresUserRepository)
    : UserRepository Σ :=
  mkUserRepository (Postgres_GetByID r) (Postgres_GetByUsername r) (Postgres_List r)
    (Postgres_Create r) (Postgres_Update r) (Postgres_Delete r).

End Postgres.

End repository.

(** ** package handlers: user_handler.go *)

Module lambda.

(** An [events.APIGatewayProxyRequest] as the handlers read it: the fields
    the router reads, the path parameters and the body. *)
Record Request : Type := mkRequest {
  routed : events.APIGatewayProxyRequest;
  PathParameters : gmap string string;
  Body : string
}.

(** [request.PathParameters[key]]: the empty string for a key that is not
    there. *)
Definition PathParameter (request : Request) (key : string) : string :=
  default "" (PathParameters request !! key).

End lambda.

Module handlers.

(** What a handler passes to [json.Marshal]. *)
Inductive body : Type :=
| BodyUser (user : models.User)
| BodyUsers (users : list models.User)
| BodyRating (rating : LugarRating.t)
| BodyRatings (ratings : list LugarRating.t)
| BodyStrings (m : gmap string string).

(** [encoding/json] and [strconv.Quote], as the handlers use them:
    [json.Marshal] of a body, [json.Unmarshal] of a document into a zero
    [models.User] or [models.LugarRating], and the quoting of the text in
    the message of a [*strconv.NumError]. *)
Class Wire : Type := {
  Marshal : body -> string + Go.error_value;
  Unmarshal_User : string -> models.UserJSON + Go.error_value;
  Unmarshal_LugarRating : string -> LugarRating.t + Go.error_value;
  Quote : string -> string
}.

(** The HTTP statuses of [net/http] the handlers use. *)
Definition StatusOK : Z := 200.
Definition StatusCreated : Z := 201.
Definition StatusNoContent : Z := 204.
Definition StatusBadRequest : Z := 400.
Definition StatusNotFound : Z := 404.
Definition StatusInternalServerError : Z := 500.

Section Handlers.

Context `{wire : Wire}.

(** The [error] of [strconv.Atoi]. *)
Definition Atoi_error (s : string) (e : strconv.numError) : Go.error_value :=
  Go.errorString
    ("strconv.Atoi: parsing " +:+ Quote s +:+ ": " +:+ strconv.numError_text e).

(** [createJSONResponse] and, through it, [createErrorResponse], which is
    [createJSONResponse] on the map [{"error": message}].  The two call each
    other: [fuel] bounds the depth of the calls, and [None] is a computation
    that has not ended within it. *)
Fixpoint createJSONResponse (fuel : nat) (statusCode : Z) (b : body)
    : option (events.APIGatewayProxyResponse * Go.error) :=
  match fuel with
  | O => None
  | S fuel =>
      match Marshal b with
      | inr _ =>
          (* createErrorResponse(http.StatusInternalServerError, "Error creating response") *)
          createJSONResponse fuel StatusInternalServerError
            (BodyStrings {[ "error" := "Error creating response" ]})
      | inl jsonBody =>
          Some (events.mkResponse statusCode {[ "Content-Type" := "application/json" ]} jsonBody,
                None)
      end
  end.

Definition createErrorResponse (fuel : nat) (statusCode : Z) (message : string)
    : option (events.APIGatewayProxyResponse * Go.error) :=
  createJSONResponse fuel statusCode (BodyStrings {[ "error" := message ]}).

(** The response of the handlers that have no body to send. *)
Definition noContent : option (events.APIGatewayProxyResponse * Go.error) :=
  Some (events.mkResponse StatusNoContent {[ "Content-Type" := "application/json" ]} "", None).

Context {Σ : Type}.

(** [time.Now()] on the state of the process. *)
Variable now : ST Σ Time.

Record UserHandler : Type := mkUserHandler {
  userRepo : repository.UserRepository Σ;
  log : Logger.t Σ
}.

Definition NewUserHandler (userRepo : repository.UserRepository Σ) (log : Logger.t Σ)
    : UserHandler :=
  mkUserHandler userRepo log.

(** The metadata of the log calls of the user handlers. *)
Definition users_meta (action : string) : gmap string Go.value :=
  {[ "action" := Go.VString action; "resource" := Go.VString "users" ]}.

Definition user_meta (action : string) (userID : Z) : gmap string Go.value :=
  {[ "action" := Go.VString action; "resource" := Go.VString "users";
     "resource_id" := Go.VString (Sprintf_d userID) ]}.

Definition GetUser (fuel : nat) (h : UserHandler) (ctx : context.Context)
    (request : lambda.Request)
    : ST Σ (option (events.APIGatewayProxyResponse * Go.error)) :=
  (* Extract user ID from path parameters *)
  match strconv.Atoi (lambda.PathParameter request "id") with
  | inr err =>
      let* _ := effect (Logger.Error (log h) ctx "Invalid user ID"
                          (Some (Atoi_error (lambda.PathParameter request "id") err))
                          [Some (users_meta "GetUser")]) in
      unit_ST (createErrorResponse fuel StatusBadRequest "Invalid user ID")
  | inl userID =>
      (* Get user from repository *)
      let* (user, err) := repository.GetByID (userRepo h) ctx userID in
      match err with
      | Some err =>
          let* _ := effect (Logger.Error (log h) ctx "Error getting user" (Some err)
                              [Some (user_meta "GetUser" userID)]) in
          unit_ST (createErrorResponse fuel StatusInternalServerError "Error getting user")
      | None =>
          match user with
          | None =>
              (* If user not found *)
              let* _ := effect (Logger.Warn (log h) ctx "User not found"
                                  [Some (user_meta "GetUser" userID)]) in
              unit_ST (createErrorResponse fuel StatusNotFound "User not found")
          | Some user =>
              (* Log success *)
              let* _ := effect (Logger.Info (log h) ctx "User retrieved successfully"
                                  [Some (user_meta "GetUser" userID)]) in
              (* Return user as JSON *)
              unit_ST (createJSONResponse fuel StatusOK (BodyUser user))
          end
      end
  end.

Definition ListUsers (fuel : nat) (h : UserHandler) (ctx : context.Context)
    (request : lambda.Request)
    : ST Σ (option (events.APIGatewayProxyResponse * Go.error)) :=
  (* Get users from repository *)
  let* (users, err) := repository.List (userRepo h) ctx in
  match err with
  | Some err =>
      let* _ := effect (Logger.Error (log h) ctx "Error listing users" (Some err)
                          [Some (users_meta "ListUsers")]) in
      unit_ST (createErrorResponse fuel StatusInternalServerError "Error listing users")
  | None =>
      (* Log success *)
      let* _ := effect (Logger.Info (log h) ctx "Users listed successfully"
                          [Some (<["count" := Go.VInt (Z.of_nat (length users))]>
                                   (users_meta "ListUsers"))]) in
      (* Return users as JSON *)
      unit_ST (createJSONResponse fuel StatusOK (BodyUsers users))
  end.

(** The test "Validate user" of [CreateUser] and [UpdateUser]. *)
Definition invalid (user : models.User) : bool :=
  String.eqb (models.Username user) "" || String.eqb (models.Password user) "" ||
  negb (models.IsValidRole (models.Role user)).

Definition CreateUser (fuel : nat) (h : UserHandler) (ctx : context.Context)
    (request : lambda.Request)
    : ST Σ (option (events.APIGatewayProxyResponse * Go.error)) :=
  (* Parse request body *)
  match Unmarshal_User (lambda.Body request) with
  | inr err =>
      let* _ := effect (Logger.Error (log h) ctx "Invalid request body" (Some err)
                          [Some (users_meta "CreateUser")]) in
      unit_ST (createErrorResponse fuel StatusBadRequest "Invalid request body")
  | inl document =>
      let user := models.decoded document in
      (* Validate user *)
      if invalid user then
        let* _ := effect (Logger.Warn (log h) ctx "Invalid user data"
                            [Some (users_meta "CreateUser")]) in
        unit_ST (createErrorResponse fuel StatusBadRequest "Invalid user data")
      else
        (* Set timestamps *)
        let* now := now in
        let user := models.set_CreatedAt now user in
        let user := models.set_UpdatedAt now user in
        (* Create user in repository *)
        let* (user, userID, err) := repository.Create (userRepo h) ctx user in
        match err with
        | Some err =>
            let* _ := effect (Logger.Error (log h) ctx "Error creating user" (Some err)
                                [Some (users_meta "CreateUser")]) in
            unit_ST (createErrorResponse fuel StatusInternalServerError "Error creating user")
        | None =>
            (* Set user ID *)
            let user := models.set_ID userID user in
            (* Log success *)
            let* _ := effect (Logger.Info (log h) ctx "User created successfully"
                                [Some (user_meta "CreateUser" userID)]) in
            (* Return created user as JSON *)
            unit_ST (createJSONResponse fuel StatusCreated (BodyUser user))
        end
  end.

Definition UpdateUser (fuel : nat) (h : UserHandler) (ctx : context.Context)
    (request : lambda.Request)
    : ST Σ (option (events.APIGatewayProxyResponse * Go.error)) :=
  (* Extract user ID from path parameters *)
  match strconv.Atoi (lambda.PathParameter request "id") with
  | inr err =>
      let* _ := effect (Logger.Error (log h) ctx "Invalid user ID"
                          (Some (Atoi_error (lambda.PathParameter request "id") err))
                          [Some (users_meta "UpdateUser")]) in
      unit_ST (createErrorResponse fuel StatusBadRequest "Invalid user ID")
  | inl userID =>
      (* Get existing user *)
      let* (existingUser, err) := repository.GetByID (userRepo h) ctx userID in
      match err with
      | Some err =>
          let* _ := effect (Logger.Error (log h) ctx "Error getting user" (Some err)
                              [Some (user_meta "UpdateUser" userID)]) in
          unit_ST (createErrorResponse fuel StatusInternalServerError "Error getting user")
      | None =>
          match existingUser with
          | None =>
              (* If user not found *)
              let* _ := effect (Logger.Warn (log h) ctx "User not found"
                                  [Some (user_meta "UpdateUser" userID)]) in
              unit_ST (createErrorResponse fuel StatusNotFound "User not found")
          | Some existingUser =>
              (* Parse request body *)
              match Unmarshal_User (lambda.Body request) with
              | inr err =>
                  let* _ := effect (Logger.Error (log h) ctx "Invalid request body" (Some err)
                                      [Some (user_meta "UpdateUser" userID)]) in
                  unit_ST (createErrorResponse fuel StatusBadRequest "Invalid request body")
              | inl document =>
                  let updatedUser := models.decoded document in
                  (* Validate user *)
                  if invalid updatedUser then
                    let* _ := effect (Logger.Warn (log h) ctx "Invalid user data"
                                        [Some (user_meta "UpdateUser" userID)]) in
                    unit_ST (createErrorResponse fuel StatusBadRequest "Invalid user data")
                  else
                    (* Update user fields *)
                    let existingUser :=
                      models.set_Username (models.Username updatedUser) existingUser in
                    let existingUser :=
                      models.set_Password (models.Password updatedUser) existingUser in
                    let existingUser := models.set_Role (models.Role updatedUser) existingUser in
                    let* now := now in
                    let existingUser := models.set_UpdatedAt now existingUser in
                    (* Update user in repository *)
                    let* (existingUser, err) :=
                      repository.Update (userRepo h) ctx existingUser in
                    match err with
                    | Some err =>
                        let* _ := effect (Logger.Error (log h) ctx "Error updating user"
                                            (Some err) [Some (user_meta "UpdateUser" userID)]) in
                        unit_ST (createErrorResponse fuel StatusInternalServerError
                                   "Error updating user")
                    | None =>
                        (* Log success *)
                        let* _ := effect (Logger.Info (log h) ctx "User updated successfully"
                                            [Some (user_meta "UpdateUser" userID)]) in
                        (* Return updated user as JSON *)
                        unit_ST (createJSONResponse fuel StatusOK (BodyUser existingUser))
                    end
              end
          end
      end
  end.

Definition DeleteUser (fuel : nat) (h : UserHandler) (ctx : context.Context)
    (request : lambda.Request)
    : ST Σ (option (events.APIGatewayProxyResponse * Go.error)) :=
  (* Extract user ID from path parameters *)
  match strconv.Atoi (lambda.PathParameter request "id") with
  | inr err =>
      let* _ := effect (Logger.Error (log h) ctx "Invalid user ID"
                          (Some (Atoi_error (lambda.PathParameter request "id") err))
                          [Some (users_meta "DeleteUser")]) in
      unit_ST (createErrorResponse fuel StatusBadRequest "Invalid user ID")
  | inl userID =>
      (* Delete user from repository *)
      let* err := repository.Delete (userRepo h) ctx userID in
      match err with
      | Some err =>
          let* _ := effect (Logger.Error (log h) ctx "Error deleting user" (Some err)
                              [Some (user_meta "DeleteUser" userID)]) in
          unit_ST (createErrorResponse fuel StatusInternalServerError "Error deleting user")
      | None =>
          (* Log success *)
          let* _ := effect (Logger.Info (log h) ctx "User deleted successfully"
                              [Some (user_meta "DeleteUser" userID)]) in
          (* Return success response *)
          unit_ST noContent
      end
  end.

End Handlers.

End handlers.

(** ** cmd/users/main.go: from the router to the handlers of the users *)

(** A logger that does nothing. *)
Definition silent {Σ : Type} : Logger.t Σ :=
  Logger.mk (fun _ _ _ σ => σ) (fun _ _ _ σ => σ) (fun _ _ _ σ => σ)
    (fun _ _ _ _ σ => σ) (fun _ _ _ _ σ => σ).

Module server.

(** The statuses the methods of [userHandler] answer with, by the calls of
    [createErrorResponse] and [createJSONResponse] of each: [CreateUser]
    and [UpdateUser] are listed without the 201 and the 200 that follow
    their validation. *)
Definition statuses (which : main.handler) : list Z :=
  match which with
  | main.GetUser => [200; 400; 404; 500]
  | main.ListUsers => [200; 500]
  | main.CreateUser => [400]
  | main.UpdateUser => [400; 404; 500]
  | main.DeleteUser => [204; 400; 500]
  | _ => []
  end%Z.

Section Server.

Context `{wire : handlers.Wire} {Σ : Type}.
Variable now : ST Σ Time.

(** The method of [userHandler] the router calls for a handler of the
    users, with the name the method gives itself in its log calls; [None]
    for the handlers of lugares and cancoes. *)
Definition userMethod (which : main.handler)
    : option (string *
              (nat -> handlers.UserHandler -> context.Context -> lambda.Request ->
               ST Σ (option (events.APIGatewayProxyResponse * Go.error)))) :=
  match which with
  | main.GetUser => Some ("GetUser", fun fuel => handlers.GetUser fuel)
  | main.ListUsers => Some ("ListUsers", fun fuel => handlers.ListUsers fuel)
  | main.CreateUser => Some ("CreateUser", fun fuel => handlers.CreateUser now fuel)
  | main.UpdateUser => Some ("UpdateUser", fun fuel => handlers.UpdateUser now fuel)
  | main.DeleteUser => Some ("DeleteUser", fun fuel => handlers.DeleteUser fuel)
  | _ => None
  end.

(** [router] followed by the handler it calls: [None] when the router
    panics or calls a handler of lugares or cancoes. *)
Definition serve (fuel : nat) (h : handlers.UserHandler) (ctx : context.Context)
    (request : lambda.Request)
    : option (ST Σ (option (events.APIGatewayProxyResponse * Go.error))) :=
  match main.router ctx (lambda.routed request) with
  | Go.Panics _ => None
  | Go.Returns (main.Respond response) => Some (unit_ST (Some (response, None)))
  | Go.Returns (main.Handle which ctx _) =>
      match userMethod which with
      | Some (_, method) => Some (method fuel h ctx request)
      | None => None
      end
  end.

End Server.

End server.

(** ** Encoders and repositories for the examples *)

(** An encoder that accepts every body, and reads any document that is not
    empty as the user "ana" with the role "write". *)
Definition wire_demo : handlers.Wire := {|
  handlers.Marshal _ := inl "{...}";
  handlers.Unmarshal_User document :=
    if decide (document = "") then inr (Go.errorString "unexpected end of JSON input")
    else inl (models.mkUserJSON 0%Z "ana" "write" 0%Z 0%Z);
  handlers.Unmarshal_LugarRating document :=
    if decide (document = "") then inr (Go.errorString "unexpected end of JSON input")
    else inl (LugarRating.mk 0%Z 0%Z 7%Z 5%Z 0%Z);
  handlers.Quote s := main.DQ +:+ s +:+ main.DQ
|}.

(** A repository in memory, on the list of the users: identifiers are given
    in sequence, and a user that is not there is the nil user with no
    error. *)
Definition memory_repository : repository.UserRepository (list models.User) :=
  repository.mkUserRepository
    (fun _ id users =>
       ((List.find (fun u => Z.eqb (models.ID u) id) users, None), users))
    (fun _ username users =>
       ((List.find (fun u => String.eqb (models.Username u) username) users, None), users))
    (fun _ users => ((users, None), users))
    (fun _ user users =>
       let id := Z.of_nat (S (length users)) in
       ((user, id, None), users ++ [models.set_ID id user]))
    (fun _ user users =>
       ((user, None),
        List.map (fun u => if Z.eqb (models.ID u) (models.ID user) then user else u) users))
    (fun _ id users =>
       (None, List.filter (fun u => negb (Z.eqb (models.ID u) id)) users)).

(** A clock that stands still, for the repository in memory. *)
Definition still : ST (list models.User) Time := fun σ => (0%Z, σ).

(** The user 7. *)
Definition ana : models.User := models.mkUser 7%Z "ana" "pw" "write" 0%Z 0%Z.

(** Requests for the user 7: with the path parameter and a body, and with
    neither. *)
Definition user_request (method resource : string) : lambda.Request :=
  lambda.mkRequest
    (events.mkRequest resource method {[ "x-request-id" := "req-1" ]} ∅)
    {[ "id" := "7" ]} "{...}".

Definition bare_request (method resource : string) : lambda.Request :=
  lambda.mkRequest (events.mkRequest resource method ∅ ∅) ∅ "".

(** An encoder that refuses every body. *)
Definition wire_refusing : handlers.Wire := {|
  handlers.Marshal _ := inr (Go.errorString "json: unsupported value");
  handlers.Unmarshal_User _ := inr (Go.errorString "unexpected end of JSON input");
  handlers.Unmarshal_LugarRating _ := inr (Go.errorString "unexpected end of JSON input");
  handlers.Quote s := main.DQ +:+ s +:+ main.DQ
|}.

(** ** cmd/users/main.go: the process *)

(** The state of the process: the world of the logger beside the state of
    the database of the users.  [init] gives the one [*sql.DB] to the
    database sink and to the repositories; the statements of the sink, on
    its own table, are those of the world, and the statements of the
    repository of the users are those of [D]. *)
Module process.

Section Process.

Context {D : Type}.

(** A computation on the world, in the process. *)
Definition on_world {A : Type} (m : M A) : ST (World * D) A :=
  fun σ => let '(a, w) := m σ.1 in (a, (w, σ.2)).

(** A computation on the database of the users, in the process. *)
Definition on_store {A : Type} (m : ST D A) : ST (World * D) A :=
  fun σ => let '(a, d) := m σ.2 in (a, (σ.1, d)).

Definition logger_on_world (l : Logger.t World) : Logger.t (World * D) :=
  Logger.mk
    (fun ctx message metadata σ => (Logger.Debug l ctx message metadata σ.1, σ.2))
    (fun ctx message metadata σ => (Logger.Info l ctx message metadata σ.1, σ.2))
    (fun ctx message metadata σ => (Logger.Warn l ctx message metadata σ.1, σ.2))
    (fun ctx message err metadata σ => (Logger.Error l ctx message err metadata σ.1, σ.2))
    (fun ctx message err metadata σ => (Logger.Fatal l ctx message err metadata σ.1, σ.2)).

Definition sqlDB_on_store (db : repository.sqlDB D) : repository.sqlDB (World * D) :=
  repository.mkSqlDB
    (fun ctx statement => on_store (repository.QueryRow_user db ctx statement))
    (fun ctx statement => on_store (repository.QueryRow_id db ctx statement))
    (fun ctx statement => on_store (repository.Query_users db ctx statement))
    (fun ctx statement => on_store (repository.Exec db ctx statement)).

(** The [userHandler] that [init] builds: the repository of
    user_repository.go and the composite logger. *)
Definition userHandler `{json : JSON} (db : repository.sqlDB D)
    : handlers.UserHandler (Σ := World * D) :=
  handlers.NewUserHandler
    (repository.PostgresUserRepository_UserRepository
       (repository.NewPostgresUserRepository (sqlDB_on_store db)))
    (logger_on_world log).

End Process.

End process.

(** A database with no user in it, on the statements it has received. *)
Definition no_users : repository.sqlDB (list repository.userStatement) :=
  repository.mkSqlDB
    (fun _ statement received => (inr repository.ErrNoRows, received ++ [statement]))
    (fun _ statement received => (inl 1%Z, received ++ [statement]))
    (fun _ statement received =>
       (inl (repository.mkUserRows [] None), received ++ [statement]))
    (fun _ statement received => (inl (inl 0%Z), received ++ [statement])).

(** A database that has, for every identifier, the user [ana]. *)
Definition only_ana : repository.sqlDB (list repository.userStatement) :=
  repository.mkSqlDB
    (fun _ statement received => (inl ana, received ++ [statement]))
    (fun _ statement received => (inl 1%Z, received ++ [statement]))
    (fun _ statement received =>
       (inl (repository.mkUserRows [inl ana] None), received ++ [statement]))
    (fun _ statement received => (inl (inl 1%Z), received ++ [statement])).

(** ** The ratings of the lugares *)

Module ratings.

(** *** interfaces.go: the lugares *)

(** The methods of [LugarRepository] on the ratings.  A
    [*models.LugarRating] is passed by value, and [AddRating] and
    [UpdateRating] give back what it points to when they return; the
    ratings of [GetRatings] are those its pointers point to. *)
Record LugarRepository (Σ : Type) : Type := mkLugarRepository {
  AddRating : context.Context -> LugarRating.t -> ST Σ (LugarRating.t * Z * Go.error);
  UpdateRating : context.Context -> LugarRating.t -> ST Σ (LugarRating.t * Go.error);
  DeleteRating : context.Context -> Z -> ST Σ Go.error;
  GetRatings : context.Context -> Z -> ST Σ (list LugarRating.t * Go.error)
}.
Arguments mkLugarRepository {Σ}.
Arguments AddRating {Σ}.
Arguments UpdateRating {Σ}.
Arguments DeleteRating {Σ}.
Arguments GetRatings {Σ}.

(** *** The repository of the lugares, on the ratings *)

(** The statements on [lugares_ratings], by their arguments:
    [INSERT INTO lugares_ratings (lugar_id, user_id, rating, date)
    VALUES ($1, $2, $3, $4) ON CONFLICT (lugar_id, user_id) DO UPDATE SET
    rating = EXCLUDED.rating, date = EXCLUDED.date RETURNING id],
    [UPDATE lugares_ratings SET rating = $1, date = $2 WHERE id = $3],
    [DELETE FROM lugares_ratings WHERE id = $1] and
    [SELECT id, lugar_id, user_id, rating, date FROM lugares_ratings
    WHERE lugar_id = $1 ORDER BY date DESC]. *)
Inductive ratingStatement : Type :=
| InsertRating (lugar_id user_id rating : Z) (date : Time)
| UpdateRatingByID (rating : Z) (date : Time) (id : Z)
| DeleteRatingByID (id : Z)
| SelectRatings (lugar_id : Z).

(** A [*sql.Rows] of ratings: what [Scan] gives for each row [Next]
    reaches, and [rows.Err()]. *)
Record ratingRows : Type := mkRatingRows {
  scanned : list (LugarRating.t + Go.error_value);
  rows_Err : Go.error
}.

(** The [*sql.DB] handle, as the methods on the ratings use it. *)
Record sqlDB (Σ : Type) : Type := mkSqlDB {
  QueryRow_id : context.Context -> ratingStatement -> ST Σ (Z + Go.error_value);
  Exec : context.Context -> ratingStatement -> ST Σ ((Z + Go.error_value) + Go.error_value);
  Query_ratings : context.Context -> ratingStatement -> ST Σ (ratingRows + Go.error_value)
}.
Arguments mkSqlDB {Σ}.
Arguments QueryRow_id {Σ}.
Arguments Exec {Σ}.
Arguments Query_ratings {Σ}.

Section Postgres.

Context {Σ : Type}.

Record PostgresLugarRepository : Type := mkPostgresLugarRepository {
  db : sqlDB Σ
}.

Definition NewPostgresLugarRepository (db : sqlDB Σ) : PostgresLugarRepository :=
  mkPostgresLugarRepository db.

Definition Postgres_AddRating (r : PostgresLugarRepository) (ctx : context.Context)
    (rating : LugarRating.t) : ST Σ (LugarRating.t * Z * Go.error) :=
  let* scan :=
    QueryRow_id (db r) ctx
      (InsertRating (LugarRating.LugarID rating) (LugarRating.UserID rating)
         (LugarRating.Rating rating) (LugarRating.Date rating)) in
  match scan with
  | inr err => unit_ST (rating, 0%Z, Some (repository.wrap "error adding rating to lugar" err))
  | inl id => unit_ST (rating, id, None)
  end.

(** The end of [UpdateRating] and of [DeleteRating], from the result of
    the statement. *)
Definition affected (result : (Z + Go.error_value) + Go.error_value)
    (failed : string) (id : Z) : Go.error :=
  match result with
  | inr err => Some (repository.wrap failed err)
  | inl (inr err) => Some (repository.wrap "error getting rows affected" err)
  | inl (inl rowsAffected) =>
      if decide (rowsAffected = 0%Z)
      then Some (Go.errorString ("rating with ID " +:+ Sprintf_d id +:+ " not found"))
      else None
  end.

Definition Postgres_UpdateRating (r : PostgresLugarRepository) (ctx : context.Context)
    (rating : LugarRating.t) : ST Σ (LugarRating.t * Go.error) :=
  let* result :=
    Exec (db r) ctx
      (UpdateRatingByID (LugarRating.Rating rating) (LugarRating.Date rating)
         (LugarRating.ID rating)) in
  unit_ST (rating, affected result "error updating rating" (LugarRating.ID rating)).

Definition Postgres_DeleteRating (r : PostgresLugarRepository) (ctx : context.Context)
    (ratingID : Z) : ST Σ Go.error :=
  let* result := Exec (db r) ctx (DeleteRatingByID ratingID) in
  unit_ST (affected result "error deleting rating" ratingID).

(** The loop [for rows.Next()] of [GetRatings]. *)
Fixpoint scanRatings (rows : list (LugarRating.t + Go.error_value))
    (ratings : list LugarRating.t) : list LugarRating.t + Go.error_value :=
  match rows with
  | [] => inl ratings
  | inl rating :: rest => scanRatings rest (ratings ++ [rating])
  | inr err :: _ => inr (repository.wrap "error scanning rating row" err)
  end.

Definition Postgres_GetRatings (r : PostgresLugarRepository) (ctx : context.Context)
    (lugarID : Z) : ST Σ (list LugarRating.t * Go.error) :=
  let* queried := Query_ratings (db r) ctx (SelectRatings lugarID) in
  match queried with
  | inr err => unit_ST ([], Some (repository.wrap "error getting ratings for lugar" err))
  | inl rows =>
      match scanRatings (scanned rows) [] with
      | inr err => unit_ST ([], Some err)
      | inl ratings =>
          match rows_Err rows with
          | Some err => unit_ST ([], Some (repository.wrap "error iterating rating rows" err))
          | None => unit_ST (ratings, None)
          end
      end
  end.

(** [*PostgresLugarRepository] implements [LugarRepository], here on the
    ratings. *)
Definition PostgresLugarRepository_LugarRepository (r : PostgresLugarRepository)
    : LugarRepository Σ :=
  mkLugarRepository (Postgres_AddRating r) (Postgres_UpdateRating r)
    (Postgres_DeleteRating r) (Postgres_GetRatings r).

End Postgres.

(** *** lugar_handler.go: the handlers of the ratings *)

Section Handlers.

Context `{wire : handlers.Wire} {Σ : Type}.

(** [time.Now()] on the state of the process. *)
Variable now : ST Σ Time.

Record LugarHandler : Type := mkLugarHandler {
  lugarRepo : LugarRepository Σ;
  log : Logger.t Σ
}.

Definition NewLugarHandler (lugarRepo : LugarRepository Σ) (log : Logger.t Σ)
    : LugarHandler :=
  mkLugarHandler lugarRepo log.

(** The metadata of the log calls of the handlers of the ratings. *)
Definition lugares_meta (action : string) : gmap string Go.value :=
  {[ "action" := Go.VString action; "resource" := Go.VString "lugares" ]}.

Definition lugar_meta (action : string) (lugarID : Z) : gmap string Go.value :=
  {[ "action" := Go.VString action; "resource" := Go.VString "lugares";
     "resource_id" := Go.VString (Sprintf_d lugarID) ]}.

Definition rating_meta (action : string) (lugarID ratingID : Z) : gmap string Go.value :=
  {[ "action" := Go.VString action; "resource" := Go.VString "lugares";
     "resource_id" := Go.VString (Sprintf_d lugarID);
     "rating_id" := Go.VString (Sprintf_d ratingID) ]}.

(** The test "Validate rating" of [AddRatingToLugar] and
    [UpdateRatingForLugar]. *)
Definition invalid (rating : LugarRating.t) : bool :=
  (LugarRating.Rating rating <? 1)%Z || (5 <? LugarRating.Rating rating)%Z.

Definition AddRatingToLugar (fuel : nat) (h : LugarHandler) (ctx : context.Context)
    (request : lambda.Request)
    : ST Σ (option (events.APIGatewayProxyResponse * Go.error)) :=
  (* Extract lugar ID from path parameters *)
  match strconv.Atoi (lambda.PathParameter request "id") with
  | inr err =>
      let* _ := effect (Logger.Error (log h) ctx "Invalid lugar ID"
                          (Some (handlers.Atoi_error (lambda.PathParameter request "id") err))
                          [Some (lugares_meta "AddRatingToLugar")]) in
      unit_ST (handlers.createErrorResponse fuel handlers.StatusBadRequest "Invalid lugar ID")
  | inl lugarID =>
      (* Parse request body *)
      match handlers.Unmarshal_LugarRating (lambda.Body request) with
      | inr err =>
          let* _ := effect (Logger.Error (log h) ctx "Invalid request body" (Some err)
                              [Some (lugar_meta "AddRatingToLugar" lugarID)]) in
          unit_ST (handlers.createErrorResponse fuel handlers.StatusBadRequest
                     "Invalid request body")
      | inl rating =>
          (* Validate rating *)
          if invalid rating then
            let* _ := effect (Logger.Warn (log h) ctx "Invalid rating value"
                                [Some (<["rating" := Go.VInt (LugarRating.Rating rating)]>
                                         (lugar_meta "AddRatingToLugar" lugarID))]) in
            unit_ST (handlers.createErrorResponse fuel handlers.StatusBadRequest
                       "Rating must be between 1 and 5")
          else
            (* Set lugar ID and date *)
            let rating := LugarRating.set_LugarID lugarID rating in
            let* date := now in
            let rating := LugarRating.set_Date date rating in
            (* Add rating to lugar *)
            let* (rating, ratingID, err) := AddRating (lugarRepo h) ctx rating in
            match err with
            | Some err =>
                let* _ := effect (Logger.Error (log h) ctx "Error adding rating to lugar"
                                    (Some err) [Some (lugar_meta "AddRatingToLugar" lugarID)]) in
                unit_ST (handlers.createErrorResponse fuel handlers.StatusInternalServerError
                           "Error adding rating to lugar")
            | None =>
                (* Set rating ID *)
                let rating := LugarRating.set_ID ratingID rating in
                (* Log success *)
                let* _ := effect (Logger.Info (log h) ctx "Rating added to lugar successfully"
                                    [Some (<["rating" := Go.VInt (LugarRating.Rating rating)]>
                                             (rating_meta "AddRatingToLugar" lugarID ratingID))]) in
                (* Return created rating as JSON *)
                unit_ST (handlers.createJSONResponse fuel handlers.StatusCreated
                           (handlers.BodyRating rating))
            end
      end
  end.

Definition UpdateRatingForLugar (fuel : nat) (h : LugarHandler) (ctx : context.Context)
    (request : lambda.Request)
    : ST Σ (option (events.APIGatewayProxyResponse * Go.error)) :=
  (* Extract lugar ID and rating ID from path parameters *)
  match strconv.Atoi (lambda.PathParameter request "id") with
  | inr err =>
      let* _ := effect (Logger.Error (log h) ctx "Invalid lugar ID"
                          (Some (handlers.Atoi_error (lambda.PathParameter request "id") err))
                          [Some (lugares_meta "UpdateRatingForLugar")]) in
      unit_ST (handlers.createErrorResponse fuel handlers.StatusBadRequest "Invalid lugar ID")
  | inl lugarID =>
      match strconv.Atoi (lambda.PathParameter request "ratingId") with
      | inr err =>
          let* _ := effect (Logger.Error (log h) ctx "Invalid rating ID"
                              (Some (handlers.Atoi_error
                                       (lambda.PathParameter request "ratingId") err))
                              [Some (lugar_meta "UpdateRatingForLugar" lugarID)]) in
          unit_ST (handlers.createErrorResponse fuel handlers.StatusBadRequest
                     "Invalid rating ID")
      | inl ratingID =>
          (* Parse request body *)
          match handlers.Unmarshal_LugarRating (lambda.Body request) with
          | inr err =>
              let* _ := effect (Logger.Error (log h) ctx "Invalid request body" (Some err)
                                  [Some (rating_meta "UpdateRatingForLugar" lugarID ratingID)]) in
              unit_ST (handlers.createErrorResponse fuel handlers.StatusBadRequest
                         "Invalid request body")
          | inl rating =>
              (* Validate rating *)
              if invalid rating then
                let* _ := effect (Logger.Warn (log h) ctx "Invalid rating value"
                                    [Some (<["rating" := Go.VInt (LugarRating.Rating rating)]>
                                             (rating_meta "UpdateRatingForLugar" lugarID
                                                ratingID))]) in
                unit_ST (handlers.createErrorResponse fuel handlers.StatusBadRequest
                           "Rating must be between 1 and 5")
              else
                (* Set rating ID, lugar ID, and date *)
                let rating := LugarRating.set_ID ratingID rating in
                let rating := LugarRating.set_LugarID lugarID rating in
                let* date := now in
                let rating := LugarRating.set_Date date rating in
                (* Update rating for lugar *)
                let* (rating, err) := UpdateRating (lugarRepo h) ctx rating in
                match err with
                | Some err =>
                    let* _ := effect (Logger.Error (log h) ctx "Error updating rating for lugar"
                                        (Some err)
                                        [Some (rating_meta "UpdateRatingForLugar" lugarID
                                                 ratingID)]) in
                    unit_ST (handlers.createErrorResponse fuel
                               handlers.StatusInternalServerError
                               "Error updating rating for lugar")
                | None =>
                    (* Log success *)
                    let* _ := effect (Logger.Info (log h) ctx
                                        "Rating updated for lugar successfully"
                                        [Some (<["rating" := Go.VInt (LugarRating.Rating rating)]>
                                                 (rating_meta "UpdateRatingForLugar" lugarID
                                                    ratingID))]) in
                    (* Return updated rating as JSON *)
                    unit_ST (handlers.createJSONResponse fuel handlers.StatusOK
                               (handlers.BodyRating rating))
                end
          end
      end
  end.

Definition DeleteRatingFromLugar (fuel : nat) (h : LugarHandler) (ctx : context.Context)
    (request : lambda.Request)
    : ST Σ (option (events.APIGatewayProxyResponse * Go.error)) :=
  (* Extract lugar ID and rating ID from path parameters *)
  match strconv.Atoi (lambda.PathParameter request "id") with
  | inr err =>
      let* _ := effect (Logger.Error (log h) ctx "Invalid lugar ID"
                          (Some (handlers.Atoi_error (lambda.PathParameter request "id") err))
                          [Some (lugares_meta "DeleteRatingFromLugar")]) in
      unit_ST (handlers.createErrorResponse fuel handlers.StatusBadRequest "Invalid lugar ID")
  | inl lugarID =>
      match strconv.Atoi (lambda.PathParameter request "ratingId") with
      | inr err =>
          let* _ := effect (Logger.Error (log h) ctx "Invalid rating ID"
                              (Some (handlers.Atoi_error
                                       (lambda.PathParameter request "ratingId") err))
                              [Some (lugar_meta "DeleteRatingFromLugar" lugarID)]) in
          unit_ST (handlers.createErrorResponse fuel handlers.StatusBadRequest
                     "Invalid rating ID")
      | inl ratingID =>
          (* Delete rating from lugar *)
          let* err := DeleteRating (lugarRepo h) ctx ratingID in
          match err with
          | Some err =>
              let* _ := effect (Logger.Error (log h) ctx "Error deleting rating from lugar"
                                  (Some err)
                                  [Some (rating_meta "DeleteRatingFromLugar" lugarID
                                           ratingID)]) in
              unit_ST (handlers.createErrorResponse fuel handlers.StatusInternalServerError
                         "Error deleting rating from lugar")
          | None =>
              (* Log success *)
              let* _ := effect (Logger.Info (log h) ctx
                                  "Rating deleted from lugar successfully"
                                  [Some (rating_meta "DeleteRatingFromLugar" lugarID
                                           ratingID)]) in
              (* Return success response *)
              unit_ST handlers.noContent
          end
      end
  end.

Definition GetRatingsForLugar (fuel : nat) (h : LugarHandler) (ctx : context.Context)
    (request : lambda.Request)
    : ST Σ (option (events.APIGatewayProxyResponse * Go.error)) :=
  (* Extract lugar ID from path parameters *)
  match strconv.Atoi (lambda.PathParameter request "id") with
  | inr err =>
      let* _ := effect (Logger.Error (log h) ctx "Invalid lugar ID"
                          (Some (handlers.Atoi_error (lambda.PathParameter request "id") err))
                          [Some (lugares_meta "GetRatingsForLugar")]) in
      unit_ST (handlers.createErrorResponse fuel handlers.StatusBadRequest "Invalid lugar ID")
  | inl lugarID =>
      (* Get ratings for lugar *)
      let* (ratings, err) := GetRatings (lugarRepo h) ctx lugarID in
      match err with
      | Some err =>
          let* _ := effect (Logger.Error (log h) ctx "Error getting ratings for lugar"
                              (Some err) [Some (lugar_meta "GetRatingsForLugar" lugarID)]) in
          unit_ST (handlers.createErrorResponse fuel handlers.StatusInternalServerError
                     "Error getting ratings for lugar")
      | None =>
          (* Log success *)
          let* _ := effect (Logger.Info (log h) ctx "Ratings retrieved for lugar successfully"
                              [Some (<["count" := Go.VInt (Z.of_nat (length ratings))]>
                                       (lugar_meta "GetRatingsForLugar" lugarID))]) in
          (* Return ratings as JSON *)
          unit_ST (handlers.createJSONResponse fuel handlers.StatusOK
                     (handlers.BodyRatings ratings))
      end
  end.

End Handlers.

End ratings.

(** A database of ratings on the statements it has received: every
    statement succeeds, and the rating inserted gets the identifier 9. *)
Definition rating_log : ratings.sqlDB (list ratings.ratingStatement) :=
  ratings.mkSqlDB
    (fun _ statement received => (inl 9%Z, received ++ [statement]))
    (fun _ statement received => (inl (inl 1%Z), received ++ [statement]))
    (fun _ statement received =>
       (inl (ratings.mkRatingRows [] None), received ++ [statement])).

(** A clock that stands still, for the database of ratings. *)
Definition noon : ST (list ratings.ratingStatement) Time := fun σ => (12%Z, σ).

(** Requests on the rating 9, under the lugar [lugar] of the path; the
    body is read by [wire_demo] as a rating of 5 by the user 7. *)
Definition rating_request (method lugar : string) : lambda.Request :=
  lambda.mkRequest
    (events.mkRequest "/lugares/{id}/ratings/{ratingId}" method ∅ ∅)
    {[ "id" := lugar; "ratingId" := "9" ]} "{...}".

(** * Properties *)

(** ** Building an entry *)

(** Building an entry reads the clock once and touches nothing else. *)
Lemma DBLogger_createLogEntry_world l ctx level message err metadata w :
  (DBLogger_createLogEntry l ctx level message err metadata w).2 = (time_Now w).2.
Proof.
  unfold DBLogger_createLogEntry, bind, ret. simpl.
  destruct metadata as [|[m|] rest]; reflexivity.
Qed.

Lemma CloudWatchLogger_createLogEntry_world l ctx level message err metadata w :
  (CloudWatchLogger_createLogEntry l ctx level message err metadata w).2 = (time_Now w).2.
Proof.
  unfold CloudWatchLogger_createLogEntry, bind, ret. simpl.
  destruct metadata as [|[m|] rest]; reflexivity.
Qed.

(** The comma-ok assertion on a map index, by the three cases of the key. *)
Lemma assert_string_index (m : gmap string Go.value) (k : string) :
  Go.assert_string (Go.index m k) =
  match m !! k with
  | Some (Go.VString s) => (s, true)
  | _ => ("", false)
  end.
Proof.
  unfold Go.index. destruct (m !! k) as [v|]; simpl; [destruct v|]; reflexivity.
Qed.

(** The fields of the entry the database sink builds from a non-nil first
    map. *)
Lemma DBLogger_createLogEntry_fields l ctx level message err
    (m : gmap string Go.value) rest w :
  (DBLogger_createLogEntry l ctx level message err (Some m :: rest) w).1 =
  mkLogEntry (clock w (now_calls w)) level message (db_serviceName l)
    (GetRequestIDFromContext ctx) (GetUserIDFromContext ctx)
    (match m !! "action" with Some (Go.VString s) => s | _ => "" end)
    (match m !! "resource" with Some (Go.VString s) => s | _ => "" end)
    (match m !! "resource_id" with Some (Go.VString s) => s | _ => "" end)
    (Some m) err.
Proof.
  unfold DBLogger_createLogEntry, bind, ret, time_Now. simpl.
  rewrite !assert_string_index.
  destruct (m !! "action") as [[]|], (m !! "resource") as [[]|],
    (m !! "resource_id") as [[]|]; reflexivity.
Qed.

Lemma CloudWatchLogger_createLogEntry_fields l ctx level message err
    (m : gmap string Go.value) rest w :
  (CloudWatchLogger_createLogEntry l ctx level message err (Some m :: rest) w).1 =
  mkLogEntry (clock w (now_calls w)) level message (cw_serviceName l)
    (GetRequestIDFromContext ctx) (GetUserIDFromContext ctx)
    (match m !! "action" with Some (Go.VString s) => s | _ => "" end)
    (match m !! "resource" with Some (Go.VString s) => s | _ => "" end)
    (match m !! "resource_id" with Some (Go.VString s) => s | _ => "" end)
    (Some m) err.
Proof.
  unfold CloudWatchLogger_createLogEntry, bind, ret, time_Now. simpl.
  rewrite !assert_string_index.
  destruct (m !! "action") as [[]|], (m !! "resource") as [[]|],
    (m !! "resource_id") as [[]|]; reflexivity.
Qed.

(** With no map, or a nil first map, nothing is promoted. *)
Lemma DBLogger_createLogEntry_bare l ctx level message err metadata w :
  hd None metadata = None ->
  (DBLogger_createLogEntry l ctx level message err metadata w).1 =
  mkLogEntry (clock w (now_calls w)) level message (db_serviceName l)
    (GetRequestIDFromContext ctx) (GetUserIDFromContext ctx) "" "" "" None err.
Proof.
  intros Hhd. destruct metadata as [|[m|] rest]; [reflexivity|discriminate|reflexivity].
Qed.

Lemma CloudWatchLogger_createLogEntry_bare l ctx level message err metadata w :
  hd None metadata = None ->
  (CloudWatchLogger_createLogEntry l ctx level message err metadata w).1 =
  mkLogEntry (clock w (now_calls w)) level message (cw_serviceName l)
    (GetRequestIDFromContext ctx) (GetUserIDFromContext ctx) "" "" "" None err.
Proof.
  intros Hhd. destruct metadata as [|[m|] rest]; [reflexivity|discriminate|reflexivity].
Qed.

(** C2.  Whatever the severity method, the sink and the moment of the call,
    the entry built from a metadata map [m] has, in [Action], [Resource] and
    [ResourceID], the values of the keys "action", "resource" and
    "resource_id" of [m] where these are strings, and the empty string where
    the key is missing or holds a value of another type; its [Metadata] is
    [m] itself, so the promoted keys are still in the map.  This holds of
    the two [createLogEntry] at every level, and so of the entry of each of
    the five methods of either sink. *)
Theorem createLogEntry_mirrors_metadata
    (db : DBLogger) (cw : CloudWatchLogger) (ctx : context.Context)
    (level : LogLevel) (message : string) (err : Go.error)
    (m : gmap string Go.value) (rest : list Go.map) (w : World)
    (s : sink) (c : Logger.call) :
  let promoted (k : string) :=
    match m !! k with Some (Go.VString s) => s | _ => "" end in
  let by_db := (DBLogger_createLogEntry db ctx level message err (Some m :: rest) w).1 in
  let by_cw := (CloudWatchLogger_createLogEntry cw ctx level message err (Some m :: rest) w).1 in
  let by_method := (sink_entry s (Logger.with_metadata (Some m :: rest) c) w).1 in
  (Action by_db = promoted "action" /\ Resource by_db = promoted "resource" /\
   ResourceID by_db = promoted "resource_id" /\ Metadata by_db = Some m) /\
  (Action by_cw = promoted "action" /\ Resource by_cw = promoted "resource" /\
   ResourceID by_cw = promoted "resource_id" /\ Metadata by_cw = Some m) /\
  (Action by_method = promoted "action" /\ Resource by_method = promoted "resource" /\
   ResourceID by_method = promoted "resource_id" /\ Metadata by_method = Some m).
Proof.
  intros promoted by_db by_cw by_method. subst by_db by_cw by_method promoted.
  split; [|split].
  - rewrite DBLogger_createLogEntry_fields. cbn. repeat split.
  - rewrite CloudWatchLogger_createLogEntry_fields. cbn. repeat split.
  - destruct s as [l|l], c;
      cbn [sink_entry DBLogger_entry CloudWatchLogger_entry Logger.with_metadata];
      rewrite ?DBLogger_createLogEntry_fields, ?CloudWatchLogger_createLogEntry_fields;
      cbn; repeat split.
Qed.

(** ** Reading the context *)

(** C8.  The two extraction functions are defined on every context, the
    nil one included, and give the absent value (the empty string, zero)
    whenever the context is nil, has no value under the key, or has one of
    another type; a value of the right type is returned as it is. *)
Theorem context_extraction_absent_is_not_an_error (ctx : context.Context) :
  ((forall c s, ctx = Some c -> context.Value c (Go.VString "requestID") <> Go.VString s) ->
   GetRequestIDFromContext ctx = "") /\
  ((forall c n, ctx = Some c -> context.Value c (Go.VString "userID") <> Go.VInt n) ->
   GetUserIDFromContext ctx = 0%Z) /\
  (forall c s, ctx = Some c -> context.Value c (Go.VString "requestID") = Go.VString s ->
   GetRequestIDFromContext ctx = s) /\
  (forall c n, ctx = Some c -> context.Value c (Go.VString "userID") = Go.VInt n ->
   GetUserIDFromContext ctx = n).
Proof.
  destruct ctx as [c|]; simpl.
  - repeat split.
    + intros Habsent.
      destruct (context.Value c (Go.VString "requestID")) as [| | | |s|] eqn:Hv;
        try reflexivity.
      exfalso. exact (Habsent c s eq_refl Hv).
    + intros Habsent.
      destruct (context.Value c (Go.VString "userID")) as [| |n| | |] eqn:Hv;
        try reflexivity.
      exfalso. exact (Habsent c n eq_refl Hv).
    + intros c' s [= <-] ->. reflexivity.
    + intros c' n [= <-] ->. reflexivity.
  - repeat split; try reflexivity; intros; discriminate.
Qed.

(** The three ways of being absent, and a value that is present: the nil
    context; [context.Background()]; a context whose "requestID" is an
    integer and whose "userID" is an [int64]; a context with both values. *)
Lemma context_extraction_examples :
  (GetRequestIDFromContext None = "" /\ GetUserIDFromContext None = 0%Z) /\
  (GetRequestIDFromContext (Some context.Background) = "" /\
   GetUserIDFromContext (Some context.Background) = 0%Z) /\
  (let c := context.valueCtx
              (context.valueCtx context.Background (Go.VString "requestID") (Go.VInt 17))
              (Go.VString "userID") (Go.VInt64 42) in
   GetRequestIDFromContext (Some c) = "" /\ GetUserIDFromContext (Some c) = 0%Z) /\
  (let c := context.valueCtx
              (context.valueCtx context.Background (Go.VString "requestID") (Go.VString "r-1"))
              (Go.VString "userID") (Go.VInt 42) in
   GetRequestIDFromContext (Some c) = "r-1" /\ GetUserIDFromContext (Some c) = 42%Z).
Proof.
  pose proof (context_extraction_absent_is_not_an_error None) as (Hr & Hu & _).
  split; [split; [apply Hr | apply Hu]; intros; discriminate|].
  repeat split.
Defined.

(** ** The metric name *)

(** The name [putMetricData] forms is never empty, so the branch that would
    replace it by the level is never taken. *)
Lemma metricName_format (entry : LogEntry) :
  metricName entry = Level entry +:+ "_" +:+ Resource entry.
Proof.
  unfold metricName. case_decide as Hempty; [|reflexivity].
  exfalso. destruct (Level entry); discriminate Hempty.
Qed.

(** C1, on the code.  For an entry with no resource the metric name is the
    level followed by the separator: an INFO entry is counted under "INFO_",
    and that is the name in the datum sent to CloudWatch. *)
Theorem metric_name_without_resource_keeps_separator
    (l : CloudWatchLogger) (ctx : context.Context) (entry : LogEntry) (w : World) :
  metricName (set_Resource "" entry) = Level entry +:+ "_" /\
  metricName (mkLogEntry 0%Z INFO "ok" "site-geav-api" "" 0%Z "" "" "" None None) = "INFO_" /\
  cw_puts (putMetricData l ctx (mkLogEntry 0%Z INFO "ok" "site-geav-api" "" 0%Z "" "" "" None None) w).2 =
    cw_puts w ++
    [cloudwatch.mkInput (namespace l)
       [MetricDatum.mk "INFO_" [Dimension.mk "ServiceName" (cw_serviceName l)] 0%Z 1%Z "Count"]].
Proof.
  split; [|split].
  - rewrite metricName_format. reflexivity.
  - reflexivity.
  - reflexivity.
Qed.

(** ** What one call does to the world *)

Section SinkCalls.

Context `{json : JSON}.

(** A method of a sink is the construction of its entry followed by the
    write. *)
Lemma DBLogger_invoke (l : DBLogger) (c : Logger.call) (w : World) :
  Logger.invoke (DBLogger_Logger l) c w =
  exec (logToDB l (Logger.ctx_of c) (DBLogger_entry l c w).1) (time_Now w).2.
Proof.
  destruct c; cbn [Logger.invoke DBLogger_Logger Logger.Debug Logger.Info Logger.Warn
    Logger.Error Logger.Fatal Logger.ctx_of DBLogger_entry];
    unfold exec, DBLogger_Debug, DBLogger_Info, DBLogger_Warn, DBLogger_Error,
      DBLogger_Fatal, bind;
    match goal with |- context [DBLogger_createLogEntry ?a ?b ?c ?d ?e ?f ?g] =>
      rewrite <- (DBLogger_createLogEntry_world a b c d e f g);
      destruct (DBLogger_createLogEntry a b c d e f g) end; reflexivity.
Qed.

Lemma CloudWatchLogger_invoke (l : CloudWatchLogger) (c : Logger.call) (w : World) :
  Logger.invoke (CloudWatchLogger_Logger l) c w =
  exec (logToCloudWatch l (Logger.ctx_of c) (CloudWatchLogger_entry l c w).1) (time_Now w).2.
Proof.
  destruct c; cbn [Logger.invoke CloudWatchLogger_Logger Logger.Debug Logger.Info
    Logger.Warn Logger.Error Logger.Fatal Logger.ctx_of CloudWatchLogger_entry];
    unfold exec, CloudWatchLogger_Debug, CloudWatchLogger_Info, CloudWatchLogger_Warn,
      CloudWatchLogger_Error, CloudWatchLogger_Fatal, bind;
    match goal with |- context [CloudWatchLogger_createLogEntry ?a ?b ?c ?d ?e ?f ?g] =>
      rewrite <- (CloudWatchLogger_createLogEntry_world a b c d e f g);
      destruct (CloudWatchLogger_createLogEntry a b c d e f g) end; reflexivity.
Qed.


Lemma DBLogger_entry_Error (l : DBLogger) (c : Logger.call) (w : World) :
  Error (DBLogger_entry l c w).1 = Logger.err_of c.
Proof.
  destruct c; cbn [DBLogger_entry Logger.err_of];
    (destruct metadata as [|[m|] rest];
     [ rewrite DBLogger_createLogEntry_bare by reflexivity
     | rewrite DBLogger_createLogEntry_fields
     | rewrite DBLogger_createLogEntry_bare by reflexivity ]; reflexivity).
Qed.

Lemma DBLogger_entry_Timestamp (l : DBLogger) (c : Logger.call) (w : World) :
  Timestamp (DBLogger_entry l c w).1 = clock w (now_calls w).
Proof.
  destruct c; cbn [DBLogger_entry];
    (destruct metadata as [|[m|] rest];
     [ rewrite DBLogger_createLogEntry_bare by reflexivity
     | rewrite DBLogger_createLogEntry_fields
     | rewrite DBLogger_createLogEntry_bare by reflexivity ]; reflexivity).
Qed.

Lemma CloudWatchLogger_entry_Timestamp (l : CloudWatchLogger) (c : Logger.call) (w : World) :
  Timestamp (CloudWatchLogger_entry l c w).1 = clock w (now_calls w).
Proof.
  destruct c; cbn [CloudWatchLogger_entry];
    (destruct metadata as [|[m|] rest];
     [ rewrite CloudWatchLogger_createLogEntry_bare by reflexivity
     | rewrite CloudWatchLogger_createLogEntry_fields
     | rewrite CloudWatchLogger_createLogEntry_bare by reflexivity ]; reflexivity).
Qed.

(** [logToDB], when the table cannot be ensured. *)
Lemma logToDB_create_fails (l : DBLogger) ctx entry (w : World) e :
  db_fault w (length (db_execs w)) = Some e ->
  exec (logToDB l ctx entry) w =
  mkWorld (clock w) (now_calls w)
    (stdout w ++ ["Error ensuring log table: " +:+ Go.Error e +:+ LF])
    (db_fault w) (db_execs w ++ [CreateTableIfNotExists (tableName l)])
    (cw_fault w) (cw_puts w).
Proof.
  intros Hfault. unfold exec, logToDB, ensureLogTable, bind, db_ExecContext.
  rewrite Hfault. reflexivity.
Qed.

(** [logToDB], when the metadata cannot be serialized. *)
Lemma logToDB_marshal_fails (l : DBLogger) ctx entry (w : World) e :
  db_fault w (length (db_execs w)) = None ->
  marshal_metadata entry = inr e ->
  exec (logToDB l ctx entry) w =
  mkWorld (clock w) (now_calls w)
    (stdout w ++ ["Error marshaling metadata: " +:+ Go.Error e +:+ LF])
    (db_fault w) (db_execs w ++ [CreateTableIfNotExists (tableName l)])
    (cw_fault w) (cw_puts w).
Proof.
  intros Hfault Hjson. unfold exec, logToDB, ensureLogTable, bind, db_ExecContext.
  rewrite Hfault, Hjson. reflexivity.
Qed.

(** [logToDB], when it reaches the INSERT. *)
Lemma logToDB_inserts (l : DBLogger) ctx entry (w : World) metadataJSON :
  db_fault w (length (db_execs w)) = None ->
  marshal_metadata entry = inl metadataJSON ->
  exec (logToDB l ctx entry) w =
  mkWorld (clock w) (now_calls w)
    (stdout w ++
     match db_fault w (S (length (db_execs w))) with
     | Some e => ["Error inserting log entry: " +:+ Go.Error e +:+ LF]
     | None => []
     end)
    (db_fault w)
    (db_execs w ++
     [CreateTableIfNotExists (tableName l);
      InsertInto (tableName l)
        (insertArgs entry metadataJSON
           match Error entry with Some e => Go.Error e | None => "" end)])
    (cw_fault w) (cw_puts w).
Proof.
  intros Hfault Hjson. unfold exec, logToDB, ensureLogTable, bind, db_ExecContext.
  rewrite Hfault, Hjson. cbn [db_execs db_fault].
  rewrite length_app, Nat.add_comm. cbn [length Nat.add].
  rewrite <- app_assoc. cbn [app].
  destruct (db_fault w (S (length (db_execs w)))); cbn; rewrite ?app_nil_r; reflexivity.
Qed.

(** [logToCloudWatch], when the entry cannot be serialized. *)
Lemma logToCloudWatch_marshal_fails (l : CloudWatchLogger) ctx entry (w : World) e :
  Marshal_entry entry = inr e ->
  exec (logToCloudWatch l ctx entry) w =
  mkWorld (clock w) (now_calls w)
    (stdout w ++ ["Error marshaling log entry: " +:+ Go.Error e +:+ LF])
    (db_fault w) (db_execs w) (cw_fault w) (cw_puts w).
Proof.
  intros Hjson. unfold exec, logToCloudWatch. rewrite Hjson. reflexivity.
Qed.

(** [logToCloudWatch], when it reaches the remote call. *)
Lemma logToCloudWatch_puts (l : CloudWatchLogger) ctx entry (w : World) jsonData :
  Marshal_entry entry = inl jsonData ->
  exec (logToCloudWatch l ctx entry) w =
  mkWorld (clock w) (now_calls w)
    (stdout w ++
     match cw_fault w (length (cw_puts w)) with
     | Some e => ["Error sending metric to CloudWatch: " +:+ Go.Error e +:+ LF]
     | None => []
     end ++ [jsonData +:+ LF])
    (db_fault w) (db_execs w) (cw_fault w)
    (cw_puts w ++
     [cloudwatch.mkInput (namespace l)
        [MetricDatum.mk (metricName entry) (dimensions l entry) (Timestamp entry) 1%Z "Count"]]).
Proof.
  intros Hjson. unfold exec, logToCloudWatch, putMetricData, bind, client_PutMetricData.
  rewrite Hjson.
  destruct (cw_fault w (length (cw_puts w))); cbn; rewrite <- ?app_assoc; reflexivity.
Qed.

End SinkCalls.

(** ** The first map only *)

(** C10.  Of the maps passed through the variadic parameter only the first
    is read, and it is the one attached and promoted from.  With the maps
    [first :: others], each [createLogEntry] builds, at every level, the
    entry whose [Metadata] is [first] and whose [Action], [Resource] and
    [ResourceID] are the strings under "action", "resource" and
    "resource_id" of [first] (the empty string for a key that is missing or
    no string, and for a nil [first]); [others] occurs nowhere in it.  Each
    of the five methods of either sink writes that entry, and so does to the
    world what the call with [first] alone does. *)
Theorem only_first_metadata_map_is_used `{json : JSON}
    (db : DBLogger) (cw : CloudWatchLogger) (ctx : context.Context)
    (level : LogLevel) (message : string) (err : Go.error)
    (s : sink) (c : Logger.call) (first : Go.map) (others : list Go.map) (w : World) :
  let promoted (k : string) :=
    match first with
    | Some m => match m !! k with Some (Go.VString v) => v | _ => "" end
    | None => ""
    end in
  let called := Logger.with_metadata (first :: others) c in
  let by_method := (sink_entry s called w).1 in
  (DBLogger_createLogEntry db ctx level message err (first :: others) w).1 =
    mkLogEntry (clock w (now_calls w)) level message (db_serviceName db)
      (GetRequestIDFromContext ctx) (GetUserIDFromContext ctx)
      (promoted "action") (promoted "resource") (promoted "resource_id") first err /\
  (CloudWatchLogger_createLogEntry cw ctx level message err (first :: others) w).1 =
    mkLogEntry (clock w (now_calls w)) level message (cw_serviceName cw)
      (GetRequestIDFromContext ctx) (GetUserIDFromContext ctx)
      (promoted "action") (promoted "resource") (promoted "resource_id") first err /\
  (Action by_method = promoted "action" /\ Resource by_method = promoted "resource" /\
   ResourceID by_method = promoted "resource_id" /\ Metadata by_method = first) /\
  Logger.invoke (sink_Logger s) called w =
    exec (sink_write s (Logger.ctx_of c) by_method) (time_Now w).2 /\
  sink_entry s called w = sink_entry s (Logger.with_metadata [first] c) w /\
  Logger.invoke (sink_Logger s) called w =
    Logger.invoke (sink_Logger s) (Logger.with_metadata [first] c) w.
Proof.
  intros promoted called by_method. subst promoted called by_method.
  split; [|split; [|split; [|split; [|split]]]].
  - destruct first as [m|];
      [ rewrite DBLogger_createLogEntry_fields
      | rewrite DBLogger_createLogEntry_bare by reflexivity ]; reflexivity.
  - destruct first as [m|];
      [ rewrite CloudWatchLogger_createLogEntry_fields
      | rewrite CloudWatchLogger_createLogEntry_bare by reflexivity ]; reflexivity.
  - destruct s as [l|l], c;
      cbn [sink_entry DBLogger_entry CloudWatchLogger_entry Logger.with_metadata];
      destruct first as [m|];
      first [ rewrite DBLogger_createLogEntry_fields
            | rewrite CloudWatchLogger_createLogEntry_fields
            | rewrite DBLogger_createLogEntry_bare by reflexivity
            | rewrite CloudWatchLogger_createLogEntry_bare by reflexivity ];
      cbn; repeat split.
  - destruct s as [l|l]; cbn [sink_Logger sink_write sink_entry];
      [ rewrite CloudWatchLogger_invoke | rewrite DBLogger_invoke ];
      destruct c; reflexivity.
  - destruct s as [l|l], c; reflexivity.
  - destruct s as [l|l], c; reflexivity.
Qed.

(** ** The error_message column *)

(** The statements one call of the database sink sends: the CREATE TABLE,
    and after it at most the INSERT of its entry. *)
Lemma DBLogger_invoke_execs `{json : JSON} (l : DBLogger) (c : Logger.call) (w : World) :
  let entry := (DBLogger_entry l c w).1 in
  let sent := drop (length (db_execs w)) (db_execs (Logger.invoke (DBLogger_Logger l) c w)) in
  sent = [CreateTableIfNotExists (tableName l)] \/
  exists metadataJSON,
    db_fault w (length (db_execs w)) = None /\
    marshal_metadata entry = inl metadataJSON /\
    sent = [CreateTableIfNotExists (tableName l);
            InsertInto (tableName l)
              (insertArgs entry metadataJSON
                 match Logger.err_of c with Some e => Go.Error e | None => "" end)].
Proof.
  intros entry sent. subst sent. rewrite DBLogger_invoke. fold entry.
  rewrite <- (DBLogger_entry_Error l c w). fold entry.
  destruct (db_fault w (length (db_execs w))) as [e|] eqn:Hfault.
  - left. rewrite (logToDB_create_fails _ _ _ _ e) by exact Hfault.
    cbn [db_execs time_Now snd]. apply drop_app_length.
  - destruct (marshal_metadata entry) as [metadataJSON|e] eqn:Hjson.
    + right. exists metadataJSON. split; [reflexivity|]. split; [reflexivity|].
      rewrite (logToDB_inserts _ _ _ _ metadataJSON) by assumption.
      cbn [db_execs time_Now snd]. apply drop_app_length.
    + left. rewrite (logToDB_marshal_fails _ _ _ _ e) by assumption.
      cbn [db_execs time_Now snd]. apply drop_app_length.
Qed.

(** C3, as the code has it.  The INSERT of a call of the database sink
    carries, for error_message, a Go string: the text of [Error()] when the
    call has a non-nil error, the empty string when it has none. *)
Theorem db_error_message_is_a_string `{json : JSON}
    (l : DBLogger) (c : Logger.call) (w : World) (table : string) (args : insert_args) :
  In (InsertInto table args)
     (drop (length (db_execs w)) (db_execs (Logger.invoke (DBLogger_Logger l) c w))) ->
  col_error_message args =
    ArgString match Logger.err_of c with Some e => Go.Error e | None => "" end.
Proof.
  intros Hsent.
  destruct (DBLogger_invoke_execs l c w) as [Hexecs|(metadataJSON & _ & _ & Hexecs)];
    rewrite Hexecs in Hsent; cbn [In] in Hsent.
  - destruct Hsent as [Hcreate|[]]. discriminate Hcreate.
  - destruct Hsent as [Hcreate|[Hinsert|[]]]; [discriminate Hcreate|].
    injection Hinsert as _ <-. reflexivity.
Qed.

(** The scenario of the specification: the row of [boom] has the text of
    the error in error_message. *)
Lemma db_error_message_of_boom :
  let args :=
    insertArgs
      (mkLogEntry 0%Z ERROR "boom" "site-geav-api" "" 0%Z "CreateUser" "users" "42"
         (Some boom_metadata) (Some (Go.errorString "context deadline exceeded")))
      (Some "{...}") "context deadline exceeded" in
  In (InsertInto "api_logs" args)
     (drop (length (db_execs (start ticking never never)))
        (db_execs (Logger.invoke (DBLogger_Logger (json := json_demo) dbLogger) boom
                     (start ticking never never)))) /\
  col_error_message args = ArgString "context deadline exceeded".
Proof.
  assert (In (InsertInto "api_logs"
                (insertArgs
                   (mkLogEntry 0%Z ERROR "boom" "site-geav-api" "" 0%Z "CreateUser" "users" "42"
                      (Some boom_metadata) (Some (Go.errorString "context deadline exceeded")))
                   (Some "{...}") "context deadline exceeded"))
     (drop (length (db_execs (start ticking never never)))
        (db_execs (Logger.invoke (DBLogger_Logger (json := json_demo) dbLogger) boom
                     (start ticking never never))))) as Hsent.
  { vm_compute. right. left. reflexivity. }
  split; [exact Hsent|].
  exact (db_error_message_is_a_string (json := json_demo) dbLogger boom
           (start ticking never never) _ _ Hsent).
Defined.

(** C3, as stated, fails: a call without an error (here [Info], with no
    metadata, on a database that accepts both statements) inserts the empty
    string, which is not the NULL of [database/sql]. *)
Lemma error_message_without_error_is_not_null :
  exists args,
    db_execs (Logger.invoke (DBLogger_Logger (json := json_demo) dbLogger) plain
                (start ticking never never)) =
      [CreateTableIfNotExists "api_logs"; InsertInto "api_logs" args] /\
    col_error_message args = ArgString "" /\
    col_error_message args <> ArgNil.
Proof.
  eexists. split; [reflexivity|]. split; [reflexivity|]. discriminate.
Qed.

(** ** The fan-out *)

(** A method of the composite logger is the loop over its sinks. *)
Lemma CompositeLogger_invoke {Σ : Type} (ls : list (Logger.t Σ)) (c : Logger.call) (σ : Σ) :
  Logger.invoke (CompositeLogger_Logger (NewCompositeLogger ls)) c σ =
  for_range ls (fun logger => Logger.invoke logger c) σ.
Proof. destruct c; reflexivity. Qed.



Lemma CompositeLogger_invoke_cons {Σ : Type} (l : Logger.t Σ) (post : list (Logger.t Σ))
    (c : Logger.call) (σ : Σ) :
  Logger.invoke (CompositeLogger_Logger (NewCompositeLogger (l :: post))) c σ =
  Logger.invoke (CompositeLogger_Logger (NewCompositeLogger post)) c (Logger.invoke l c σ).
Proof. rewrite !CompositeLogger_invoke. reflexivity. Qed.

(** ** The serialization of the metadata *)


(** ** Every sink, once, in order *)

(** A sink under observation does what the sink does and notes the call. *)
Lemma probe_invoke {Σ : Type} (i : nat) (l : Logger.t Σ) (c : Logger.call)
    (σ : Σ) (seen : list (nat * Logger.call)) :
  Logger.invoke (probe i l) c (σ, seen) = (Logger.invoke l c σ, seen ++ [(i, c)]).
Proof. destruct c; reflexivity. Qed.

(** The loop over sinks under observation, started at any index and with
    any record. *)
Lemma for_range_probes {Σ : Type} (ls : list (Logger.t Σ)) (c : Logger.call) :
  forall (k : nat) (σ : Σ) (seen : list (nat * Logger.call)),
  for_range (imap (fun i => probe (k + i)) ls) (fun logger => Logger.invoke logger c) (σ, seen) =
  (for_range ls (fun logger => Logger.invoke logger c) σ,
   seen ++ ((fun i => (i, c)) <$> seq k (length ls))).
Proof.
  induction ls as [|l ls IH]; intros k σ seen.
  - simpl. rewrite app_nil_r. reflexivity.
  - cbn [imap for_range length seq fmap list_fmap].
    rewrite probe_invoke, Nat.add_0_r.
    rewrite (imap_ext _ (fun i => probe (S k + i))) by (intros; simpl; f_equal; lia).
    rewrite IH, <- app_assoc. reflexivity.
Qed.

(** C4.  Put every sink of a composite logger under observation, sink [i]
    noting the calls it receives with its index.  After one call [c] of any
    of the five methods, the record is [(0, c); (1, c); ...; (N-1, c)]: each
    of the [N] sinks has received one call, of the same method and with the
    same arguments, in the order of the sequence; and the state is the one
    the composite logger without observers leaves.  The sinks are
    arbitrary: nothing is assumed of what a call does inside a sink. *)
Theorem composite_calls_each_sink_once_in_order {Σ : Type}
    (ls : list (Logger.t Σ)) (c : Logger.call) (σ : Σ) :
  Logger.invoke (CompositeLogger_Logger (NewCompositeLogger (imap probe ls))) c (σ, []) =
  (Logger.invoke (CompositeLogger_Logger (NewCompositeLogger ls)) c σ,
   (fun i => (i, c)) <$> seq 0 (length ls)).
Proof.
  rewrite !CompositeLogger_invoke.
  exact (for_range_probes ls c 0 σ []).
Qed.

(** ** One entry for each sink *)

Section Entries.

Context `{json : JSON}.

Lemma sink_invoke (s : sink) (c : Logger.call) (w : World) :
  Logger.invoke (sink_Logger s) c w =
  exec (sink_write s (Logger.ctx_of c) (sink_entry s c w).1) (time_Now w).2.
Proof. destruct s as [l|l]; [apply CloudWatchLogger_invoke|apply DBLogger_invoke]. Qed.

(** What the write of the database sink leaves as it was. *)
Lemma logToDB_frame (l : DBLogger) ctx entry (w : World) :
  let w' := exec (logToDB l ctx entry) w in
  clock w' = clock w /\ now_calls w' = now_calls w /\ db_fault w' = db_fault w /\
  cw_fault w' = cw_fault w /\ cw_puts w' = cw_puts w.
Proof.
  intros w'. subst w'.
  destruct (db_fault w (length (db_execs w))) as [e|] eqn:Hfault.
  - rewrite (logToDB_create_fails _ _ _ _ e) by exact Hfault. repeat split.
  - destruct (marshal_metadata entry) as [metadataJSON|e] eqn:Hjson.
    + rewrite (logToDB_inserts _ _ _ _ metadataJSON) by assumption. repeat split.
    + rewrite (logToDB_marshal_fails _ _ _ _ e) by assumption. repeat split.
Qed.

(** What the write of the CloudWatch sink leaves as it was. *)
Lemma logToCloudWatch_frame (l : CloudWatchLogger) ctx entry (w : World) :
  let w' := exec (logToCloudWatch l ctx entry) w in
  clock w' = clock w /\ now_calls w' = now_calls w /\ db_fault w' = db_fault w /\
  db_execs w' = db_execs w /\ cw_fault w' = cw_fault w.
Proof.
  intros w'. subst w'.
  destruct (Marshal_entry entry) as [jsonData|e] eqn:Hjson.
  - rewrite (logToCloudWatch_puts _ _ _ _ jsonData) by assumption. repeat split.
  - rewrite (logToCloudWatch_marshal_fails _ _ _ _ e) by assumption. repeat split.
Qed.






End Entries.


(** ** Metadata that cannot be serialized *)



(** ** Failures and panics of the sinks *)

Section Panics.

Context `{json : JSON}.







End Panics.



(** ** The router *)

(** On a context that is not nil the router does not panic. *)
Lemma router_returns (c : context.node) (request : events.APIGatewayProxyRequest) :
  exists d, main.router (Some c) request = Go.Returns d.
Proof.
  unfold main.router. destruct (events.Headers request !! "x-request-id");
    cbn [context.WithValue]; destruct (main.route request); eexists; reflexivity.
Qed.

(** C7, as the code has it.  The router looks the request id up under the
    one key "x-request-id", as it is spelled; when a handler is called, the
    request id of its context is the value of that header if the request
    has it, and what the incoming context held otherwise; the user id is
    what the incoming context held, whatever the request says of its
    caller; and the request is passed on as it came. *)
Theorem router_injects_the_request_id_of_the_exact_header
    (ctx : context.Context) (request : events.APIGatewayProxyRequest)
    (h : main.handler) (ctx' : context.Context) (request' : events.APIGatewayProxyRequest) :
  main.router ctx request = Go.Returns (main.Handle h ctx' request') ->
  request' = request /\
  GetRequestIDFromContext ctx' =
    match events.Headers request !! "x-request-id" with
    | Some requestID => requestID
    | None => GetRequestIDFromContext ctx
    end /\
  GetUserIDFromContext ctx' = GetUserIDFromContext ctx.
Proof.
  unfold main.router.
  destruct (events.Headers request !! "x-request-id") as [requestID|].
  - destruct ctx as [c|]; cbn [context.WithValue]; [|discriminate].
    destruct (main.route request); [|discriminate].
    intros [= <- <- <-]. repeat split.
  - destruct (main.route request); [|discriminate].
    intros [= <- <- <-]. repeat split.
Qed.

(** [GET /users] with the header in lower case. *)
Lemma router_request_id_example :
  main.router (Some context.Background) (request_with "x-request-id") =
    Go.Returns
      (main.Handle main.ListUsers
         (Some (context.valueCtx context.Background (Go.VString "requestID")
                  (Go.VString "req-1")))
         (request_with "x-request-id")) /\
  GetRequestIDFromContext
    (Some (context.valueCtx context.Background (Go.VString "requestID")
             (Go.VString "req-1"))) = "req-1" /\
  GetUserIDFromContext
    (Some (context.valueCtx context.Background (Go.VString "requestID")
             (Go.VString "req-1"))) = 0%Z.
Proof.
  assert (main.router (Some context.Background) (request_with "x-request-id") =
          Go.Returns
            (main.Handle main.ListUsers
               (Some (context.valueCtx context.Background (Go.VString "requestID")
                        (Go.VString "req-1")))
               (request_with "x-request-id"))) as Hrouted.
  { vm_compute. reflexivity. }
  split; [exact Hrouted|].
  destruct (router_injects_the_request_id_of_the_exact_header _ _ _ _ _ Hrouted)
    as (_ & Hrequest & Huser).
  split; [|exact Huser].
  etransitivity; [exact Hrequest|]. vm_compute. reflexivity.
Defined.

(** C7, as stated, fails.  The same request with the header spelled
    "X-Request-Id" reaches the handler with a context that has no request
    id, where the lower-case spelling gives "req-1"; and the caller named by
    the authorizer of the request is not in the context either. *)
Lemma router_ignores_other_spellings_and_the_caller :
  main.router (Some context.Background) (request_with "X-Request-Id") =
    Go.Returns
      (main.Handle main.ListUsers (Some context.Background) (request_with "X-Request-Id")) /\
  GetRequestIDFromContext (Some context.Background) = "" /\
  main.router (Some context.Background) (request_with "x-request-id") =
    Go.Returns
      (main.Handle main.ListUsers
         (Some (context.valueCtx context.Background (Go.VString "requestID")
                  (Go.VString "req-1")))
         (request_with "x-request-id")) /\
  GetRequestIDFromContext
    (Some (context.valueCtx context.Background (Go.VString "requestID")
             (Go.VString "req-1"))) = "req-1" /\
  events.Authorizer (request_with "X-Request-Id") !! "userID" = Some (Go.VInt 7) /\
  GetUserIDFromContext (Some context.Background) = 0%Z.
Proof.
  split; [vm_compute; reflexivity|]. split; [reflexivity|].
  split; [vm_compute; reflexivity|]. split; [reflexivity|].
  split; [vm_compute; reflexivity|reflexivity].
Qed.

(** ** Further properties of the sinks and of the router *)

Section Audit.

Context `{json : JSON}.

(** The entry a sink builds from a call with a first map. *)
Lemma sink_entry_promoted (s : sink) (c : Logger.call)
    (m : gmap string Go.value) (rest : list Go.map) (w : World) :
  Logger.metadata_of c = Some m :: rest ->
  let entry := (sink_entry s c w).1 in
  In (Level entry) [DEBUG; INFO; WARN; ERROR; FATAL] /\
  Timestamp entry = clock w (now_calls w) /\
  ServiceName entry = sink_serviceName s /\
  RequestID entry = GetRequestIDFromContext (Logger.ctx_of c) /\
  UserID entry = GetUserIDFromContext (Logger.ctx_of c) /\
  Action entry = match m !! "action" with Some (Go.VString a) => a | _ => "" end /\
  Resource entry = match m !! "resource" with Some (Go.VString r) => r | _ => "" end.
Proof.
  intros Hmeta.
  destruct s as [l|l], c; cbn [Logger.metadata_of] in Hmeta; subst metadata;
    cbn [sink_entry DBLogger_entry CloudWatchLogger_entry sink_serviceName Logger.ctx_of];
    rewrite ?DBLogger_createLogEntry_fields, ?CloudWatchLogger_createLogEntry_fields;
    cbn; repeat split; auto 10.
Qed.

(** The logger of cmd/users/main.go calls the CloudWatch sink, then the
    database sink. *)
Lemma log_invoke (c : Logger.call) (w : World) :
  Logger.invoke log c w =
  Logger.invoke (sink_Logger (Database dbLogger)) c
    (Logger.invoke (sink_Logger (CloudWatch cloudWatchLogger)) c w).
Proof.
  unfold log. rewrite !CompositeLogger_invoke_cons, CompositeLogger_invoke. reflexivity.
Qed.

(** X1.  What a call leaves on the logger of cmd/users/main.go, whatever
    fails.  For a call whose first metadata map has the strings [action]
    and [resource] under "action" and "resource": every INSERT it sends
    goes to api_logs and carries the service name, the request id and the
    user id of the context of the call, [action] and [resource], and the
    second of the two readings of the clock; every datum it sends to
    CloudWatch is in the namespace SiteGeav/API, is named by a level, "_"
    and [resource], carries the first reading of the clock, the value 1 and
    the unit Count, and has the dimensions ServiceName, then Resource and
    Action when these are not empty. *)
Theorem wired_logger_records_the_call
    (c : Logger.call) (m : gmap string Go.value) (rest : list Go.map)
    (action resource : string) (w : World) :
  Logger.metadata_of c = Some m :: rest ->
  m !! "action" = Some (Go.VString action) ->
  m !! "resource" = Some (Go.VString resource) ->
  let after := Logger.invoke log c w in
  (forall table args,
     In (InsertInto table args) (drop (length (db_execs w)) (db_execs after)) ->
     table = "api_logs" /\
     col_timestamp args = ArgTime (clock w (S (now_calls w))) /\
     col_service_name args = ArgString "site-geav-api" /\
     col_request_id args = ArgString (GetRequestIDFromContext (Logger.ctx_of c)) /\
     col_user_id args = ArgInt (GetUserIDFromContext (Logger.ctx_of c)) /\
     col_action args = ArgString action /\
     col_resource args = ArgString resource) /\
  (forall input,
     In input (drop (length (cw_puts w)) (cw_puts after)) ->
     exists level,
       In level [DEBUG; INFO; WARN; ERROR; FATAL] /\
       input =
         cloudwatch.mkInput "SiteGeav/API"
           [MetricDatum.mk (level +:+ "_" +:+ resource)
              ([Dimension.mk "ServiceName" "site-geav-api"] ++
               (if decide (resource = "") then [] else [Dimension.mk "Resource" resource]) ++
               (if decide (action = "") then [] else [Dimension.mk "Action" action]))
              (clock w (now_calls w)) 1%Z "Count"]).
Proof.
  intros Hmeta Haction Hresource after. subst after.
  rewrite log_invoke.
  set (w1 := Logger.invoke (sink_Logger (CloudWatch cloudWatchLogger)) c w).
  assert (db_execs w1 = db_execs w /\ clock w1 = clock w /\
          now_calls w1 = S (now_calls w)) as (Hexecs & Hclock & Hcalls).
  { subst w1. rewrite sink_invoke. cbn [sink_write].
    destruct (logToCloudWatch_frame cloudWatchLogger (Logger.ctx_of c)
                (sink_entry (CloudWatch cloudWatchLogger) c w).1 (time_Now w).2)
      as (-> & -> & _ & -> & _).
    repeat split. }
  split.
  - intros table args Hin. rewrite <- Hexecs in Hin.
    destruct (sink_entry_promoted (Database dbLogger) c m rest w1 Hmeta)
      as (_ & Htime & Hservice & Hrequest & Huser & Hact & Hres).
    rewrite Haction in Hact. rewrite Hresource in Hres. cbn [sink_entry] in *.
    destruct (DBLogger_invoke_execs dbLogger c w1) as [Hsent|(js & _ & _ & Hsent)];
      cbn zeta in Hsent; cbn [sink_Logger] in Hin; rewrite Hsent in Hin.
    + destruct Hin as [Hin|[]]. discriminate Hin.
    + destruct Hin as [Hin|[Hin|[]]]; [discriminate Hin|].
      injection Hin as <- <-. cbn [insertArgs col_timestamp col_service_name col_request_id
        col_user_id col_action col_resource].
      rewrite Htime, Hservice, Hrequest, Huser, Hact, Hres, Hclock, Hcalls.
      repeat split.
  - intros input Hin.
    assert (cw_puts (Logger.invoke (sink_Logger (Database dbLogger)) c w1) = cw_puts w1)
      as Hputs.
    { rewrite sink_invoke. cbn [sink_write].
      destruct (logToDB_frame dbLogger (Logger.ctx_of c)
                  (sink_entry (Database dbLogger) c w1).1 (time_Now w1).2)
        as (_ & _ & _ & _ & ->).
      reflexivity. }
    rewrite Hputs in Hin. subst w1. rewrite sink_invoke in Hin. cbn [sink_write] in Hin.
    destruct (sink_entry_promoted (CloudWatch cloudWatchLogger) c m rest w Hmeta)
      as (Hlevel & Htime & _ & _ & _ & Hact & Hres).
    rewrite Haction in Hact. rewrite Hresource in Hres.
    set (entry := (sink_entry (CloudWatch cloudWatchLogger) c w).1) in *.
    destruct (Marshal_entry entry) as [jsonData|e] eqn:Hjson.
    + rewrite (logToCloudWatch_puts _ _ _ _ jsonData) in Hin by exact Hjson.
      cbn [cw_puts time_Now snd] in Hin. rewrite drop_app_length in Hin.
      destruct Hin as [<-|[]]. exists (Level entry). split; [exact Hlevel|].
      rewrite metricName_format, Htime, Hres. unfold dimensions. rewrite Hact, Hres.
      cbn [namespace cloudWatchLogger NewCloudWatchLogger cw_serviceName].
      destruct (decide (resource = "")), (decide (action = ""));
        repeat case_decide; try contradiction; reflexivity.
    + rewrite (logToCloudWatch_marshal_fails _ _ _ _ e) in Hin by exact Hjson.
      cbn [cw_puts time_Now snd] in Hin. rewrite drop_all in Hin. destruct Hin.
Qed.

End Audit.

(** The scenario of the specification: [boom] on that logger, with nothing
    failing and a clock that advances. *)
Lemma wired_logger_example :
  let after := Logger.invoke (log (json := json_demo)) boom (start ticking never never) in
  (Logger.metadata_of boom = [Some boom_metadata] /\
   boom_metadata !! "action" = Some (Go.VString "CreateUser") /\
   boom_metadata !! "resource" = Some (Go.VString "users")) /\
  (exists args,
     In (InsertInto "api_logs" args) (db_execs after) /\
     col_timestamp args = ArgTime 1%Z /\
     col_action args = ArgString "CreateUser" /\
     col_resource args = ArgString "users") /\
  cw_puts after =
    [cloudwatch.mkInput "SiteGeav/API"
       [MetricDatum.mk "ERROR_users"
          [Dimension.mk "ServiceName" "site-geav-api";
           Dimension.mk "Resource" "users";
           Dimension.mk "Action" "CreateUser"]
          0%Z 1%Z "Count"]].
Proof.
  cbv zeta. split; [repeat split|].
  destruct (wired_logger_records_the_call (json := json_demo) boom boom_metadata []
              "CreateUser" "users" (start ticking never never) eq_refl eq_refl eq_refl)
    as [Hrows _].
  split; [|vm_compute; reflexivity].
  assert (exists args,
            In (InsertInto "api_logs" args)
               (db_execs (Logger.invoke (log (json := json_demo)) boom
                            (start ticking never never)))) as [args Hin].
  { eexists. vm_compute. right. left. reflexivity. }
  exists args. split; [exact Hin|].
  destruct (Hrows "api_logs" args Hin) as (_ & Htime & _ & _ & _ & Haction & Hresource).
  split; [exact Htime|]. split; [exact Haction|exact Hresource].
Defined.


(** X3.  On a context that is not nil the router answers 404 itself when,
    and only when, no pair of method and resource of its table matches;
    the response has the JSON content type. *)
Theorem router_not_found
    (c : context.node) (request : events.APIGatewayProxyRequest)
    (response : events.APIGatewayProxyResponse) :
  main.router (Some c) request = Go.Returns (main.Respond response) <->
  main.route request = None /\ response = main.notFound.
Proof.
  unfold main.router.
  destruct (events.Headers request !! "x-request-id"); cbn [context.WithValue];
    destruct (main.route request) as [h|]; split.
  all: try (intros [= <-]; split; reflexivity).
  all: try (intros [Hnone _]; discriminate Hnone).
  all: try (intros Hhandled; discriminate Hhandled).
  all: intros [_ ->]; reflexivity.
Qed.


(** ** The configuration of the database *)

Lemma string_app_assoc (s1 s2 s3 : string) : (s1 +:+ s2) +:+ s3 = s1 +:+ (s2 +:+ s3).
Proof.
  induction s1 as [|c s1 IH]; [reflexivity|].
  change (String c ((s1 +:+ s2) +:+ s3) = String c (s1 +:+ (s2 +:+ s3))).
  rewrite IH. reflexivity.
Qed.

Lemma string_app_nil_r (s : string) : s +:+ "" = s.
Proof.
  induction s as [|c s IH]; [reflexivity|].
  change (String c (s +:+ "") = String c s). rewrite IH. reflexivity.
Qed.

(** [getEnv] does not tell a variable set to the empty string from one that
    is not set. *)
Lemma getEnv_empty_is_unset (env : gmap string string) (key k d : string) :
  repository.getEnv (<[key := ""]> env) k d = repository.getEnv (delete key env) k d.
Proof.
  unfold repository.getEnv, repository.os_Getenv.
  destruct (decide (key = k)) as [->|Hne].
  - rewrite lookup_insert_eq, lookup_delete_eq. reflexivity.
  - rewrite lookup_insert_ne, lookup_delete_ne by exact Hne. reflexivity.
Qed.

Lemma getEnv_not_empty (env : gmap string string) (k d : string) :
  d <> "" -> repository.getEnv env k d <> "".
Proof.
  intros Hd. unfold repository.getEnv. case_decide as Hvalue; [exact Hd|exact Hvalue].
Qed.

(** X5.  Whatever the environment, no field of the configuration read from
    it is empty.  Each field is read from its own variable alone: it is the
    value of that variable when the variable is set to a value that is not
    empty, and its default ("localhost", "5432", "postgres", "pgadmin",
    "geav", "disable") otherwise, whatever the other variables are.
    Setting any variable to the empty string gives the configuration of the
    environment without that variable, so that an empty value (an empty
    password, say) cannot be configured. *)
Theorem configuration_from_environment_has_no_empty_field (env : gmap string string) :
  let c := repository.NewDBConfigFromEnv env in
  let field (key defaultValue : string) :=
    match env !! key with
    | Some value => if decide (value = "") then defaultValue else value
    | None => defaultValue
    end in
  (repository.Host c <> "" /\ repository.Port c <> "" /\ repository.User c <> "" /\
   repository.Password c <> "" /\ repository.DBName c <> "" /\ repository.SSLMode c <> "") /\
  (repository.Host c = field "DB_HOST" "localhost" /\
   repository.Port c = field "DB_PORT" "5432" /\
   repository.User c = field "DB_USER" "postgres" /\
   repository.Password c = field "DB_PASSWORD" "pgadmin" /\
   repository.DBName c = field "DB_NAME" "geav" /\
   repository.SSLMode c = field "DB_SSL_MODE" "disable") /\
  (forall value,
     value <> "" ->
     (env !! "DB_HOST" = Some value -> repository.Host c = value) /\
     (env !! "DB_PORT" = Some value -> repository.Port c = value) /\
     (env !! "DB_USER" = Some value -> repository.User c = value) /\
     (env !! "DB_PASSWORD" = Some value -> repository.Password c = value) /\
     (env !! "DB_NAME" = Some value -> repository.DBName c = value) /\
     (env !! "DB_SSL_MODE" = Some value -> repository.SSLMode c = value)) /\
  (forall key,
     repository.NewDBConfigFromEnv (<[key := ""]> env) =
     repository.NewDBConfigFromEnv (delete key env)).
Proof.
  cbv zeta.
  assert (forall key defaultValue,
            repository.getEnv env key defaultValue =
            match env !! key with
            | Some value => if decide (value = "") then defaultValue else value
            | None => defaultValue
            end) as Hfield.
  { intros key defaultValue. unfold repository.getEnv, repository.os_Getenv.
    destruct (env !! key) as [value|]; reflexivity. }
  split; [|split; [|split]].
  - unfold repository.NewDBConfigFromEnv. cbn.
    repeat split; apply getEnv_not_empty; discriminate.
  - unfold repository.NewDBConfigFromEnv. cbn. rewrite <- !Hfield. repeat split.
  - intros value Hvalue. unfold repository.NewDBConfigFromEnv. cbn. rewrite !Hfield.
    repeat split; intros ->; case_decide; [contradiction|reflexivity
      |contradiction|reflexivity|contradiction|reflexivity|contradiction|reflexivity
      |contradiction|reflexivity|contradiction|reflexivity].
  - intros key. unfold repository.NewDBConfigFromEnv.
    rewrite !getEnv_empty_is_unset. reflexivity.
Qed.

(** An environment that sets the host alone, and one that sets the password
    to the empty string. *)
Lemma configuration_from_environment_examples :
  repository.NewDBConfigFromEnv {[ "DB_HOST" := "db.internal" ]} =
    repository.mkDBConfig "db.internal" "5432" "postgres" "pgadmin" "geav" "disable" /\
  repository.Password (repository.NewDBConfigFromEnv {[ "DB_PASSWORD" := "" ]}) = "pgadmin".
Proof.
  destruct (configuration_from_environment_has_no_empty_field {[ "DB_HOST" := "db.internal" ]})
    as (_ & (Hhost & Hport & Huser & Hpassword & Hname & Hmode) & _).
  destruct (configuration_from_environment_has_no_empty_field {[ "DB_PASSWORD" := "" ]})
    as (_ & (_ & _ & _ & Hempty & _) & _).
  split.
  - destruct (repository.NewDBConfigFromEnv {[ "DB_HOST" := "db.internal" ]}).
    cbn in Hhost, Hport, Huser, Hpassword, Hname, Hmode. subst. reflexivity.
  - rewrite Hempty. reflexivity.
Defined.

(** X6.  The values of a configuration go into the connection string as
    they are: a value with a space in it is read back as several settings.
    A password [p dbname=x] beside the database [y] gives the connection
    string of the password [p] beside the database [x dbname=y]. *)
Theorem connection_string_does_not_quote (h p u pw x y s : string) :
  let c1 := repository.mkDBConfig h p u (pw +:+ " dbname=" +:+ x) y s in
  let c2 := repository.mkDBConfig h p u pw (x +:+ " dbname=" +:+ y) s in
  c1 <> c2 /\ repository.ConnectionString c1 = repository.ConnectionString c2.
Proof.
  cbv zeta. split.
  - intros [= Hpw _].
    rewrite <- (string_app_nil_r pw) in Hpw at 2.
    apply (inj (String.app pw)) in Hpw. discriminate Hpw.
  - unfold repository.ConnectionString. cbn [repository.Host repository.Port repository.User
      repository.Password repository.DBName repository.SSLMode].
    do 3 (f_equal; try reflexivity).
    rewrite !string_app_assoc. reflexivity.
Qed.

(** X7.  [InitDB] hands out a handle only when the connection was opened
    and answered the ping; otherwise the handle is nil, the error says
    which of the two steps failed and carries the text of its cause, and
    one line with that error is written to the log.  Nothing is written
    when the connection is there. *)
Theorem InitDB_hands_out_a_handle_only_after_the_ping {DB : Type}
    (sql_Open : string -> string -> DB + Go.error_value) (Ping : DB -> Go.error)
    (env : gmap string string) (lines : list string) :
  let dsn := repository.ConnectionString (repository.NewDBConfigFromEnv env) in
  let result := repository.InitDB sql_Open Ping env lines in
  match sql_Open "postgres" dsn with
  | inr cause =>
      result =
        ((None,
          Some (Go.errorString ("error opening database connection: " +:+ Go.Error cause))),
         lines ++ ["Failed to connect to database: error opening database connection: "
                   +:+ Go.Error cause])
  | inl db =>
      match Ping db with
      | Some cause =>
          result =
            ((None,
              Some (Go.errorString ("error connecting to the database: " +:+ Go.Error cause))),
             lines ++ ["Failed to connect to database: error connecting to the database: "
                       +:+ Go.Error cause])
      | None => result = ((Some db, None), lines)
      end
  end.
Proof.
  cbv zeta. unfold repository.InitDB, repository.NewDB.
  destruct (sql_Open "postgres" _) as [db|cause]; [destruct (Ping db) as [cause|]|];
    reflexivity.
Qed.

(** ** The users *)

Lemma IsValidRole_spec (role : string) :
  models.IsValidRole role = true <-> role = models.RoleRead \/ role = models.RoleWrite.
Proof.
  unfold models.IsValidRole. rewrite orb_true_iff, !String.eqb_eq. reflexivity.
Qed.

(** X8.  The roles of [models]: the valid roles are "read" and "write" as
    they are spelled; a user with write access has a valid role; and
    [NewUser] builds, with one reading of the clock, a user with no
    identifier yet, created and updated at that instant, whose role it does
    not check: the user is valid exactly when the role given is. *)
Theorem models_roles (username password : string) (role : models.UserRole) (w : World)
    (u : models.User) :
  let built := (models.NewUser username password role w).1 in
  (models.IsValidRole (models.Role u) = true <->
     models.Role u = "read" \/ models.Role u = "write") /\
  (models.HasWriteAccess u = true -> models.IsValidRole (models.Role u) = true) /\
  models.ID built = 0%Z /\
  models.CreatedAt built = clock w (now_calls w) /\
  models.UpdatedAt built = models.CreatedAt built /\
  now_calls (models.NewUser username password role w).2 = S (now_calls w) /\
  (models.IsValidRole (models.Role built) = true <-> role = "read" \/ role = "write") /\
  (models.HasWriteAccess built = true <-> role = "write").
Proof.
  cbv zeta. split; [apply IsValidRole_spec|]. split.
  - unfold models.HasWriteAccess. intros Hwrite%String.eqb_eq.
    apply IsValidRole_spec. right. exact Hwrite.
  - cbn. repeat split; try apply IsValidRole_spec; try (apply String.eqb_eq);
      intros H; try (apply IsValidRole_spec in H); try (apply String.eqb_eq in H); exact H.
Qed.

(** A mixed-case role is no role. *)
Lemma models_roles_examples :
  models.IsValidRole "write" = true /\ models.IsValidRole "Write" = false /\
  models.IsValidRole "" = false /\
  models.HasWriteAccess (models.NewUser "ana" "pw" "read" (start ticking never never)).1 = false.
Proof.
  destruct (models_roles "ana" "pw" "read" (start ticking never never)
              (models.mkUser 1%Z "ana" "pw" "write" 0%Z 0%Z)) as (Hvalid & _).
  split; [apply Hvalid; right; reflexivity|]. repeat split.
Defined.

(** ** Responses *)

Section Responses.

Context `{wire : handlers.Wire}.

(** The response of [createJSONResponse] when the body is serialized. *)
Lemma createJSONResponse_ok (fuel : nat) (statusCode : Z) (b : handlers.body) (text : string) :
  handlers.Marshal b = inl text ->
  handlers.createJSONResponse (S fuel) statusCode b =
    Some (events.mkResponse statusCode {[ "Content-Type" := "application/json" ]} text, None).
Proof. intros Hb. cbn [handlers.createJSONResponse]. rewrite Hb. reflexivity. Qed.

(** X9.  [createJSONResponse] and [createErrorResponse] call each other,
    and the calls end because a map of strings is always serialized.
    Granted that, two nested calls are enough for any body: the result is a
    response and a nil error; the response has the JSON content type and
    either the status asked for and the serialized body, or, when the body
    cannot be serialized, the status 500 and the message "Error creating
    response".  Were that message itself refused by [json.Marshal], the
    calls would not end for any body that is refused. *)
Theorem createJSONResponse_ends (fuel : nat) (statusCode : Z) (b : handlers.body) :
  ((forall m, exists text, handlers.Marshal (handlers.BodyStrings m) = inl text) ->
   exists response,
     handlers.createJSONResponse (S (S fuel)) statusCode b = Some (response, None) /\
     events.ResponseHeaders response = {[ "Content-Type" := "application/json" ]} /\
     match handlers.Marshal b with
     | inl text => events.StatusCode response = statusCode /\ events.Body response = text
     | inr _ =>
         events.StatusCode response = 500%Z /\
         handlers.Marshal (handlers.BodyStrings {[ "error" := "Error creating response" ]}) =
           inl (events.Body response)
     end) /\
  ((exists e, handlers.Marshal (handlers.BodyStrings {[ "error" := "Error creating response" ]})
              = inr e) ->
   (exists e, handlers.Marshal b = inr e) ->
   forall n, handlers.createJSONResponse n statusCode b = None).
Proof.
  split.
  - intros Hstrings.
    destruct (handlers.Marshal b) as [text|e] eqn:Hb.
    + eexists. split; [apply createJSONResponse_ok; exact Hb|]. split; [reflexivity|].
      split; reflexivity.
    + destruct (Hstrings {[ "error" := "Error creating response" ]}) as [text Htext].
      eexists. split.
      * cbn [handlers.createJSONResponse]. rewrite Hb, Htext. reflexivity.
      * split; [reflexivity|]. rewrite Htext. split; reflexivity.
  - intros [e He] [e' Hb] n.
    assert (forall k, handlers.createJSONResponse k 500
              (handlers.BodyStrings {[ "error" := "Error creating response" ]}) = None) as Hloop.
    { induction k as [|k IH]; [reflexivity|].
      cbn [handlers.createJSONResponse]. rewrite He. exact IH. }
    destruct n as [|n]; [reflexivity|].
    cbn [handlers.createJSONResponse]. rewrite Hb. apply Hloop.
Qed.

End Responses.

(** ** The handlers of the users *)

Section UserHandlers.

Context `{wire : handlers.Wire} {Σ : Type}.
Variable now : ST Σ Time.

(** The keys every log call of a user handler carries. *)
Lemma users_meta_keys (action : string) :
  handlers.users_meta action !! "action" = Some (Go.VString action) /\
  handlers.users_meta action !! "resource" = Some (Go.VString "users").
Proof. split; reflexivity. Qed.

Lemma user_meta_keys (action : string) (userID : Z) :
  handlers.user_meta action userID !! "action" = Some (Go.VString action) /\
  handlers.user_meta action userID !! "resource" = Some (Go.VString "users") /\
  handlers.user_meta action userID !! "resource_id" =
    Some (Go.VString (Sprintf_d userID)).
Proof. repeat split; reflexivity. Qed.

Lemma users_meta_count_keys (action : string) (n : Z) :
  <["count" := Go.VInt n]> (handlers.users_meta action) !! "action" =
    Some (Go.VString action) /\
  <["count" := Go.VInt n]> (handlers.users_meta action) !! "resource" =
    Some (Go.VString "users").
Proof. split; reflexivity. Qed.

(** What a user decoded from a document fails the validation on. *)
Lemma decoded_is_invalid (document : models.UserJSON) :
  handlers.invalid (models.decoded document) = true.
Proof.
  unfold handlers.invalid. cbn [models.decoded models.Password].
  rewrite String.eqb_refl, orb_true_r. reflexivity.
Qed.

Ltac log_call_found :=
  lazymatch goal with
  | |- context [Logger.Debug _ ?ctx ?message ?metadata] =>
      exists (Logger.CallDebug ctx message metadata)
  | |- context [Logger.Info _ ?ctx ?message ?metadata] =>
      exists (Logger.CallInfo ctx message metadata)
  | |- context [Logger.Warn _ ?ctx ?message ?metadata] =>
      exists (Logger.CallWarn ctx message metadata)
  | |- context [Logger.Error _ ?ctx ?message ?err ?metadata] =>
      exists (Logger.CallError ctx message err metadata)
  | |- context [Logger.Fatal _ ?ctx ?message ?err ?metadata] =>
      exists (Logger.CallFatal ctx message err metadata)
  end;
  eexists;
  split; [reflexivity|]; split; [reflexivity|];
  split; [first [apply users_meta_keys | apply user_meta_keys | apply users_meta_count_keys]|];
  split; [first [apply users_meta_keys | apply user_meta_keys | apply users_meta_count_keys]|];
  intros lg; reflexivity.

(** X10.  Each call of a handler of the users makes one call of the logger
    and no other: whatever the repository, the clock and the request, there
    is one call [c] of a method of [Logger] such that, for every logger,
    the handler gives the response it gives with a logger that does
    nothing, and leaves the state that logger leaves with [c] applied last.
    The call has the context of the handler and one metadata map, whose
    "action" is the name of the handler and whose "resource" is "users". *)
Theorem user_handlers_log_once
    (userRepo : repository.UserRepository Σ) (which : main.handler) (name : string)
    (method : nat -> handlers.UserHandler -> context.Context -> lambda.Request ->
              ST Σ (option (events.APIGatewayProxyResponse * Go.error)))
    (fuel : nat) (ctx : context.Context) (request : lambda.Request) (σ : Σ) :
  server.userMethod now which = Some (name, method) ->
  exists (c : Logger.call) (m : gmap string Go.value),
    Logger.ctx_of c = ctx /\
    Logger.metadata_of c = [Some m] /\
    m !! "action" = Some (Go.VString name) /\
    m !! "resource" = Some (Go.VString "users") /\
    forall lg : Logger.t Σ,
      method fuel (handlers.mkUserHandler userRepo lg) ctx request σ =
      ((method fuel (handlers.mkUserHandler userRepo silent) ctx request σ).1,
       Logger.invoke lg c
         (method fuel (handlers.mkUserHandler userRepo silent) ctx request σ).2).
Proof.
  intros Hmethod.
  destruct which; try discriminate Hmethod; injection Hmethod as <- <-.
  - (* ListUsers *)
    unfold handlers.ListUsers, bind_ST, effect, unit_ST. cbn [handlers.userRepo handlers.log].
    destruct (repository.List userRepo ctx σ) as [[users [err|]] σ1]; log_call_found.
  - (* GetUser *)
    unfold handlers.GetUser, bind_ST, effect, unit_ST. cbn [handlers.userRepo handlers.log].
    destruct (strconv.Atoi (lambda.PathParameter request "id")) as [userID|e];
      [|log_call_found].
    destruct (repository.GetByID userRepo ctx userID σ) as [[[user|] [err|]] σ1];
      log_call_found.
  - (* CreateUser *)
    unfold handlers.CreateUser, bind_ST, effect, unit_ST. cbn [handlers.userRepo handlers.log].
    destruct (handlers.Unmarshal_User (lambda.Body request)) as [document|e];
      [|log_call_found].
    rewrite decoded_is_invalid. log_call_found.
  - (* UpdateUser *)
    unfold handlers.UpdateUser, bind_ST, effect, unit_ST. cbn [handlers.userRepo handlers.log].
    destruct (strconv.Atoi (lambda.PathParameter request "id")) as [userID|e];
      [|log_call_found].
    destruct (repository.GetByID userRepo ctx userID σ) as [[[user|] [err|]] σ1];
      try log_call_found.
    destruct (handlers.Unmarshal_User (lambda.Body request)) as [document|e];
      [|log_call_found].
    rewrite decoded_is_invalid. log_call_found.
  - (* DeleteUser *)
    unfold handlers.DeleteUser, bind_ST, effect, unit_ST. cbn [handlers.userRepo handlers.log].
    destruct (strconv.Atoi (lambda.PathParameter request "id")) as [userID|e];
      [|log_call_found].
    destruct (repository.Delete userRepo ctx userID σ) as [[err|] σ1]; log_call_found.
Qed.

End UserHandlers.

Section UserResponses.

Context `{wire : handlers.Wire} {Σ : Type}.
Variable now : ST Σ Time.

(** A map of strings is always serialized. *)
Hypothesis strings_are_serialized :
  forall m, exists text, handlers.Marshal (handlers.BodyStrings m) = inl text.

Lemma createErrorResponse_returns (fuel : nat) (statusCode : Z) (message : string) :
  exists response,
    handlers.createErrorResponse (S fuel) statusCode message = Some (response, None) /\
    events.ResponseHeaders response = {[ "Content-Type" := "application/json" ]} /\
    events.StatusCode response = statusCode.
Proof.
  destruct (strings_are_serialized {[ "error" := message ]}) as [text Htext].
  eexists. split; [apply createJSONResponse_ok; exact Htext|]. split; reflexivity.
Qed.

Lemma createJSONResponse_returns (fuel : nat) (statusCode : Z) (b : handlers.body) :
  exists response,
    handlers.createJSONResponse (S (S fuel)) statusCode b = Some (response, None) /\
    events.ResponseHeaders response = {[ "Content-Type" := "application/json" ]} /\
    (events.StatusCode response = statusCode \/ events.StatusCode response = 500%Z).
Proof.
  destruct (createJSONResponse_ends fuel statusCode b) as [Hends _].
  destruct (Hends strings_are_serialized) as (response & Hresponse & Hheaders & Hstatus).
  exists response. split; [exact Hresponse|]. split; [exact Hheaders|].
  destruct (handlers.Marshal b); [left|right]; apply Hstatus.
Qed.

(** X11.  A handler of the users never hands an error to the Lambda
    runtime: whatever fails, it returns a response and a nil error.  The
    response has the JSON content type, and its status is one of those of
    the method: 200, 400, 404 or 500 for [GetUser], 200 or 500 for
    [ListUsers], 400, 404 or 500 for [UpdateUser], 204, 400 or 500 for
    [DeleteUser], and 400 alone for [CreateUser], which no request makes
    answer 201.  [UpdateUser] never answers 200. *)
Theorem user_handlers_answer_with_a_status
    (h : handlers.UserHandler) (which : main.handler) (name : string)
    (method : nat -> handlers.UserHandler -> context.Context -> lambda.Request ->
              ST Σ (option (events.APIGatewayProxyResponse * Go.error)))
    (fuel : nat) (ctx : context.Context) (request : lambda.Request) (σ : Σ) :
  server.userMethod now which = Some (name, method) ->
  exists response,
    (method (S (S fuel)) h ctx request σ).1 = Some (response, None) /\
    events.ResponseHeaders response = {[ "Content-Type" := "application/json" ]} /\
    In (events.StatusCode response) (server.statuses which).
Proof.
  intros Hmethod.
  assert (forall statusCode message (allowed : list Z) (σ' : Σ),
            In statusCode allowed ->
            exists response,
              (handlers.createErrorResponse (S (S fuel)) statusCode message, σ').1 =
                Some (response, None) /\
              events.ResponseHeaders response = {[ "Content-Type" := "application/json" ]} /\
              In (events.StatusCode response) allowed) as Herror.
  { intros statusCode message allowed σ' Hin.
    destruct (createErrorResponse_returns (S fuel) statusCode message)
      as (response & Hresponse & Hheaders & Hstatus).
    exists response. split; [exact Hresponse|]. split; [exact Hheaders|].
    rewrite Hstatus. exact Hin. }
  assert (forall statusCode b (allowed : list Z) (σ' : Σ),
            In statusCode allowed -> In 500%Z allowed ->
            exists response,
              (handlers.createJSONResponse (S (S fuel)) statusCode b, σ').1 =
                Some (response, None) /\
              events.ResponseHeaders response = {[ "Content-Type" := "application/json" ]} /\
              In (events.StatusCode response) allowed) as Hjson.
  { intros statusCode b allowed σ' Hin Hin500.
    destruct (createJSONResponse_returns fuel statusCode b)
      as (response & Hresponse & Hheaders & [Hstatus|Hstatus]);
      exists response; (split; [exact Hresponse|]); (split; [exact Hheaders|]);
      rewrite Hstatus; assumption. }
  destruct which; try discriminate Hmethod; injection Hmethod as <- <-.
  - unfold handlers.ListUsers, bind_ST, effect, unit_ST.
    destruct (repository.List (handlers.userRepo h) ctx σ) as [[users [err|]] σ1].
    + apply Herror. cbn. auto.
    + apply Hjson; cbn; auto.
  - unfold handlers.GetUser, bind_ST, effect, unit_ST.
    destruct (strconv.Atoi (lambda.PathParameter request "id")) as [userID|e];
      [|apply Herror; cbn; auto].
    destruct (repository.GetByID (handlers.userRepo h) ctx userID σ)
      as [[[user|] [err|]] σ1];
      first [apply Herror; cbn; auto | apply Hjson; cbn; auto].
  - unfold handlers.CreateUser, bind_ST, effect, unit_ST.
    destruct (handlers.Unmarshal_User (lambda.Body request)) as [document|e];
      [|apply Herror; cbn; auto].
    rewrite decoded_is_invalid. apply Herror. cbn. auto.
  - unfold handlers.UpdateUser, bind_ST, effect, unit_ST.
    destruct (strconv.Atoi (lambda.PathParameter request "id")) as [userID|e];
      [|apply Herror; cbn; auto].
    destruct (repository.GetByID (handlers.userRepo h) ctx userID σ)
      as [[[user|] [err|]] σ1];
      try (apply Herror; cbn; auto).
    destruct (handlers.Unmarshal_User (lambda.Body request)) as [document|e];
      [|apply Herror; cbn; auto].
    rewrite decoded_is_invalid. apply Herror. cbn. auto.
  - unfold handlers.DeleteUser, bind_ST, effect, unit_ST.
    destruct (strconv.Atoi (lambda.PathParameter request "id")) as [userID|e];
      [|apply Herror; cbn; auto].
    destruct (repository.Delete (handlers.userRepo h) ctx userID σ) as [[err|] σ1].
    + apply Herror. cbn. auto.
    + eexists. split; [reflexivity|]. split; [reflexivity|]. cbn. auto.
Qed.

End UserResponses.

(** [GET /users/{id}] for the user 7 of a repository that has it, and
    [POST /users] with a body. *)
Lemma user_handlers_examples :
  let stored := [ana] in
  let h := handlers.mkUserHandler memory_repository silent in
  (server.userMethod (wire := wire_demo) still main.GetUser =
     Some ("GetUser", fun fuel => handlers.GetUser (wire := wire_demo) fuel) /\
   forall m, exists text,
     handlers.Marshal (Wire := wire_demo) (handlers.BodyStrings m) = inl text) /\
  (exists response,
     (handlers.GetUser (wire := wire_demo) 2 h (Some context.Background)
        (user_request "GET" "/users/{id}") stored).1 = Some (response, None) /\
     In (events.StatusCode response) [200; 400; 404; 500]%Z) /\
  (exists response,
     (handlers.CreateUser (wire := wire_demo) still 2 h (Some context.Background)
        (user_request "POST" "/users") stored).1 = Some (response, None) /\
     events.StatusCode response = 400%Z).
Proof.
  cbv zeta.
  assert (forall m, exists text,
            handlers.Marshal (Wire := wire_demo) (handlers.BodyStrings m) = inl text)
    as Hstrings by (intros m; eexists; reflexivity).
  split; [split; [reflexivity|exact Hstrings]|]. split.
  - destruct (user_handlers_answer_with_a_status (wire := wire_demo) still
                Hstrings (handlers.mkUserHandler memory_repository silent)
                main.GetUser "GetUser" _ 0 (Some context.Background)
                (user_request "GET" "/users/{id}")
                [ana] eq_refl)
      as (response & Hresponse & _ & Hstatus).
    exists response. split; [exact Hresponse|exact Hstatus].
  - destruct (user_handlers_answer_with_a_status (wire := wire_demo) still
                Hstrings (handlers.mkUserHandler memory_repository silent)
                main.CreateUser "CreateUser" _ 0 (Some context.Background)
                (user_request "POST" "/users")
                [ana] eq_refl)
      as (response & Hresponse & _ & Hstatus).
    exists response. split; [exact Hresponse|].
    destruct Hstatus as [Hstatus|[]]. symmetry. exact Hstatus.
Defined.

(** The two ways the calls of [createJSONResponse] go: an encoder that
    accepts everything answers at once with the status asked for; one that
    refuses everything never answers. *)
Lemma createJSONResponse_examples :
  handlers.createJSONResponse (wire := wire_demo) 2 200 (handlers.BodyUser ana) =
    Some (events.mkResponse 200 {[ "Content-Type" := "application/json" ]} "{...}", None) /\
  handlers.createJSONResponse (wire := wire_refusing) 1000 200 (handlers.BodyUser ana) = None.
Proof.
  destruct (createJSONResponse_ends (wire := wire_demo) 0 200 (handlers.BodyUser ana))
    as [Hends _].
  destruct (createJSONResponse_ends (wire := wire_refusing) 0 200 (handlers.BodyUser ana))
    as [_ Hloops].
  split.
  - destruct Hends as (response & Hresponse & _); [intros m; eexists; reflexivity|].
    rewrite Hresponse. cbn in Hresponse. injection Hresponse as <-. reflexivity.
  - apply Hloops; eexists; reflexivity.
Defined.

(** The one log call of [DELETE /users/{id}] on a repository in memory:
    observed by a logger that keeps the calls it receives, it is the [Info]
    of the deletion. *)
Lemma user_handlers_log_once_example :
  server.userMethod (wire := wire_demo) still main.DeleteUser =
    Some ("DeleteUser", fun fuel => handlers.DeleteUser (wire := wire_demo) fuel) /\
  exists c m,
    Logger.metadata_of c = [Some m] /\
    m !! "action" = Some (Go.VString "DeleteUser") /\
    handlers.DeleteUser (wire := wire_demo) 2
      (handlers.mkUserHandler memory_repository silent)
      (Some context.Background) (user_request "DELETE" "/users/{id}") [ana] =
    (handlers.noContent, Logger.invoke silent c []).
Proof.
  split; [reflexivity|].
  destruct (user_handlers_log_once (wire := wire_demo) still memory_repository
              main.DeleteUser "DeleteUser" _ 2 (Some context.Background)
              (user_request "DELETE" "/users/{id}") [ana] eq_refl)
    as (c & m & _ & Hmeta & Haction & _ & Hrun).
  exists c, m. split; [exact Hmeta|]. split; [exact Haction|].
  rewrite (Hrun silent). vm_compute. destruct c; reflexivity.
Defined.

Section UserWrites.

Context `{wire : handlers.Wire} {Σ : Type}.

(** X12.  No request creates or updates a user.  [Password] has no name in
    JSON, so the user decoded from any body has no password and fails the
    validation: [CreateUser] never reads the clock nor calls the
    repository, and answers with the 400 of the body or of the validation
    after the matching log call; and [UpdateUser] does what it does
    whatever the [Update] and the [Create] of the repository and the clock
    are: it calls neither. *)
Theorem users_are_never_written
    (now now' : ST Σ Time) (h : handlers.UserHandler)
    (getByID : context.Context -> Z -> ST Σ (option models.User * Go.error))
    (getByUsername : context.Context -> string -> ST Σ (option models.User * Go.error))
    (list : context.Context -> ST Σ (list models.User * Go.error))
    (create create' : context.Context -> models.User -> ST Σ (models.User * Z * Go.error))
    (update update' : context.Context -> models.User -> ST Σ (models.User * Go.error))
    (delete : context.Context -> Z -> ST Σ Go.error)
    (lg : Logger.t Σ) (fuel : nat) (ctx : context.Context) (request : lambda.Request) (σ : Σ) :
  handlers.CreateUser now fuel h ctx request σ =
    match handlers.Unmarshal_User (lambda.Body request) with
    | inr err =>
        (handlers.createErrorResponse fuel 400 "Invalid request body",
         Logger.Error (handlers.log h) ctx "Invalid request body" (Some err)
           [Some (handlers.users_meta "CreateUser")] σ)
    | inl _ =>
        (handlers.createErrorResponse fuel 400 "Invalid user data",
         Logger.Warn (handlers.log h) ctx "Invalid user data"
           [Some (handlers.users_meta "CreateUser")] σ)
    end /\
  handlers.UpdateUser now fuel
    (handlers.mkUserHandler
       (repository.mkUserRepository getByID getByUsername list create update delete) lg)
    ctx request σ =
  handlers.UpdateUser now' fuel
    (handlers.mkUserHandler
       (repository.mkUserRepository getByID getByUsername list create' update' delete) lg)
    ctx request σ.
Proof.
  split.
  - unfold handlers.CreateUser, bind_ST, effect, unit_ST.
    destruct (handlers.Unmarshal_User (lambda.Body request)) as [document|err];
      [|reflexivity].
    rewrite decoded_is_invalid. reflexivity.
  - unfold handlers.UpdateUser, bind_ST, effect, unit_ST.
    cbn [handlers.userRepo handlers.log repository.GetByID].
    destruct (strconv.Atoi (lambda.PathParameter request "id")) as [userID|e];
      [|reflexivity].
    destruct (getByID ctx userID σ) as [[[user|] [err|]] σ1]; try reflexivity.
    destruct (handlers.Unmarshal_User (lambda.Body request)) as [document|err];
      [|reflexivity].
    rewrite decoded_is_invalid. reflexivity.
Qed.

(** X13.  A request with no "id" among its path parameters is answered 400
    by [GetUser], [UpdateUser] and [DeleteUser]: the empty string is no
    number, the error of the conversion is logged with the name of the
    handler, and the repository is not called. *)
Theorem missing_id_is_a_bad_request
    (now : ST Σ Time) (h : handlers.UserHandler) (fuel : nat) (ctx : context.Context)
    (request : lambda.Request) (σ : Σ) :
  lambda.PathParameters request !! "id" = None ->
  let answered (name : string) :=
    (handlers.createErrorResponse fuel 400 "Invalid user ID",
     Logger.Error (handlers.log h) ctx "Invalid user ID"
       (Some (Go.errorString
                ("strconv.Atoi: parsing " +:+ handlers.Quote "" +:+ ": invalid syntax")))
       [Some (handlers.users_meta name)] σ) in
  handlers.GetUser fuel h ctx request σ = answered "GetUser" /\
  handlers.UpdateUser now fuel h ctx request σ = answered "UpdateUser" /\
  handlers.DeleteUser fuel h ctx request σ = answered "DeleteUser".
Proof.
  intros Hmissing answered. subst answered.
  unfold handlers.GetUser, handlers.UpdateUser, handlers.DeleteUser, lambda.PathParameter.
  rewrite Hmissing. repeat split.
Qed.

End UserWrites.

(** A request with no path parameters at all. *)
Lemma missing_id_example :
  lambda.PathParameters (bare_request "GET" "/users/{id}") !! "id" = None /\
  (handlers.GetUser (wire := wire_demo) 2 (handlers.mkUserHandler memory_repository silent)
     (Some context.Background) (bare_request "GET" "/users/{id}") [ana]).1 =
  Some (events.mkResponse 400 {[ "Content-Type" := "application/json" ]} "{...}", None).
Proof.
  split; [reflexivity|].
  destruct (missing_id_is_a_bad_request (wire := wire_demo) still
              (handlers.mkUserHandler memory_repository silent) 2 (Some context.Background)
              (bare_request "GET" "/users/{id}") [ana] eq_refl) as (Hget & _).
  rewrite Hget. reflexivity.
Defined.

(** ** Identifiers in text *)

Lemma digit_pretty_N_char (d : N) :
  (d < 10)%N -> strconv.digit (pretty_N_char d) = Some (Z.of_N d).
Proof.
  intros Hd.
  assert (d = 0 \/ d = 1 \/ d = 2 \/ d = 3 \/ d = 4 \/ d = 5 \/ d = 6 \/ d = 7 \/ d = 8 \/ d = 9)%N
    as Hcases by lia.
  repeat (destruct Hcases as [->|Hcases]; [reflexivity|]). subst d. reflexivity.
Qed.

Lemma parseDigits_pretty_N_go (x : N) :
  exists k : nat,
    forall (s : string) (acc : Z),
      (0 <= acc)%Z ->
      (acc * 10 ^ Z.of_nat k + Z.of_N x <= strconv.maxUint64)%Z ->
      strconv.parseDigits (pretty_N_go x s) acc =
      strconv.parseDigits s (acc * 10 ^ Z.of_nat k + Z.of_N x).
Proof.
  induction x as [x IH] using (well_founded_induction N.lt_wf_0).
  destruct (decide (x = 0%N)) as [->|Hx].
  - exists 0%nat. intros s acc _ _. rewrite pretty_N_go_0. f_equal. cbn. lia.
  - assert (0 < x)%N as Hpos by lia.
    destruct (IH (x `div` 10)%N) as [k Hk].
    { apply N.div_lt; [exact Hpos|reflexivity]. }
    exists (S k). intros s acc Hacc Hmax.
    rewrite pretty_N_go_step by exact Hpos.
    assert (Z.of_N x = 10 * Z.of_N (x `div` 10) + Z.of_N (x `mod` 10))%Z as Hx10.
    { rewrite (N.div_mod x 10) at 1 by discriminate.
      rewrite N2Z.inj_add, N2Z.inj_mul. reflexivity. }
    assert (0 <= Z.of_N (x `mod` 10) < 10)%Z as Hmod.
    { split; [apply N2Z.is_nonneg|].
      change 10%Z with (Z.of_N 10). apply N2Z.inj_lt. apply N.mod_lt. discriminate. }
    assert (0 <= Z.of_N (x `div` 10))%Z as Hdiv by apply N2Z.is_nonneg.
    pose proof (digit_pretty_N_char (x `mod` 10) (N.mod_lt x 10 ltac:(discriminate)))
      as Hdigit.
    assert (10 ^ Z.of_nat (S k) = 10 * 10 ^ Z.of_nat k)%Z as Hpow.
    { rewrite Nat2Z.inj_succ, Z.pow_succ_r by apply Nat2Z.is_nonneg. reflexivity. }
    assert (0 <= 10 ^ Z.of_nat k)%Z as Hpow0 by (apply Z.pow_nonneg; discriminate).
    rewrite Hpow in *.
    revert Hk Hx10 Hmod Hdiv Hdigit Hmax Hpow0.
    generalize (10 ^ Z.of_nat k)%Z as p.
    generalize (Z.of_N (x `mod` 10)) as r. generalize (Z.of_N (x `div` 10)) as q.
    generalize (Z.of_N x) as n.
    intros n q r p Hk Hx10 Hmod Hdiv Hdigit Hmax Hpow0.
    clear IH Hx Hpos Hpow.
    rewrite Hk; [|exact Hacc|nia].
    cbn [strconv.parseDigits]. rewrite Hdigit.
    replace ((acc * p + q) * 10 + r)%Z with (acc * (10 * p) + n)%Z by lia.
    destruct (strconv.maxUint64 <? acc * (10 * p) + n)%Z eqn:Hlt;
      [apply Z.ltb_lt in Hlt; lia|reflexivity].
Qed.

Lemma pretty_N_char_no_sign (d : N) :
  pretty_N_char d <> "+"%char /\ pretty_N_char d <> "-"%char.
Proof. unfold pretty_N_char. repeat case_match; split; discriminate. Qed.

Lemma pretty_N_go_head (x : N) (s : string) :
  (0 < x)%N ->
  exists c rest, pretty_N_go x s = String c rest /\ c <> "+"%char /\ c <> "-"%char.
Proof.
  revert s. induction x as [x IH] using (well_founded_induction N.lt_wf_0).
  intros s Hpos. rewrite pretty_N_go_step by exact Hpos.
  destruct (decide (x `div` 10 = 0)%N) as [Hzero|Hmore].
  - rewrite Hzero, pretty_N_go_0. eexists. eexists. split; [reflexivity|].
    apply pretty_N_char_no_sign.
  - apply IH; [apply N.div_lt; [exact Hpos|reflexivity]|].
    destruct (x `div` 10)%N; [contradiction|reflexivity].
Qed.

Lemma parseDigits_pretty_N (x : N) :
  (Z.of_N x <= strconv.maxUint64)%Z ->
  strconv.parseDigits (pretty_N_go x "") 0 = inl (Z.of_N x).
Proof.
  intros Hmax. destruct (parseDigits_pretty_N_go x) as [k Hk].
  rewrite Hk; [reflexivity|discriminate|exact Hmax].
Qed.

Lemma Atoi_unsigned (c : ascii) (rest : string) :
  c <> "+"%char -> c <> "-"%char ->
  strconv.Atoi (String c rest) =
  match strconv.parseDigits (String c rest) 0 with
  | inr e => inr e
  | inl un => if (9223372036854775808 <=? un)%Z then inr strconv.ErrRange else inl un
  end.
Proof.
  intros Hplus Hminus. unfold strconv.Atoi.
  rewrite !bool_decide_eq_false_2 by assumption. reflexivity.
Qed.

Lemma Atoi_negative (c : ascii) (rest : string) :
  strconv.Atoi (String "-" (String c rest)) =
  match strconv.parseDigits (String c rest) 0 with
  | inr e => inr e
  | inl un => if (9223372036854775808 <? un)%Z then inr strconv.ErrRange else inl (- un)%Z
  end.
Proof. reflexivity. Qed.

Lemma Atoi_Sprintf_d (n : Z) :
  (- 9223372036854775808 <= n < 9223372036854775808)%Z ->
  strconv.Atoi (Sprintf_d n) = inl n.
Proof.
  intros Hrange. unfold Sprintf_d. destruct n as [|p|p].
  - reflexivity.
  - change (pretty (Z.pos p)) with (pretty_N_go (N.pos p) "").
    destruct (pretty_N_go_head (N.pos p) "" eq_refl) as (c & rest & Hhead & Hplus & Hminus).
    pose proof (parseDigits_pretty_N (N.pos p)) as Hparse.
    rewrite Hhead in *. rewrite Atoi_unsigned by assumption.
    rewrite Hparse by (unfold strconv.maxUint64; cbn; lia).
    cbn [Z.of_N]. destruct (9223372036854775808 <=? Z.pos p)%Z eqn:Hle;
      [apply Z.leb_le in Hle; lia|reflexivity].
  - change (pretty (Z.neg p)) with (String "-" (pretty_N_go (N.pos p) "")).
    destruct (pretty_N_go_head (N.pos p) "" eq_refl) as (c & rest & Hhead & _).
    pose proof (parseDigits_pretty_N (N.pos p)) as Hparse.
    rewrite Hhead in *. rewrite Atoi_negative.
    rewrite Hparse by (unfold strconv.maxUint64; cbn; lia).
    cbn [Z.of_N]. destruct (9223372036854775808 <? Z.pos p)%Z eqn:Hlt;
      [apply Z.ltb_lt in Hlt; lia|reflexivity].
Qed.

Lemma parseDigits_grows (s : string) :
  forall (acc n : Z), strconv.parseDigits s acc = inl n -> (0 <= acc)%Z -> (acc <= n)%Z.
Proof.
  induction s as [|c s IH]; intros acc n Hparse Hacc; cbn [strconv.parseDigits] in Hparse.
  - injection Hparse as <-. lia.
  - destruct (strconv.digit c) as [d|] eqn:Hd; [|discriminate Hparse].
    assert (0 <= d)%Z as Hd0.
    { unfold strconv.digit in Hd.
      destruct ((48 <=? Z.of_nat (nat_of_ascii c))%Z && (Z.of_nat (nat_of_ascii c) <=? 57)%Z)
        eqn:Hc; [|discriminate Hd].
      injection Hd as <-. apply andb_true_iff in Hc as [Hlow _]. apply Z.leb_le in Hlow. lia. }
    destruct (strconv.maxUint64 <? acc * 10 + d)%Z; [discriminate Hparse|].
    apply IH in Hparse; lia.
Qed.

Lemma Atoi_range (s : string) (n : Z) :
  strconv.Atoi s = inl n -> (- 9223372036854775808 <= n < 9223372036854775808)%Z.
Proof.
  unfold strconv.Atoi. destruct s as [|c rest]; [discriminate|].
  destruct (if bool_decide (c = "+"%char) || bool_decide (c = "-"%char) then rest
            else String c rest) as [|c' digits] eqn:Hdigits; [discriminate|].
  destruct (strconv.parseDigits (String c' digits) 0) as [un|e] eqn:Hparse; [|discriminate].
  apply parseDigits_grows in Hparse; [|lia].
  destruct (bool_decide (c = "-"%char)).
  - destruct (9223372036854775808 <? un)%Z eqn:Hlt; [discriminate|].
    apply Z.ltb_ge in Hlt. intros [= <-]. lia.
  - destruct (9223372036854775808 <=? un)%Z eqn:Hle; [discriminate|].
    apply Z.leb_gt in Hle. intros [= <-]. lia.
Qed.

(** X14.  [strconv.Atoi] reads back what [fmt.Sprintf("%d", n)] writes, for
    every [n] an [int] can hold; what it reads is always such an [n]; so
    the identifier a handler has read from the path is the one that the
    "resource_id" of its log calls spells.  The empty string and a sign
    alone are no numbers. *)
Theorem Atoi_reads_what_Sprintf_d_writes :
  (forall n : Z,
     (- 9223372036854775808 <= n < 9223372036854775808)%Z ->
     strconv.Atoi (Sprintf_d n) = inl n) /\
  (forall (s : string) (n : Z),
     strconv.Atoi s = inl n ->
     (- 9223372036854775808 <= n < 9223372036854775808)%Z /\
     strconv.Atoi (Sprintf_d n) = inl n) /\
  strconv.Atoi "" = inr strconv.ErrSyntax /\
  strconv.Atoi "+" = inr strconv.ErrSyntax /\
  strconv.Atoi "-" = inr strconv.ErrSyntax.
Proof.
  split; [exact Atoi_Sprintf_d|]. split; [|repeat split].
  intros s n Hread. pose proof (Atoi_range s n Hread) as Hrange.
  split; [exact Hrange|apply Atoi_Sprintf_d; exact Hrange].
Qed.

(** The two ends of the range, a sign that is read and dropped, and a
    number one past the range. *)
Lemma Atoi_examples :
  strconv.Atoi (Sprintf_d (- 9223372036854775808)) = inl (- 9223372036854775808)%Z /\
  strconv.Atoi "9223372036854775807" = inl 9223372036854775807%Z /\
  strconv.Atoi "9223372036854775808" = inr strconv.ErrRange /\
  strconv.Atoi "+7" = inl 7%Z /\ Sprintf_d 7 = "7" /\
  strconv.Atoi "7a" = inr strconv.ErrSyntax.
Proof.
  destruct Atoi_reads_what_Sprintf_d_writes as (Hback & _).
  split; [apply Hback; lia|]. repeat split; vm_compute; reflexivity.
Defined.

(** ** The repository of the users *)

Section PostgresUsers.

Context {Σ : Type}.

(** The rows scanned by the loop of [List], from the users it starts with. *)
Lemma scanUsers_all (rows : list (models.User + Go.error_value)) :
  forall users found : list models.User,
    repository.scanUsers rows users = inl found ->
    exists more, rows = inl <$> more /\ found = users ++ more.
Proof.
  induction rows as [|[user|err] rows IH]; intros users found Hscan;
    cbn [repository.scanUsers] in Hscan.
  - injection Hscan as <-. exists []. split; [reflexivity|]. rewrite app_nil_r. reflexivity.
  - apply IH in Hscan as (more & -> & ->). exists (user :: more).
    split; [reflexivity|]. rewrite <- app_assoc. reflexivity.
  - discriminate Hscan.
Qed.

(** X15.  What the repository of the users returns is a value or an error,
    not both and not neither.  [GetByID] and [GetByUsername] return a user
    exactly when they return no error (a row that is not there is an
    error); [List] returns either every row of the query, in its order, or
    no user at all with an error; [Create] returns the identifier zero with
    every error; and [Create] and [Update] leave the user they are given as
    it is. *)
Theorem postgres_returns_a_value_or_an_error
    (r : repository.PostgresUserRepository (Σ := Σ)) (ctx : context.Context)
    (id : Z) (username : string) (user : models.User) (σ : Σ) :
  let got := (repository.Postgres_GetByID r ctx id σ).1 in
  let named := (repository.Postgres_GetByUsername r ctx username σ).1 in
  let listed := (repository.Postgres_List r ctx σ).1 in
  let created := (repository.Postgres_Create r ctx user σ).1 in
  let updated := (repository.Postgres_Update r ctx user σ).1 in
  (is_Some got.1 <-> got.2 = None) /\
  (is_Some named.1 <-> named.2 = None) /\
  match listed.2 with
  | Some _ => listed.1 = []
  | None =>
      exists rows,
        (repository.Query_users (repository.db r) ctx repository.SelectAll σ).1 = inl rows /\
        repository.scanned rows = inl <$> listed.1 /\
        repository.rows_Err rows = None
  end /\
  (created.2 <> None -> created.1.2 = 0%Z) /\
  created.1.1 = user /\ updated.1 = user.
Proof.
  cbv zeta.
  unfold repository.Postgres_GetByID, repository.Postgres_GetByUsername,
    repository.Postgres_List, repository.Postgres_Create, repository.Postgres_Update,
    bind_ST, unit_ST.
  split; [|split; [|split; [|split; [|split]]]].
  - destruct (repository.QueryRow_user _ ctx (repository.SelectByID id) σ)
      as [[found|[|e]] σ1]; cbn; split; intros H; try reflexivity; try discriminate H;
      try (eexists; reflexivity); destruct H as [? H]; discriminate H.
  - destruct (repository.QueryRow_user _ ctx (repository.SelectByUsername username) σ)
      as [[found|[|e]] σ1]; cbn; split; intros H; try reflexivity; try discriminate H;
      try (eexists; reflexivity); destruct H as [? H]; discriminate H.
  - destruct (repository.Query_users _ ctx repository.SelectAll σ) as [[rows|e] σ1];
      [|reflexivity].
    destruct (repository.scanUsers (repository.scanned rows) []) as [users|e] eqn:Hscan;
      [|reflexivity].
    destruct (repository.rows_Err rows) as [e|] eqn:Herr; [reflexivity|].
    cbn. exists rows. split; [reflexivity|]. split; [|exact Herr].
    apply scanUsers_all in Hscan as (more & -> & ->). reflexivity.
  - destruct (repository.QueryRow_id _ ctx _ σ) as [[newID|e] σ1]; cbn;
      [intros H; contradiction|reflexivity].
  - destruct (repository.QueryRow_id _ ctx _ σ) as [[newID|e] σ1]; reflexivity.
  - destruct (repository.Exec _ ctx _ σ) as [result σ1]; reflexivity.
Qed.

End PostgresUsers.

Section PostgresHandlers.

Context `{wire : handlers.Wire} {Σ : Type}.
Variable now : ST Σ Time.

Hypothesis strings_are_serialized :
  forall m, exists text, handlers.Marshal (handlers.BodyStrings m) = inl text.

(** X16.  Behind the handlers of the users, the repository of
    user_repository.go makes a user that is not there a server error: its
    [GetByID] gives an error, not a nil user, for a row that is not there,
    and its [Delete] one for a statement that deletes nothing.  So [GetUser]
    answers 200, 400 or 500 and never its 404, [UpdateUser] answers 400 or
    500, and for a user that is not there [GetUser] and [DeleteUser] answer
    500 after logging "user with ID n not found" as an error. *)
Theorem missing_user_is_a_server_error
    (db : repository.sqlDB Σ) (lg : Logger.t Σ) (fuel : nat)
    (ctx : context.Context) (request : lambda.Request) (σ : Σ) :
  let h :=
    handlers.mkUserHandler
      (repository.PostgresUserRepository_UserRepository
         (repository.NewPostgresUserRepository db)) lg in
  let not_found (userID : Z) :=
    Go.errorString ("user with ID " +:+ Sprintf_d userID +:+ " not found") in
  (exists response,
     (handlers.GetUser (S (S fuel)) h ctx request σ).1 = Some (response, None) /\
     In (events.StatusCode response) [200; 400; 500]%Z) /\
  (exists response,
     (handlers.UpdateUser now (S (S fuel)) h ctx request σ).1 = Some (response, None) /\
     In (events.StatusCode response) [400; 500]%Z) /\
  (forall userID σ1,
     strconv.Atoi (lambda.PathParameter request "id") = inl userID ->
     repository.QueryRow_user db ctx (repository.SelectByID userID) σ =
       (inr repository.ErrNoRows, σ1) ->
     handlers.GetUser (S (S fuel)) h ctx request σ =
       (handlers.createErrorResponse (S (S fuel)) 500 "Error getting user",
        Logger.Error lg ctx "Error getting user" (Some (not_found userID))
          [Some (handlers.user_meta "GetUser" userID)] σ1)) /\
  (forall userID σ1,
     strconv.Atoi (lambda.PathParameter request "id") = inl userID ->
     repository.Exec db ctx (repository.DeleteByID userID) σ = (inl (inl 0%Z), σ1) ->
     handlers.DeleteUser (S (S fuel)) h ctx request σ =
       (handlers.createErrorResponse (S (S fuel)) 500 "Error deleting user",
        Logger.Error lg ctx "Error deleting user" (Some (not_found userID))
          [Some (handlers.user_meta "DeleteUser" userID)] σ1)).
Proof.
  cbv zeta.
  assert (forall statusCode message (allowed : list Z) (σ' : Σ),
            In statusCode allowed ->
            exists response,
              (handlers.createErrorResponse (S (S fuel)) statusCode message, σ').1 =
                Some (response, None) /\
              In (events.StatusCode response) allowed) as Herror.
  { intros statusCode message allowed σ' Hin.
    destruct (createErrorResponse_returns strings_are_serialized (S fuel) statusCode message)
      as (response & Hresponse & _ & Hstatus).
    exists response. split; [exact Hresponse|]. rewrite Hstatus. exact Hin. }
  split; [|split; [|split]].
  - unfold handlers.GetUser, bind_ST, effect, unit_ST.
    destruct (strconv.Atoi (lambda.PathParameter request "id")) as [userID|e];
      [|apply Herror; cbn; auto].
    cbn [handlers.userRepo repository.GetByID repository.PostgresUserRepository_UserRepository].
    unfold repository.Postgres_GetByID, bind_ST, unit_ST. cbn [repository.db
      repository.NewPostgresUserRepository].
    destruct (repository.QueryRow_user db ctx (repository.SelectByID userID) σ)
      as [[found|[|e]] σ1]; try (apply Herror; cbn; auto).
    destruct (createJSONResponse_returns strings_are_serialized fuel 200
                (handlers.BodyUser found))
      as (response & Hresponse & _ & [Hstatus|Hstatus]);
      exists response; (split; [exact Hresponse|]); rewrite Hstatus; cbn; auto.
  - unfold handlers.UpdateUser, bind_ST, effect, unit_ST.
    destruct (strconv.Atoi (lambda.PathParameter request "id")) as [userID|e];
      [|apply Herror; cbn; auto].
    cbn [handlers.userRepo repository.GetByID repository.PostgresUserRepository_UserRepository].
    unfold repository.Postgres_GetByID, bind_ST, unit_ST. cbn [repository.db
      repository.NewPostgresUserRepository].
    destruct (repository.QueryRow_user db ctx (repository.SelectByID userID) σ)
      as [[found|[|e]] σ1]; try (apply Herror; cbn; auto).
    destruct (handlers.Unmarshal_User (lambda.Body request)) as [document|e];
      [|apply Herror; cbn; auto].
    rewrite decoded_is_invalid. apply Herror. cbn. auto.
  - intros userID σ1 Hid Hrow.
    unfold handlers.GetUser, bind_ST, effect, unit_ST. rewrite Hid.
    cbn [handlers.userRepo repository.GetByID repository.PostgresUserRepository_UserRepository].
    unfold repository.Postgres_GetByID, bind_ST, unit_ST. cbn [repository.db
      repository.NewPostgresUserRepository].
    rewrite Hrow. reflexivity.
  - intros userID σ1 Hid Hexec.
    unfold handlers.DeleteUser, bind_ST, effect, unit_ST. rewrite Hid.
    cbn [handlers.userRepo repository.Delete repository.PostgresUserRepository_UserRepository].
    unfold repository.Postgres_Delete, bind_ST, unit_ST. cbn [repository.db
      repository.NewPostgresUserRepository].
    rewrite Hexec. reflexivity.
Qed.

End PostgresHandlers.

(** A user that is not there, on a database with no user. *)
Lemma missing_user_example :
  (forall m, exists text,
     handlers.Marshal (Wire := wire_demo) (handlers.BodyStrings m) = inl text) /\
  (handlers.GetUser (wire := wire_demo) 2
     (handlers.mkUserHandler
        (repository.PostgresUserRepository_UserRepository
           (repository.NewPostgresUserRepository no_users)) silent)
     (Some context.Background) (user_request "GET" "/users/{id}") []).1 =
  Some (events.mkResponse 500 {[ "Content-Type" := "application/json" ]} "{...}", None).
Proof.
  assert (forall m, exists text,
            handlers.Marshal (Wire := wire_demo) (handlers.BodyStrings m) = inl text)
    as Hstrings by (intros m; eexists; reflexivity).
  split; [exact Hstrings|].
  destruct (missing_user_is_a_server_error (wire := wire_demo) (fun σ => (0%Z, σ)) Hstrings
              no_users silent 0 (Some context.Background)
              (user_request "GET" "/users/{id}") [])
    as (_ & _ & Hget & _).
  rewrite (Hget 7%Z [repository.SelectByID 7] eq_refl eq_refl). reflexivity.
Defined.

(** ** A request of the users, from the router to the audit log *)

Section Served.

Context `{json : JSON} `{wire : handlers.Wire} {D : Type}.

(** A call of the logger of the process is the call on its world. *)
Lemma logger_on_world_invoke (l : Logger.t World) (c : Logger.call) (σ : World * D) :
  Logger.invoke (process.logger_on_world l) c σ = (Logger.invoke l c σ.1, σ.2).
Proof. destruct c; reflexivity. Qed.

(** Up to its log call, a handler of the users leaves the world as it is:
    the statements of the repository go to the database of the users. *)
Lemma silent_handlers_keep_the_world
    (db : repository.sqlDB D) (which : main.handler) (name : string)
    (method : nat -> handlers.UserHandler -> context.Context -> lambda.Request ->
              ST (World * D) (option (events.APIGatewayProxyResponse * Go.error)))
    (fuel : nat) (ctx : context.Context) (request : lambda.Request) (w : World) (d : D) :
  server.userMethod (process.on_world time_Now) which = Some (name, method) ->
  (method fuel
     (handlers.mkUserHandler
        (repository.PostgresUserRepository_UserRepository
           (repository.NewPostgresUserRepository (process.sqlDB_on_store db))) silent)
     ctx request (w, d)).2.1 = w.
Proof.
  intros Hmethod.
  destruct which; try discriminate Hmethod; injection Hmethod as <- <-.
  - unfold handlers.ListUsers, bind_ST, effect, unit_ST.
    cbn [handlers.userRepo handlers.log repository.List
         repository.PostgresUserRepository_UserRepository].
    unfold repository.Postgres_List, bind_ST, unit_ST.
    cbn [repository.db repository.NewPostgresUserRepository process.sqlDB_on_store
         repository.Query_users].
    unfold process.on_store. cbn [fst snd].
    destruct (repository.Query_users db ctx repository.SelectAll d) as [[rows|e] d1];
      [|reflexivity].
    destruct (repository.scanUsers (repository.scanned rows) []); [|reflexivity].
    destruct (repository.rows_Err rows); reflexivity.
  - unfold handlers.GetUser, bind_ST, effect, unit_ST.
    destruct (strconv.Atoi (lambda.PathParameter request "id")) as [userID|e];
      [|reflexivity].
    cbn [handlers.userRepo handlers.log repository.GetByID
         repository.PostgresUserRepository_UserRepository].
    unfold repository.Postgres_GetByID, bind_ST, unit_ST.
    cbn [repository.db repository.NewPostgresUserRepository process.sqlDB_on_store
         repository.QueryRow_user].
    unfold process.on_store. cbn [fst snd].
    destruct (repository.QueryRow_user db ctx (repository.SelectByID userID) d)
      as [[found|[|e]] d1]; reflexivity.
  - unfold handlers.CreateUser, bind_ST, effect, unit_ST.
    destruct (handlers.Unmarshal_User (lambda.Body request)) as [document|e];
      [|reflexivity].
    rewrite decoded_is_invalid. reflexivity.
  - unfold handlers.UpdateUser, bind_ST, effect, unit_ST.
    destruct (strconv.Atoi (lambda.PathParameter request "id")) as [userID|e];
      [|reflexivity].
    cbn [handlers.userRepo handlers.log repository.GetByID
         repository.PostgresUserRepository_UserRepository].
    unfold repository.Postgres_GetByID, bind_ST, unit_ST.
    cbn [repository.db repository.NewPostgresUserRepository process.sqlDB_on_store
         repository.QueryRow_user].
    unfold process.on_store. cbn [fst snd].
    destruct (repository.QueryRow_user db ctx (repository.SelectByID userID) d)
      as [[found|[|e]] d1]; try reflexivity.
    destruct (handlers.Unmarshal_User (lambda.Body request)) as [document|e];
      [|reflexivity].
    rewrite decoded_is_invalid. reflexivity.
  - unfold handlers.DeleteUser, bind_ST, effect, unit_ST.
    destruct (strconv.Atoi (lambda.PathParameter request "id")) as [userID|e];
      [|reflexivity].
    cbn [handlers.userRepo handlers.log repository.Delete
         repository.PostgresUserRepository_UserRepository].
    unfold repository.Postgres_Delete, bind_ST, unit_ST.
    cbn [repository.db repository.NewPostgresUserRepository process.sqlDB_on_store
         repository.Exec].
    unfold process.on_store. cbn [fst snd].
    destruct (repository.Exec db ctx (repository.DeleteByID userID) d)
      as [[[n|e]|e] d1]; try reflexivity.
    unfold repository.affected. repeat case_match; reflexivity.
Qed.

(** What the router calls on a context that is not nil. *)
Lemma router_calls (c0 : context.node) (request : events.APIGatewayProxyRequest) :
  exists ctx',
    main.router (Some c0) request =
      match main.route request with
      | Some h => Go.Returns (main.Handle h ctx' request)
      | None => Go.Returns (main.Respond main.notFound)
      end /\
    GetRequestIDFromContext ctx' =
      match events.Headers request !! "x-request-id" with
      | Some requestID => requestID
      | None => GetRequestIDFromContext (Some c0)
      end /\
    GetUserIDFromContext ctx' = GetUserIDFromContext (Some c0).
Proof.
  unfold main.router.
  destruct (events.Headers request !! "x-request-id") as [requestID|];
    cbn [context.WithValue]; eexists; (split; [reflexivity|]); split; reflexivity.
Qed.

(** X17.  A request of the users, from the router to the audit log, on the
    handler [init] builds.  Whatever the request, the database of the users
    and the failures of the sinks: every row the request adds to api_logs
    carries the name of the method the router chose as action, "users" as
    resource, the service name, the value of the header "x-request-id" as
    request id (what the incoming context held when the header is not
    there) and the user id of the incoming context; and every datum it
    sends to CloudWatch is named by a level and "_users", with the
    dimensions ServiceName, Resource and Action.  A request the router
    answers itself leaves no row and no datum. *)
Theorem user_requests_are_audited
    (db : repository.sqlDB D) (fuel : nat) (c0 : context.node) (request : lambda.Request)
    (run : ST (World * D) (option (events.APIGatewayProxyResponse * Go.error)))
    (w : World) (d : D) :
  server.serve (process.on_world time_Now) fuel (process.userHandler db) (Some c0) request =
    Some run ->
  let after := (run (w, d)).2.1 in
  let requestID :=
    match events.Headers (lambda.routed request) !! "x-request-id" with
    | Some requestID => requestID
    | None => GetRequestIDFromContext (Some c0)
    end in
  (forall table args,
     In (InsertInto table args) (drop (length (db_execs w)) (db_execs after)) ->
     exists which name method,
       main.route (lambda.routed request) = Some which /\
       server.userMethod (process.on_world (D := D) time_Now) which = Some (name, method) /\
       table = "api_logs" /\
       col_service_name args = ArgString "site-geav-api" /\
       col_request_id args = ArgString requestID /\
       col_user_id args = ArgInt (GetUserIDFromContext (Some c0)) /\
       col_action args = ArgString name /\
       col_resource args = ArgString "users") /\
  (forall input,
     In input (drop (length (cw_puts w)) (cw_puts after)) ->
     exists which name method level,
       main.route (lambda.routed request) = Some which /\
       server.userMethod (process.on_world (D := D) time_Now) which = Some (name, method) /\
       In level [DEBUG; INFO; WARN; ERROR; FATAL] /\
       input =
         cloudwatch.mkInput "SiteGeav/API"
           [MetricDatum.mk (level +:+ "_users")
              [Dimension.mk "ServiceName" "site-geav-api";
               Dimension.mk "Resource" "users";
               Dimension.mk "Action" name]
              (clock w (now_calls w)) 1%Z "Count"]).
Proof.
  intros Hserve after requestID. subst after.
  destruct (router_calls c0 (lambda.routed request)) as (ctx' & Hrouter & HrequestID & HuserID).
  fold requestID in HrequestID. clearbody requestID.
  unfold server.serve in Hserve. rewrite Hrouter in Hserve.
  destruct (main.route (lambda.routed request)) as [which|].
  - destruct (server.userMethod (process.on_world time_Now) which)
      as [[name method]|] eqn:Hmethod; [|discriminate Hserve].
    injection Hserve as <-.
    unfold process.userHandler, handlers.NewUserHandler.
    destruct (user_handlers_log_once (process.on_world time_Now)
                (repository.PostgresUserRepository_UserRepository
                   (repository.NewPostgresUserRepository (process.sqlDB_on_store db)))
                which name method fuel ctx' request (w, d) Hmethod)
      as (c & m & Hctx & Hmeta & Haction & Hresource & Hrun).
    rewrite (Hrun (process.logger_on_world log)). cbn [snd].
    rewrite logger_on_world_invoke. cbn [fst].
    rewrite (silent_handlers_keep_the_world db which name method fuel ctx' request w d Hmethod).
    destruct (wired_logger_records_the_call c m [] name "users" w Hmeta Haction Hresource)
      as [Hrows Hmetrics].
    rewrite Hctx, HrequestID, HuserID in Hrows.
    split.
    + intros table args Hin. exists which, name, method.
      split; [reflexivity|]. split; [exact Hmethod|].
      destruct (Hrows table args Hin) as (? & _ & ? & ? & ? & ? & ?).
      repeat split; assumption.
    + intros input Hin. destruct (Hmetrics input Hin) as (level & Hlevel & ->).
      exists which, name, method, level.
      split; [reflexivity|]. split; [exact Hmethod|]. split; [exact Hlevel|].
      destruct which; try discriminate Hmethod; injection Hmethod as <- _; reflexivity.
  - injection Hserve as <-. unfold unit_ST. cbn [fst snd].
    rewrite !drop_all. split; [intros ? ? []|intros ? []].
Qed.

End Served.

(** [GET /users/{id}] with the request id "req-1", on a database that has
    the user. *)
Lemma user_requests_are_audited_example :
  let handler :=
    process.userHandler (json := json_demo) only_ana in
  let run :=
    handlers.GetUser (wire := wire_demo) 2 handler
      (Some (context.valueCtx context.Background (Go.VString "requestID")
               (Go.VString "req-1")))
      (user_request "GET" "/users/{id}") in
  server.serve (wire := wire_demo) (process.on_world time_Now) 2 handler
    (Some context.Background) (user_request "GET" "/users/{id}") = Some run /\
  exists args,
    In (InsertInto "api_logs" args) (db_execs (run (start ticking never never, [])).2.1) /\
    col_request_id args = ArgString "req-1" /\
    col_action args = ArgString "GetUser" /\
    col_resource args = ArgString "users".
Proof.
  cbv zeta. split; [reflexivity|].
  destruct (user_requests_are_audited (json := json_demo) (wire := wire_demo) only_ana 2
              context.Background (user_request "GET" "/users/{id}") _
              (start ticking never never) [] eq_refl)
    as [Hrows _].
  assert (exists args,
            In (InsertInto "api_logs" args)
               (db_execs
                  (handlers.GetUser (wire := wire_demo) 2
                     (process.userHandler (json := json_demo) only_ana)
                     (Some (context.valueCtx context.Background (Go.VString "requestID")
                              (Go.VString "req-1")))
                     (user_request "GET" "/users/{id}")
                     (start ticking never never, [])).2.1)) as [args Hin].
  { eexists. vm_compute. right. left. reflexivity. }
  exists args. split; [exact Hin|].
  destruct (Hrows "api_logs" args Hin)
    as (which & name & method & Hroute & Hmethod & _ & _ & Hrequest & _ & Haction & Hresource).
  split; [exact Hrequest|]. split; [|exact Hresource].
  vm_compute in Hroute. injection Hroute as <-.
  injection Hmethod as <- _. exact Haction.
Defined.

(** ** The ratings of the lugares *)

Section Ratings.

Context `{wire : handlers.Wire} {Σ : Type}.

(** The test of the rating, as a range. *)
Lemma invalid_rating (rating : LugarRating.t) :
  ratings.invalid rating = false <-> (1 <= LugarRating.Rating rating <= 5)%Z.
Proof.
  unfold ratings.invalid. rewrite orb_false_iff, !Z.ltb_ge. lia.
Qed.

(** X18.  A rating reaches the repository only after the validation.
    [AddRatingToLugar] and [UpdateRatingForLugar] do the same with any two
    repositories whose [AddRating] and [UpdateRating] agree on the one
    rating the handler can pass: a rating from 1 to 5, with the lugar of
    the path (and, for the update, the rating id of the path), the instant
    of the clock, and the user id the body gives: the user is the one the
    request names, not one taken from the context. *)
Theorem ratings_reach_the_repository_validated
    (now : ST Σ Time)
    (add add' : context.Context -> LugarRating.t -> ST Σ (LugarRating.t * Z * Go.error))
    (update update' : context.Context -> LugarRating.t -> ST Σ (LugarRating.t * Go.error))
    (delete : context.Context -> Z -> ST Σ Go.error)
    (get : context.Context -> Z -> ST Σ (list LugarRating.t * Go.error))
    (lg : Logger.t Σ) (fuel : nat) (ctx : context.Context) (request : lambda.Request) (σ : Σ) :
  (forall lugarID document,
     strconv.Atoi (lambda.PathParameter request "id") = inl lugarID ->
     handlers.Unmarshal_LugarRating (lambda.Body request) = inl document ->
     (1 <= LugarRating.Rating document <= 5)%Z ->
     let rating :=
       LugarRating.mk (LugarRating.ID document) lugarID (LugarRating.UserID document)
         (LugarRating.Rating document) (now σ).1 in
     add ctx rating (now σ).2 = add' ctx rating (now σ).2) ->
  (forall lugarID ratingID document,
     strconv.Atoi (lambda.PathParameter request "id") = inl lugarID ->
     strconv.Atoi (lambda.PathParameter request "ratingId") = inl ratingID ->
     handlers.Unmarshal_LugarRating (lambda.Body request) = inl document ->
     (1 <= LugarRating.Rating document <= 5)%Z ->
     let rating :=
       LugarRating.mk ratingID lugarID (LugarRating.UserID document)
         (LugarRating.Rating document) (now σ).1 in
     update ctx rating (now σ).2 = update' ctx rating (now σ).2) ->
  ratings.AddRatingToLugar now fuel
    (ratings.mkLugarHandler (ratings.mkLugarRepository add update delete get) lg)
    ctx request σ =
  ratings.AddRatingToLugar now fuel
    (ratings.mkLugarHandler (ratings.mkLugarRepository add' update' delete get) lg)
    ctx request σ /\
  ratings.UpdateRatingForLugar now fuel
    (ratings.mkLugarHandler (ratings.mkLugarRepository add update delete get) lg)
    ctx request σ =
  ratings.UpdateRatingForLugar now fuel
    (ratings.mkLugarHandler (ratings.mkLugarRepository add' update' delete get) lg)
    ctx request σ.
Proof.
  intros Hadd Hupdate. split.
  - unfold ratings.AddRatingToLugar, bind_ST, effect, unit_ST.
    cbn [ratings.lugarRepo ratings.log ratings.AddRating].
    destruct (strconv.Atoi (lambda.PathParameter request "id")) as [lugarID|e];
      [|reflexivity].
    destruct (handlers.Unmarshal_LugarRating (lambda.Body request)) as [document|e];
      [|reflexivity].
    destruct (ratings.invalid document) eqn:Hvalid; [reflexivity|].
    apply invalid_rating in Hvalid.
    specialize (Hadd lugarID document eq_refl eq_refl Hvalid). cbv zeta in Hadd.
    destruct (now σ) as [date σ1]. cbn [fst snd] in Hadd.
    unfold LugarRating.set_Date, LugarRating.set_LugarID.
    cbn [LugarRating.ID LugarRating.LugarID LugarRating.UserID LugarRating.Rating
         LugarRating.Date].
    rewrite Hadd. reflexivity.
  - unfold ratings.UpdateRatingForLugar, bind_ST, effect, unit_ST.
    cbn [ratings.lugarRepo ratings.log ratings.UpdateRating].
    destruct (strconv.Atoi (lambda.PathParameter request "id")) as [lugarID|e];
      [|reflexivity].
    destruct (strconv.Atoi (lambda.PathParameter request "ratingId")) as [ratingID|e];
      [|reflexivity].
    destruct (handlers.Unmarshal_LugarRating (lambda.Body request)) as [document|e];
      [|reflexivity].
    destruct (ratings.invalid document) eqn:Hvalid; [reflexivity|].
    apply invalid_rating in Hvalid.
    specialize (Hupdate lugarID ratingID document eq_refl eq_refl eq_refl Hvalid).
    cbv zeta in Hupdate.
    destruct (now σ) as [date σ1]. cbn [fst snd] in Hupdate.
    unfold LugarRating.set_Date, LugarRating.set_LugarID, LugarRating.set_ID.
    cbn [LugarRating.ID LugarRating.LugarID LugarRating.UserID LugarRating.Rating
         LugarRating.Date].
    rewrite Hupdate. reflexivity.
Qed.

(** X19.  The lugar of the path does not reach the statements on one
    rating.  On the repository of the lugares, two requests with the same
    rating id and the same body, under any two lugares: [DeleteRatingFromLugar]
    gives the same response and leaves the same state, and
    [UpdateRatingForLugar] leaves the same state: the statements are by the
    rating id alone, and the lugar id goes to the log calls and to the
    response. *)
Theorem rating_paths_do_not_bind_the_lugar
    (now : ST Σ Time) (db : ratings.sqlDB Σ) (fuel : nat) (ctx : context.Context)
    (request request' : lambda.Request) (lugarID lugarID' : Z) (σ : Σ) :
  strconv.Atoi (lambda.PathParameter request "id") = inl lugarID ->
  strconv.Atoi (lambda.PathParameter request' "id") = inl lugarID' ->
  lambda.PathParameter request' "ratingId" = lambda.PathParameter request "ratingId" ->
  lambda.Body request' = lambda.Body request ->
  let h :=
    ratings.mkLugarHandler
      (ratings.PostgresLugarRepository_LugarRepository
         (ratings.NewPostgresLugarRepository db)) silent in
  ratings.DeleteRatingFromLugar fuel h ctx request' σ =
    ratings.DeleteRatingFromLugar fuel h ctx request σ /\
  (ratings.UpdateRatingForLugar now fuel h ctx request' σ).2 =
    (ratings.UpdateRatingForLugar now fuel h ctx request σ).2.
Proof.
  intros Hid Hid' Hrating Hbody h. subst h. split.
  - unfold ratings.DeleteRatingFromLugar, bind_ST, effect, unit_ST.
    rewrite Hid, Hid', Hrating.
    destruct (strconv.Atoi (lambda.PathParameter request "ratingId")) as [ratingID|e];
      [|reflexivity].
    cbn [ratings.lugarRepo ratings.log ratings.DeleteRating
         ratings.PostgresLugarRepository_LugarRepository].
    unfold ratings.Postgres_DeleteRating, bind_ST, unit_ST.
    destruct (ratings.Exec _ ctx (ratings.DeleteRatingByID ratingID) σ) as [result σ1].
    destruct (ratings.affected result _ ratingID); reflexivity.
  - unfold ratings.UpdateRatingForLugar, bind_ST, effect, unit_ST.
    rewrite Hid, Hid', Hrating, Hbody.
    destruct (strconv.Atoi (lambda.PathParameter request "ratingId")) as [ratingID|e];
      [|reflexivity].
    destruct (handlers.Unmarshal_LugarRating (lambda.Body request)) as [document|e];
      [|reflexivity].
    destruct (ratings.invalid document); [reflexivity|].
    destruct (now σ) as [date σ1].
    cbn [ratings.lugarRepo ratings.log ratings.UpdateRating
         ratings.PostgresLugarRepository_LugarRepository].
    unfold ratings.Postgres_UpdateRating, bind_ST, unit_ST.
    cbn [LugarRating.set_Date LugarRating.set_LugarID LugarRating.set_ID
         LugarRating.ID LugarRating.LugarID LugarRating.UserID LugarRating.Rating
         LugarRating.Date].
    destruct (ratings.Exec _ ctx _ σ1) as [result σ2].
    destruct (ratings.affected result _ ratingID); reflexivity.
Qed.

End Ratings.

Section RatingResponses.

Context `{wire : handlers.Wire} {Σ : Type}.
Variable now : ST Σ Time.

Hypothesis strings_are_serialized :
  forall m, exists text, handlers.Marshal (handlers.BodyStrings m) = inl text.

(** X20.  A handler of the ratings never hands an error to the Lambda
    runtime, and never answers 404: whatever fails, it returns a response
    with the JSON content type and a nil error, of status 201, 400 or 500
    for [AddRatingToLugar], 200, 400 or 500 for [UpdateRatingForLugar] and
    [GetRatingsForLugar], and 204, 400 or 500 for [DeleteRatingFromLugar]. *)
Theorem rating_handlers_answer_with_a_status
    (h : ratings.LugarHandler) (fuel : nat) (ctx : context.Context)
    (request : lambda.Request) (σ : Σ) :
  let answers (run : ST Σ (option (events.APIGatewayProxyResponse * Go.error)))
      (allowed : list Z) :=
    exists response,
      (run σ).1 = Some (response, None) /\
      events.ResponseHeaders response = {[ "Content-Type" := "application/json" ]} /\
      In (events.StatusCode response) allowed in
  answers (ratings.AddRatingToLugar now (S (S fuel)) h ctx request) [201; 400; 500]%Z /\
  answers (ratings.UpdateRatingForLugar now (S (S fuel)) h ctx request) [200; 400; 500]%Z /\
  answers (ratings.DeleteRatingFromLugar (S (S fuel)) h ctx request) [204; 400; 500]%Z /\
  answers (ratings.GetRatingsForLugar (S (S fuel)) h ctx request) [200; 400; 500]%Z.
Proof.
  cbv zeta.
  assert (forall statusCode message (allowed : list Z) (σ' : Σ),
            In statusCode allowed ->
            exists response,
              (handlers.createErrorResponse (S (S fuel)) statusCode message, σ').1 =
                Some (response, None) /\
              events.ResponseHeaders response = {[ "Content-Type" := "application/json" ]} /\
              In (events.StatusCode response) allowed) as Herror.
  { intros statusCode message allowed σ' Hin.
    destruct (createErrorResponse_returns strings_are_serialized (S fuel) statusCode message)
      as (response & Hresponse & Hheaders & Hstatus).
    exists response. split; [exact Hresponse|]. split; [exact Hheaders|].
    rewrite Hstatus. exact Hin. }
  assert (forall statusCode b (allowed : list Z) (σ' : Σ),
            In statusCode allowed -> In 500%Z allowed ->
            exists response,
              (handlers.createJSONResponse (S (S fuel)) statusCode b, σ').1 =
                Some (response, None) /\
              events.ResponseHeaders response = {[ "Content-Type" := "application/json" ]} /\
              In (events.StatusCode response) allowed) as Hjson.
  { intros statusCode b allowed σ' Hin Hin500.
    destruct (createJSONResponse_returns strings_are_serialized fuel statusCode b)
      as (response & Hresponse & Hheaders & [Hstatus|Hstatus]);
      exists response; (split; [exact Hresponse|]); (split; [exact Hheaders|]);
      rewrite Hstatus; assumption. }
  split; [|split; [|split]].
  - unfold ratings.AddRatingToLugar, bind_ST, effect, unit_ST.
    destruct (strconv.Atoi (lambda.PathParameter request "id")) as [lugarID|e];
      [|apply Herror; cbn; auto].
    destruct (handlers.Unmarshal_LugarRating (lambda.Body request)) as [document|e];
      [|apply Herror; cbn; auto].
    destruct (ratings.invalid document); [apply Herror; cbn; auto|].
    destruct (now σ) as [date σ1].
    destruct (ratings.AddRating (ratings.lugarRepo h) ctx _ σ1) as [[[rating ratingID] [err|]] σ2].
    + apply Herror. cbn. auto.
    + apply Hjson; cbn; auto.
  - unfold ratings.UpdateRatingForLugar, bind_ST, effect, unit_ST.
    destruct (strconv.Atoi (lambda.PathParameter request "id")) as [lugarID|e];
      [|apply Herror; cbn; auto].
    destruct (strconv.Atoi (lambda.PathParameter request "ratingId")) as [ratingID|e];
      [|apply Herror; cbn; auto].
    destruct (handlers.Unmarshal_LugarRating (lambda.Body request)) as [document|e];
      [|apply Herror; cbn; auto].
    destruct (ratings.invalid document); [apply Herror; cbn; auto|].
    destruct (now σ) as [date σ1].
    destruct (ratings.UpdateRating (ratings.lugarRepo h) ctx _ σ1) as [[rating [err|]] σ2].
    + apply Herror. cbn. auto.
    + apply Hjson; cbn; auto.
  - unfold ratings.DeleteRatingFromLugar, bind_ST, effect, unit_ST.
    destruct (strconv.Atoi (lambda.PathParameter request "id")) as [lugarID|e];
      [|apply Herror; cbn; auto].
    destruct (strconv.Atoi (lambda.PathParameter request "ratingId")) as [ratingID|e];
      [|apply Herror; cbn; auto].
    destruct (ratings.DeleteRating (ratings.lugarRepo h) ctx ratingID σ) as [[err|] σ1].
    + apply Herror. cbn. auto.
    + eexists. split; [reflexivity|]. split; [reflexivity|]. cbn. auto.
  - unfold ratings.GetRatingsForLugar, bind_ST, effect, unit_ST.
    destruct (strconv.Atoi (lambda.PathParameter request "id")) as [lugarID|e];
      [|apply Herror; cbn; auto].
    destruct (ratings.GetRatings (ratings.lugarRepo h) ctx lugarID σ) as [[found [err|]] σ1].
    + apply Herror. cbn. auto.
    + apply Hjson; cbn; auto.
Qed.

End RatingResponses.

(** [POST /lugares/3/ratings] with a rating of 5: the repository of the
    lugares, and one that refuses every rating outside 1 to 5 without a
    statement. *)
Lemma ratings_validated_example :
  let r := ratings.NewPostgresLugarRepository rating_log in
  let guarded ctx rating received :=
    if ratings.invalid rating then ((rating, 0%Z, None), received)
    else ratings.Postgres_AddRating r ctx rating received in
  let handler add :=
    ratings.mkLugarHandler
      (ratings.mkLugarRepository add (ratings.Postgres_UpdateRating r)
         (ratings.Postgres_DeleteRating r) (ratings.Postgres_GetRatings r)) silent in
  let ctx := Some context.Background in
  let request := rating_request "POST" "3" in
  (forall lugarID document,
     strconv.Atoi (lambda.PathParameter request "id") = inl lugarID ->
     handlers.Unmarshal_LugarRating (Wire := wire_demo) (lambda.Body request) = inl document ->
     (1 <= LugarRating.Rating document <= 5)%Z ->
     let rating :=
       LugarRating.mk (LugarRating.ID document) lugarID (LugarRating.UserID document)
         (LugarRating.Rating document) (noon []).1 in
     ratings.Postgres_AddRating r ctx rating (noon []).2 = guarded ctx rating (noon []).2) /\
  ratings.AddRatingToLugar (wire := wire_demo) noon 2 (handler guarded) ctx request [] =
    (Some (events.mkResponse 201 {[ "Content-Type" := "application/json" ]} "{...}", None),
     [ratings.InsertRating 3 7 5 12%Z]).
Proof.
  cbv zeta.
  assert (forall lugarID document,
            strconv.Atoi (lambda.PathParameter (rating_request "POST" "3") "id") =
              inl lugarID ->
            handlers.Unmarshal_LugarRating (Wire := wire_demo)
              (lambda.Body (rating_request "POST" "3")) = inl document ->
            (1 <= LugarRating.Rating document <= 5)%Z ->
            ratings.Postgres_AddRating (ratings.NewPostgresLugarRepository rating_log)
              (Some context.Background)
              (LugarRating.mk (LugarRating.ID document) lugarID (LugarRating.UserID document)
                 (LugarRating.Rating document) (noon []).1) (noon []).2 =
            (if ratings.invalid
                  (LugarRating.mk (LugarRating.ID document) lugarID
                     (LugarRating.UserID document) (LugarRating.Rating document) (noon []).1)
             then
               ((LugarRating.mk (LugarRating.ID document) lugarID (LugarRating.UserID document)
                   (LugarRating.Rating document) (noon []).1, 0%Z, None), (noon []).2)
             else
               ratings.Postgres_AddRating (ratings.NewPostgresLugarRepository rating_log)
                 (Some context.Background)
                 (LugarRating.mk (LugarRating.ID document) lugarID
                    (LugarRating.UserID document) (LugarRating.Rating document) (noon []).1)
                 (noon []).2)) as Hadd.
  { intros lugarID document _ _ Hrange.
    apply (invalid_rating
             (LugarRating.mk (LugarRating.ID document) lugarID (LugarRating.UserID document)
                (LugarRating.Rating document) (noon []).1)) in Hrange.
    rewrite Hrange. reflexivity. }
  split; [exact Hadd|].
  destruct (ratings_reach_the_repository_validated (wire := wire_demo) noon
              (ratings.Postgres_AddRating (ratings.NewPostgresLugarRepository rating_log))
              (fun ctx rating received =>
                 if ratings.invalid rating then ((rating, 0%Z, None), received)
                 else ratings.Postgres_AddRating
                        (ratings.NewPostgresLugarRepository rating_log) ctx rating received)
              (ratings.Postgres_UpdateRating (ratings.NewPostgresLugarRepository rating_log))
              (ratings.Postgres_UpdateRating (ratings.NewPostgresLugarRepository rating_log))
              (ratings.Postgres_DeleteRating (ratings.NewPostgresLugarRepository rating_log))
              (ratings.Postgres_GetRatings (ratings.NewPostgresLugarRepository rating_log))
              silent 2 (Some context.Background) (rating_request "POST" "3") []
              Hadd (fun _ _ _ _ _ _ _ => eq_refl)) as [Hsame _].
  etransitivity; [symmetry; exact Hsame|]. vm_compute. reflexivity.
Defined.

(** [DELETE] on the rating 9 under the lugar 4 and under the lugar 3. *)
Lemma rating_paths_example :
  let h :=
    ratings.mkLugarHandler
      (ratings.PostgresLugarRepository_LugarRepository
         (ratings.NewPostgresLugarRepository rating_log)) silent in
  (strconv.Atoi (lambda.PathParameter (rating_request "DELETE" "3") "id") = inl 3%Z /\
   strconv.Atoi (lambda.PathParameter (rating_request "DELETE" "4") "id") = inl 4%Z) /\
  ratings.DeleteRatingFromLugar (wire := wire_demo) 2 h (Some context.Background)
    (rating_request "DELETE" "4") [] =
  (handlers.noContent, [ratings.DeleteRatingByID 9]).
Proof.
  cbv zeta. split; [split; vm_compute; reflexivity|].
  destruct (rating_paths_do_not_bind_the_lugar (wire := wire_demo) noon rating_log 2
              (Some context.Background) (rating_request "DELETE" "3")
              (rating_request "DELETE" "4") 3 4 [] eq_refl eq_refl eq_refl eq_refl)
    as [Hdelete _].
  rewrite Hdelete. vm_compute. reflexivity.
Defined.

(** [PUT] of a rating of 5 on the rating 9, with an encoder that accepts
    every body. *)
Lemma rating_handlers_example :
  let h :=
    ratings.mkLugarHandler
      (ratings.PostgresLugarRepository_LugarRepository
         (ratings.NewPostgresLugarRepository rating_log)) silent in
  (forall m, exists text,
     handlers.Marshal (Wire := wire_demo) (handlers.BodyStrings m) = inl text) /\
  exists response,
    (ratings.UpdateRatingForLugar (wire := wire_demo) noon 2 h (Some context.Background)
       (rating_request "PUT" "3") []).1 = Some (response, None) /\
    In (events.StatusCode response) [200; 400; 500]%Z.
Proof.
  cbv zeta.
  assert (forall m, exists text,
            handlers.Marshal (Wire := wire_demo) (handlers.BodyStrings m) = inl text)
    as Hstrings by (intros m; eexists; reflexivity).
  split; [exact Hstrings|].
  destruct (rating_handlers_answer_with_a_status (wire := wire_demo) noon Hstrings
              (ratings.mkLugarHandler
                 (ratings.PostgresLugarRepository_LugarRepository
                    (ratings.NewPostgresLugarRepository rating_log)) silent)
              0 (Some context.Background) (rating_request "PUT" "3") [])
    as (_ & (response & Hresponse & _ & Hstatus) & _).
  exists response. split; [exact Hresponse|exact Hstatus].
Defined.
